(** * RazorPayMandate: eMandate tasks, webhook reconciliation and amount helpers

    A shallow embedding of the Python sources under [app/] and the
    properties of the specification checked against it.

    - [PyFloat]: Python [float] arithmetic (IEEE 754 binary64) as used by
      [app/utils/helpers.py].
    - [Py]: the dynamic values the code handles (parsed JSON, exceptions).
    - [PyDecimal]: [Decimal] products, rounded as the decimal context does.
    - [Models]: the rows of [app/models/models.py] and the request schemas.
    - [Orm]: the SQLAlchemy session, as a committed store and a working copy.
    - [Services], [Tasks], [Endpoints]: the code of
      [app/services/database_service.py], [app/tasks/*.py] and
      [app/api/v1/endpoints/{webhooks,emandate}.py]. *)

From Stdlib Require Import ZArith QArith List String Ascii Bool Lia DecimalString.
From Corelib Require Import SpecFloat.
Import ListNotations.


Set Warnings "-register-all".
#[local] Open Scope string_scope.
#[local] Open Scope Z_scope.

(* ===================================================================== *)
(** ** Python floats *)
(* ===================================================================== *)

Module PyFloat.

  (** A Python [float] is an IEEE 754 binary64 number: 53 bits of
      precision, exponents below 1024. *)
Definition prec : Z := 53.
Definition emax : Z := 1024.

Definition float := spec_float.

  (** [float(x)] for an integer [x], rounded to nearest even. *)
Definition of_int (x : Z) : float :=
    match x with
    | Z0 => S754_zero false
    | Zpos p => binary_normalize prec emax (Zpos p) 0 false
    | Zneg p => SFopp (binary_normalize prec emax (Zpos p) 0 false)
    end.

Definition mul (a b : float) : float := SFmul prec emax a b.
Definition div (a b : float) : float := SFdiv prec emax a b.

  (** [int(f)]: truncation toward zero; [None] stands for the
      [OverflowError] / [ValueError] Python raises on infinities and NaN. *)
Definition to_int (f : float) : option Z :=
    match f with
    | S754_zero _ => Some 0
    | S754_finite s m e =>
        let a := match e with
                 | Z0 => Zpos m
                 | Zpos k => Zpos m * 2 ^ Zpos k
                 | Zneg k => Zpos m / 2 ^ Zpos k
                 end in
        Some (if s then - a else a)
    | S754_infinity _ | S754_nan => None
    end.

  (** [round(f)] to an integer: nearest, ties to even. *)
Definition round_int (f : float) : option Z :=
    match f with
    | S754_zero _ => Some 0
    | S754_finite s m e =>
        let a := match e with
                 | Z0 => Zpos m
                 | Zpos k => Zpos m * 2 ^ Zpos k
                 | Zneg k =>
                     let d := 2 ^ Zpos k in
                     let q := Zpos m / d in
                     let r := Zpos m mod d in
                     match (2 * r ?= d) with
                     | Lt => q
                     | Gt => q + 1
                     | Eq => if Z.even q then q else q + 1
                     end
                 end in
        Some (if s then - a else a)
    | S754_infinity _ | S754_nan => None
    end.

End PyFloat.

(* ===================================================================== *)
(** ** app/utils/helpers.py: amount conversion *)
(* ===================================================================== *)

Module Helpers.

  (** [def convert_amount_to_paise(amount: float) -> int:
         return int(amount * 100)] *)
Definition convert_amount_to_paise (amount : PyFloat.float) : option Z :=
    PyFloat.to_int (PyFloat.mul amount (PyFloat.of_int 100)).

  (** [def convert_amount_from_paise(amount: int) -> float:
         return amount / 100].  Up to 2^53 in absolute value the [int] is a
      float as it is and the quotient is the one Python gives; beyond,
      Python rounds the quotient once where this rounds the [int] first. *)
Definition convert_amount_from_paise (amount : Z) : PyFloat.float :=
    PyFloat.div (PyFloat.of_int amount) (PyFloat.of_int 100).

  (** The conversion the specification words: [minor = round(major * 100)]. *)
Definition spec_to_minor_units (major : PyFloat.float) : option Z :=
    PyFloat.round_int (PyFloat.mul major (PyFloat.of_int 100)).

End Helpers.

(* ===================================================================== *)
(** ** Python values and exceptions *)
(* ===================================================================== *)

Module Py.

  (** The result of [json.loads]: [dict], [list], [str], [int], [float],
      [bool] and [None].  A JSON real is kept as the rational it denotes. *)
Inductive json : Type :=
  | JNull
  | JBool (b : bool)
  | JInt (z : Z)
  | JReal (q : Q)
  | JStr (s : string)
  | JArr (l : list json)
  | JObj (fields : list (string * json)).

  (** The exceptions the code raises or meets; [str(e)] is the carried
      message.  [HTTPException] carries the status code and the [message]
      of the error envelope; [Retry] is what [self.retry] raises to
      reschedule the task, with the delay before the next attempt. *)
Inductive exn : Type :=
  | ValueError (msg : string)
  | AttributeError (msg : string)
  | TypeError (msg : string)
  | KeyError (msg : string)
  | JSONDecodeError (msg : string)
  | ValidationError (msg : string)
  | IntegrityError (msg : string)
  | LookupError (msg : string)
  | OverflowError (msg : string)
  | HTTPException (status_code : Z) (message : string)
  | Retry (exc : exn) (delay : Z).

Fixpoint str (e : exn) : string :=
    match e with
    | ValueError m | AttributeError m | TypeError m | KeyError m
    | JSONDecodeError m | ValidationError m | IntegrityError m
    | LookupError m | OverflowError m => m
    | HTTPException _ m => m
    | Retry exc _ => str exc
    end.

Definition is_HTTPException (e : exn) : bool :=
    match e with HTTPException _ _ => true | _ => false end.

Definition is_Retry (e : exn) : bool :=
    match e with Retry _ _ => true | _ => false end.

  (** [type(v).__name__], for error messages. *)
Definition type_name (v : json) : string :=
    match v with
    | JNull => "NoneType" | JBool _ => "bool" | JInt _ => "int"
    | JReal _ => "float" | JStr _ => "str" | JArr _ => "list"
    | JObj _ => "dict"
    end.

  (** Truth value of an object, as tested by [if not x]. *)
Definition truthy (v : json) : bool :=
    match v with
    | JNull => false
    | JBool b => b
    | JInt z => negb (z =? 0)
    | JReal q => negb (Qeq_bool q 0)
    | JStr s => negb (String.eqb s "")
    | JArr l => match l with [] => false | _ => true end
    | JObj f => match f with [] => false | _ => true end
    end.

  (** Lookup in a [dict]; the first binding of a key is the one in force. *)
Fixpoint assoc (k : string) (fields : list (string * json)) : option json :=
    match fields with
    | [] => None
    | (k', v) :: rest => if String.eqb k k' then Some v else assoc k rest
    end.

  (** [d.get(k)] and [d.get(k, default)]; only a [dict] has [get]. *)
Definition get_or (d : json) (k : string) (default : json) : exn + json :=
    match d with
    | JObj fields =>
        inr (match assoc k fields with Some v => v | None => default end)
    | _ => inl (AttributeError
                  ("'" ++ type_name d ++ "' object has no attribute 'get'"))
    end.

Definition get (d : json) (k : string) : exn + json := get_or d k JNull.

  (** [p in s] on strings. *)
Fixpoint is_substring (p s : string) : bool :=
    String.prefix p s
    || match s with
       | EmptyString => false
       | String _ s' => is_substring p s'
       end.

Definition is_str (v : json) (s : string) : bool :=
    match v with JStr s' => String.eqb s s' | _ => false end.

  (** [k in x]: key membership on a [dict], element membership on a
      [list], substring on a [str]; other values are not iterable. *)
Definition contains (x : json) (k : string) : exn + bool :=
    match x with
    | JObj fields => inr (match assoc k fields with Some _ => true | None => false end)
    | JArr l => inr (existsb (fun v => is_str v k) l)
    | JStr s => inr (is_substring k s)
    | _ => inl (TypeError
                  ("argument of type '" ++ type_name x ++ "' is not iterable"))
    end.

  (** [x / 100] for a value taken from a parsed payload: numbers (and
      [bool], an [int] in Python) divide, anything else raises.  The
      quotient is kept exact: it is what the [Numeric(10, 2)] column the
      result goes to gives back for a whole number of paise. *)
Definition div100 (x : json) : exn + Q :=
    match x with
    | JInt z => inr (inject_Z z / 100)%Q
    | JReal q => inr (q / 100)%Q
    | JBool b => inr (inject_Z (if b then 1 else 0) / 100)%Q
    | _ => inl (TypeError
                  ("unsupported operand type(s) for /: '" ++ type_name x
                   ++ "' and 'int'"))
    end.

  (** Decimal rendering of a row id inside an f-string. *)
Definition str_of_nat (n : nat) : string :=
    NilZero.string_of_uint (Nat.to_uint n).

End Py.

(* ===================================================================== *)
(** ** app/models/models.py and app/schemas/schemas.py *)
(* ===================================================================== *)

Module MandateStatus.
Inductive t := CREATED | AUTHORIZED | CONFIRMED | PAUSED | CANCELLED | EXPIRED.

Definition eqb (a b : t) : bool :=
    match a, b with
    | CREATED, CREATED | AUTHORIZED, AUTHORIZED | CONFIRMED, CONFIRMED
    | PAUSED, PAUSED | CANCELLED, CANCELLED | EXPIRED, EXPIRED => true
    | _, _ => false
    end.

  (** The enum member's [value]. *)
Definition value (s : t) : string :=
    match s with
    | CREATED => "created" | AUTHORIZED => "authorized"
    | CONFIRMED => "confirmed" | PAUSED => "paused"
    | CANCELLED => "cancelled" | EXPIRED => "expired"
    end.
End MandateStatus.

Module PaymentStatus.
Inductive t := CREATED | AUTHORIZED | CAPTURED | REFUNDED | FAILED.
End PaymentStatus.

Module TransactionType.
Inductive t := AUTHORIZATION | RECURRING_PAYMENT | REFUND.

Definition name (x : t) : string :=
  match x with
  | AUTHORIZATION => "AUTHORIZATION"
  | RECURRING_PAYMENT => "RECURRING_PAYMENT"
  | REFUND => "REFUND"
  end.

(** What a [SQLEnum(TransactionType)] column makes of the text it reads
    from a row: the member of that name.  Members are stored by name, so
    any other text raises [LookupError]. *)
Definition of_stored (text : string) : Py.exn + t :=
  if String.eqb text "AUTHORIZATION" then inr AUTHORIZATION
  else if String.eqb text "RECURRING_PAYMENT" then inr RECURRING_PAYMENT
  else if String.eqb text "REFUND" then inr REFUND
  else inl (Py.LookupError
              ("'" ++ text ++ "' is not among the defined enum values. "
               ++ "Enum name: transactiontype. Possible values: "
               ++ "AUTHORIZATI.., RECURRING_P.., REFUND..")).
End TransactionType.

(** [TransactionTypeEnum] of schemas.py, a [str] enum of its own: the
    members have the names and values of the model's [TransactionType]. *)
Module TransactionTypeEnum.
Inductive t := AUTHORIZATION | RECURRING_PAYMENT | REFUND.

Definition value (x : t) : string :=
  match x with
  | AUTHORIZATION => "authorization"
  | RECURRING_PAYMENT => "recurring_payment"
  | REFUND => "refund"
  end.

(** The model's member of the same value. *)
Definition member (x : t) : TransactionType.t :=
  match x with
  | AUTHORIZATION => TransactionType.AUTHORIZATION
  | RECURRING_PAYMENT => TransactionType.RECURRING_PAYMENT
  | REFUND => TransactionType.REFUND
  end.
End TransactionTypeEnum.

(** Rows keep the columns the tasks, services and endpoints below read or
    write; the timestamp columns and the mandate's bank details are left
    out.  A [Numeric(10, 2)] or [Decimal] amount is the rational it
    denotes; a nullable column is an [option]. *)

Module Mandate.
Record t := mk {
    id : nat;
    razorpay_mandate_id : option string;
    customer_id : nat;
    amount : Q;
    currency : string;
    status : MandateStatus.t;
    frequency : option string;
    notes : option string
  }.

Definition set_status (s : MandateStatus.t) (m : t) : t :=
    mk (id m) (razorpay_mandate_id m) (customer_id m) (amount m) (currency m)
       s (frequency m) (notes m).

Definition set_razorpay_mandate_id (r : option string) (m : t) : t :=
    mk (id m) r (customer_id m) (amount m) (currency m)
       (status m) (frequency m) (notes m).
End Mandate.

Module Payment.
Record t := mk {
    id : nat;
    razorpay_payment_id : option string;
    razorpay_order_id : option string;
    customer_id : nat;
    mandate_id : option nat;
    amount : Q;
    currency : string;
    status : PaymentStatus.t;
    transaction_type : TransactionType.t;
    description : option string;
    receipt : option string;
    notes : option string;
    fee : option Q;
    tax : option Q;
    (** [error_code] and [error_description] hold whatever the webhook
        entity carried; [JNull] is the SQL NULL. *)
    error_code : Py.json;
    error_description : Py.json
  }.

Definition set_status (s : PaymentStatus.t) (p : t) : t :=
    mk (id p) (razorpay_payment_id p) (razorpay_order_id p) (customer_id p)
       (mandate_id p) (amount p) (currency p) s (transaction_type p)
       (description p) (receipt p) (notes p) (fee p) (tax p)
       (error_code p) (error_description p).

Definition set_fee (f : option Q) (p : t) : t :=
    mk (id p) (razorpay_payment_id p) (razorpay_order_id p) (customer_id p)
       (mandate_id p) (amount p) (currency p) (status p) (transaction_type p)
       (description p) (receipt p) (notes p) f (tax p)
       (error_code p) (error_description p).

Definition set_tax (x : option Q) (p : t) : t :=
    mk (id p) (razorpay_payment_id p) (razorpay_order_id p) (customer_id p)
       (mandate_id p) (amount p) (currency p) (status p) (transaction_type p)
       (description p) (receipt p) (notes p) (fee p) x
       (error_code p) (error_description p).

Definition set_error_code (c : Py.json) (p : t) : t :=
    mk (id p) (razorpay_payment_id p) (razorpay_order_id p) (customer_id p)
       (mandate_id p) (amount p) (currency p) (status p) (transaction_type p)
       (description p) (receipt p) (notes p) (fee p) (tax p)
       c (error_description p).

Definition set_error_description (c : Py.json) (p : t) : t :=
    mk (id p) (razorpay_payment_id p) (razorpay_order_id p) (customer_id p)
       (mandate_id p) (amount p) (currency p) (status p) (transaction_type p)
       (description p) (receipt p) (notes p) (fee p) (tax p)
       (error_code p) c.

Definition set_razorpay_payment_id (r : option string) (p : t) : t :=
    mk (id p) r (razorpay_order_id p) (customer_id p)
       (mandate_id p) (amount p) (currency p) (status p) (transaction_type p)
       (description p) (receipt p) (notes p) (fee p) (tax p)
       (error_code p) (error_description p).

Definition set_razorpay_order_id (r : option string) (p : t) : t :=
    mk (id p) (razorpay_payment_id p) r (customer_id p)
       (mandate_id p) (amount p) (currency p) (status p) (transaction_type p)
       (description p) (receipt p) (notes p) (fee p) (tax p)
       (error_code p) (error_description p).
End Payment.

Module Order.
Record t := mk {
    id : nat;
    razorpay_order_id : option string;
    customer_id : option nat;
    amount : Q;
    currency : string;
    receipt : option string;
    status : option string;
    attempts : Z;
    notes : option string
  }.

Definition set_status (s : option string) (o : t) : t :=
    mk (id o) (razorpay_order_id o) (customer_id o) (amount o) (currency o)
       (receipt o) s (attempts o) (notes o).
End Order.

Module WebhookEvent.
Record t := mk {
    id : nat;
    event_id : string;
    event_type : string;
    payload : string;
    processed : bool;
    processing_error : option string
  }.

Definition set_processed (b : bool) (e : option string) (w : t) : t :=
    mk (id w) (event_id w) (event_type w) (payload w) b e.
End WebhookEvent.

(** The pydantic models the services are written against. *)

Module OrderCreate.
Record t := mk {
    amount : Q;
    currency : string;
    receipt : option string;
    notes : option string;
    customer_id : option nat
  }.
End OrderCreate.

Module PaymentCreate.
Record t := mk {
    amount : Q;
    currency : string;
    description : option string;
    receipt : option string;
    notes : option string;
    customer_id : nat;
    mandate_id : option nat;
    transaction_type : TransactionTypeEnum.t
  }.
End PaymentCreate.

Module WebhookEventCreate.
Record t := mk {
    event_id : string;
    event_type : string;
    payload : string
  }.
End WebhookEventCreate.

Module EMandateRecurringPaymentRequest.
Record t := mk {
    mandate_id : nat;
    amount : Q;
    description : option string;
    receipt : option string;
    notes : option Py.json
  }.
End EMandateRecurringPaymentRequest.

(** What a caller hands to a service method typed with a pydantic model:
    the model itself, or a plain [dict].  Attribute access on a [dict]
    raises [AttributeError]. *)
Inductive arg (A : Type) : Type :=
| Model (a : A)
| Dict (fields : list (string * Py.json)).
Arguments Model {A} a.
Arguments Dict {A} fields.

Definition getattr {A B : Type} (x : arg A) (name : string) (proj : A -> B)
  : Py.exn + B :=
  match x with
  | Model a => inr (proj a)
  | Dict _ => inl (Py.AttributeError
                     ("'dict' object has no attribute '" ++ name ++ "'"))
  end.

(* ===================================================================== *)
(** ** The persistence store and the SQLAlchemy session *)
(* ===================================================================== *)

Module Orm.

Import Py.

Record DB := mkDB {
  mandates : list Mandate.t;
  payments : list Payment.t;
  orders : list Order.t;
  webhook_events : list WebhookEvent.t
}.

(** A session ([SessionLocal()], [autocommit=False]) holds the objects it
    loaded or added, with their pending changes: [working] is the store as
    this session sees it, [committed] what other sessions can observe. *)
Record Session := mkSession {
  committed : DB;
  working : DB
}.

Definition open (d : DB) : Session := mkSession d d.

(** [db.close()]: pending changes are dropped. *)
Definition close (s : Session) : DB := committed s.

(** Code that runs against a session and may raise: the state reached is
    kept when an exception propagates. *)
Definition M (A : Type) : Type := Session -> Session * (exn + A).

Definition ret {A} (a : A) : M A := fun s => (s, inr a).
Definition raise {A} (e : exn) : M A := fun s => (s, inl e).

Definition bind {A B} (c : M A) (k : A -> M B) : M B :=
  fun s =>
    match c s with
    | (s', inr a) => k a s'
    | (s', inl e) => (s', inl e)
    end.

(** [try: c  except Exception as e: h e] *)
Definition try_except {A} (c : M A) (h : exn -> M A) : M A :=
  fun s =>
    match c s with
    | (s', inl e) => h e s'
    | r => r
    end.

Definition lift {A} (r : exn + A) : M A := fun s => (s, r).

Definition get_working : M DB := fun s => (s, inr (working s)).

Definition set_working (d : DB) : M unit :=
  fun s => (mkSession (committed s) d, inr tt).

(** [db.commit()].  [unique_ok] is the check of the unique indexes on the
    rows this transaction wrote; a violation raises [IntegrityError]. *)
Definition commit_checking (unique_ok : DB -> bool) : M unit :=
  fun s =>
    if unique_ok (working s)
    then (mkSession (working s) (working s), inr tt)
    else (s, inl (IntegrityError "UNIQUE constraint failed")).

Definition commit : M unit := commit_checking (fun _ => true).

(** [db.rollback()] *)
Definition rollback : M unit :=
  fun s => (mkSession (committed s) (committed s), inr tt).

(** Primary keys are assigned by the database: one more than the largest
    key in the table. *)
Definition next_id (ids : list nat) : nat := S (list_max ids).

(** Replacing the row that has the key of [r]. *)
Definition put_mandate (r : Mandate.t) (d : DB) : DB :=
  mkDB (map (fun x => if Nat.eqb (Mandate.id x) (Mandate.id r) then r else x)
            (mandates d))
       (payments d) (orders d) (webhook_events d).

Definition put_payment (r : Payment.t) (d : DB) : DB :=
  mkDB (mandates d)
       (map (fun x => if Nat.eqb (Payment.id x) (Payment.id r) then r else x)
            (payments d))
       (orders d) (webhook_events d).

Definition put_order (r : Order.t) (d : DB) : DB :=
  mkDB (mandates d) (payments d)
       (map (fun x => if Nat.eqb (Order.id x) (Order.id r) then r else x)
            (orders d))
       (webhook_events d).

Definition put_webhook_event (r : WebhookEvent.t) (d : DB) : DB :=
  mkDB (mandates d) (payments d) (orders d)
       (map (fun x => if Nat.eqb (WebhookEvent.id x) (WebhookEvent.id r)
                      then r else x)
            (webhook_events d)).

(** An attribute assignment on a loaded object: pending until commit. *)
Definition assign (f : DB -> DB) : M unit :=
  fun s => (mkSession (committed s) (f (working s)), inr tt).

(** [db.query(T).filter(T.id == k).first()] *)
Definition mandate_by_id (k : nat) : M (option Mandate.t) :=
  fun s => (s, inr (find (fun x => Nat.eqb (Mandate.id x) k)
                         (mandates (working s)))).

Definition webhook_by_id (k : nat) : M (option WebhookEvent.t) :=
  fun s => (s, inr (find (fun x => Nat.eqb (WebhookEvent.id x) k)
                         (webhook_events (working s)))).

Definition opt_str_is (o : option string) (s : string) : bool :=
  match o with Some s' => String.eqb s' s | None => false end.

(** [db.query(Payment).filter(Payment.razorpay_payment_id == v).first()]
    for a value [v] taken from a payload.  The column holds strings and a
    [str] value selects the row that has it; a value of another type,
    which SQLite would compare as text or refuse to bind, is taken to
    select no row. *)
Definition payment_by_razorpay_payment_id (v : json) : M (option Payment.t) :=
  fun s =>
    (s, inr match v with
            | JStr k => find (fun x => opt_str_is (Payment.razorpay_payment_id x) k)
                             (payments (working s))
            | _ => None
            end).

Definition order_by_razorpay_order_id (v : json) : M (option Order.t) :=
  fun s =>
    (s, inr match v with
            | JStr k => find (fun x => opt_str_is (Order.razorpay_order_id x) k)
                             (orders (working s))
            | _ => None
            end).

(** Unique indexes, checked for the row with key [k] against the others. *)
Definition event_id_free (eid : string) (d : DB) : bool :=
  negb (existsb (fun x => String.eqb (WebhookEvent.event_id x) eid)
                (webhook_events d)).

Definition razorpay_order_id_unique (k : nat) (d : DB) : bool :=
  match find (fun x => Nat.eqb (Order.id x) k) (orders d) with
  | Some o =>
      match Order.razorpay_order_id o with
      | Some r =>
          negb (existsb (fun x => negb (Nat.eqb (Order.id x) k)
                                  && opt_str_is (Order.razorpay_order_id x) r)
                        (orders d))
      | None => true
      end
  | None => true
  end.

Definition razorpay_payment_id_unique (k : nat) (d : DB) : bool :=
  match find (fun x => Nat.eqb (Payment.id x) k) (payments d) with
  | Some p =>
      match Payment.razorpay_payment_id p with
      | Some r =>
          negb (existsb (fun x => negb (Nat.eqb (Payment.id x) k)
                                  && opt_str_is (Payment.razorpay_payment_id x) r)
                        (payments d))
      | None => true
      end
  | None => true
  end.

Definition razorpay_mandate_id_unique (k : nat) (d : DB) : bool :=
  match find (fun x => Nat.eqb (Mandate.id x) k) (mandates d) with
  | Some m =>
      match Mandate.razorpay_mandate_id m with
      | Some r =>
          negb (existsb (fun x => negb (Nat.eqb (Mandate.id x) k)
                                  && opt_str_is (Mandate.razorpay_mandate_id x) r)
                        (mandates d))
      | None => true
      end
  | None => true
  end.

(** Frame condition: a computation that leaves the webhook events of the
    working store as they are, whatever its outcome. *)
Definition keeps_webhook_events {A} (c : M A) : Prop :=
  forall s s' r, c s = (s', r) ->
    webhook_events (working s') = webhook_events (working s).

(** A computation whose exceptions are its own: none of them is the
    [Retry] that only [self.retry] raises. *)
Definition never_retries {A} (c : M A) : Prop :=
  forall s s' e, c s = (s', inl e) -> is_Retry e = false.

End Orm.

Declare Scope orm_scope.
Delimit Scope orm_scope with orm.
Notation "x <- c ;; k" := (Orm.bind c (fun x => k))
  (at level 61, c at next level, right associativity) : orm_scope.
Notation "c ;;; k" := (Orm.bind c (fun _ => k))
  (at level 61, right associativity) : orm_scope.

(* ===================================================================== *)
(** ** What the code takes from its environment *)
(* ===================================================================== *)

(** The gateway's answer to [create_order]: the [id] and [status] keys of
    the returned document. *)
Record gateway_order := mkGatewayOrder {
  gateway_order_id : option string;
  gateway_order_status : option string
}.

(** Library functions and settings the code calls but does not define:
    [settings.razorpay_webhook_secret]; [hmac.new(key, msg,
    sha256).hexdigest()]; [json.loads] ([None] for [JSONDecodeError]);
    [str()] of a parsed value inside an f-string; and the gateway client's
    [create_order(amount_in_paise, currency, receipt)]. *)
Record Env := mkEnv {
  razorpay_webhook_secret : string;
  hmac_sha256_hexdigest : string -> string -> string;
  json_loads : string -> option Py.json;
  format_value : Py.json -> string;
  razorpay_create_order : Z -> string -> option string -> Py.exn + gateway_order
}.

(** [MockRazorpayClient.create_order] on a client just built by
    [get_razorpay_client()], as every service instance has: the mock's
    order table is empty, so the id is [order_mock_1]. *)
Definition MockRazorpayClient_create_order
  (amount : Z) (currency : string) (receipt : option string)
  : Py.exn + gateway_order :=
  inr (mkGatewayOrder (Some ("order_mock_" ++ Py.str_of_nat (0 + 1)))
                      (Some "created")).

(* ===================================================================== *)
(** ** Python's [decimal] arithmetic *)
(* ===================================================================== *)

Module PyDecimal.

(** A [Decimal] is the rational it denotes.  An arithmetic result is
    rounded to the precision of the default context, 28 significant
    digits, with [ROUND_HALF_EVEN].  The exponent limits of the context
    ([Emax = 999999], [Emin = -999999]) are not modelled: the amounts are
    taken to lie within them. *)
Definition prec : Z := 28.

(** The number of decimal digits of a positive integer. *)
Fixpoint digits_aux (fuel : nat) (n : Z) : Z :=
  match fuel with
  | O => 0
  | S fuel' => if n <? 10 then 1 else 1 + digits_aux fuel' (n / 10)
  end.

Definition digits (n : Z) : Z := digits_aux (S (Z.to_nat (Z.log2 n))) n.

(** The exponent of the leading digit of a non-zero [q]: the integer
    part of the decimal logarithm of its absolute value. *)
Definition adjusted (q : Q) : Z :=
  let n := Z.abs (Qnum q) in
  let d := Zpos (Qden q) in
  if d <=? n then digits (n / d) - 1
  else
    let m := digits (d / n) in
    if n * 10 ^ (m - 1) =? d then - (m - 1) else - m.

(** The integer nearest to [n / d], for [0 <= n] and [0 < d]; a tie goes
    to the even one. *)
Definition round_half_even (n d : Z) : Z :=
  let f := n / d in
  match 2 * (n mod d) ?= d with
  | Lt => f
  | Gt => f + 1
  | Eq => if Z.even f then f else f + 1
  end.

(** Rounding to the context: the coefficient keeps [prec] digits. *)
Definition round (q : Q) : Q :=
  if Qnum q =? 0 then q
  else
    let a := Z.abs (Qnum q) in
    let d := Zpos (Qden q) in
    let e := adjusted q - (prec - 1) in
    let v :=
      if 0 <=? e
      then inject_Z (round_half_even a (d * 10 ^ e) * 10 ^ e)
      else Qmake (round_half_even (a * 10 ^ (- e)) d) (Z.to_pos (10 ^ (- e))) in
    if Qnum q <? 0 then (- v)%Q else v.

(** [a * b] *)
Definition mul (a b : Q) : Q := round (a * b)%Q.

End PyDecimal.

(* ===================================================================== *)
(** ** app/services/database_service.py *)
(* ===================================================================== *)

Module Services.

Import Py Orm.
#[local] Open Scope orm_scope.

(** [int(d)] for a [Decimal]: truncation toward zero. *)
Definition int_of_decimal (q : Q) : Z := Z.quot (Qnum q) (Zpos (Qden q)).

(** [int(order_data.amount * 100)], the "Convert to paise" of
    [create_order] *)
Definition amount_in_paise (amount : Q) : Z :=
  int_of_decimal (PyDecimal.mul amount 100).

(** [MandateService.get_mandate] *)
Definition get_mandate (mandate_id : nat) : M (option Mandate.t) :=
  mandate_by_id mandate_id.

(** [PaymentService.create_order] *)
Definition create_order (env : Env) (order_data : arg OrderCreate.t) : M Order.t :=
  try_except
    (amount <- lift (getattr order_data "amount" OrderCreate.amount) ;;
     currency <- lift (getattr order_data "currency" OrderCreate.currency) ;;
     receipt <- lift (getattr order_data "receipt" OrderCreate.receipt) ;;
     notes <- lift (getattr order_data "notes" OrderCreate.notes) ;;
     razorpay_order <-
       lift (razorpay_create_order env (amount_in_paise amount)
                                   currency receipt) ;;
     customer_id <- lift (getattr order_data "customer_id" OrderCreate.customer_id) ;;
     d <- get_working ;;
     let db_order :=
       Order.mk (next_id (map Order.id (orders d)))
                (gateway_order_id razorpay_order) customer_id amount currency
                receipt (gateway_order_status razorpay_order) 0 notes in
     set_working (mkDB (mandates d) (payments d) (orders d ++ [db_order])
                       (webhook_events d)) ;;;
     commit_checking (razorpay_order_id_unique (Order.id db_order)) ;;;
     ret db_order)
    (fun e => rollback ;;; raise e).

(** [PaymentService.create_payment].  [payment_data.transaction_type] is
    a member of the schema's [TransactionTypeEnum], a [str]; the
    [SQLEnum(TransactionType)] column takes a [str] as it comes, so the
    row is written with the member's value ("recurring_payment") where
    the column keeps its own members by name.  The row below records the
    member that text is the value of.  The commit succeeds;
    [db.refresh(db_payment)] then reads the row back and the column
    cannot convert the text.  The handler's rollback comes after the
    commit and undoes nothing. *)
Definition create_payment (payment_data : arg PaymentCreate.t) : M Payment.t :=
  try_except
    (customer_id <- lift (getattr payment_data "customer_id" PaymentCreate.customer_id) ;;
     mandate_id <- lift (getattr payment_data "mandate_id" PaymentCreate.mandate_id) ;;
     amount <- lift (getattr payment_data "amount" PaymentCreate.amount) ;;
     currency <- lift (getattr payment_data "currency" PaymentCreate.currency) ;;
     transaction_type <-
       lift (getattr payment_data "transaction_type" PaymentCreate.transaction_type) ;;
     description <- lift (getattr payment_data "description" PaymentCreate.description) ;;
     receipt <- lift (getattr payment_data "receipt" PaymentCreate.receipt) ;;
     notes <- lift (getattr payment_data "notes" PaymentCreate.notes) ;;
     d <- get_working ;;
     let db_payment :=
       Payment.mk (next_id (map Payment.id (payments d))) None None customer_id
                  mandate_id amount currency PaymentStatus.CREATED
                  (TransactionTypeEnum.member transaction_type)
                  description receipt notes None None JNull JNull in
     set_working (mkDB (mandates d) (payments d ++ [db_payment]) (orders d)
                       (webhook_events d)) ;;;
     commit ;;;
     lift (TransactionType.of_stored
             (TransactionTypeEnum.value transaction_type)) ;;;
     ret db_payment)
    (fun e => rollback ;;; raise e).

(** [WebhookService.create_webhook_event]: [processed] takes the column
    default [False]; [event_id] is a unique column. *)
Definition create_webhook_event (webhook_data : WebhookEventCreate.t)
  : M WebhookEvent.t :=
  try_except
    (d <- get_working ;;
     let db_webhook :=
       WebhookEvent.mk (next_id (map WebhookEvent.id (webhook_events d)))
                       (WebhookEventCreate.event_id webhook_data)
                       (WebhookEventCreate.event_type webhook_data)
                       (WebhookEventCreate.payload webhook_data)
                       false None in
     set_working (mkDB (mandates d) (payments d) (orders d)
                       (webhook_events d ++ [db_webhook])) ;;;
     commit_checking
       (fun _ => event_id_free (WebhookEventCreate.event_id webhook_data) d) ;;;
     ret db_webhook)
    (fun e => rollback ;;; raise e).

(** [WebhookService.mark_webhook_processed] *)
Definition mark_webhook_processed (webhook_id : nat) (error : option string)
  : M bool :=
  webhook <- webhook_by_id webhook_id ;;
  match webhook with
  | Some w =>
      assign (put_webhook_event (WebhookEvent.set_processed true error w)) ;;;
      commit ;;;
      ret true
  | None => ret false
  end.

End Services.

(* ===================================================================== *)
(** ** The task queue *)
(* ===================================================================== *)

Module Celery.

Import Py.

(** [@celery_app.task(bind=True, retry_kwargs={'max_retries': 3,
    'countdown': 60})] *)
Record retry_kwargs := mkRetry {
  max_retries : nat;
  countdown : Z
}.

(** The bound task instance: its retry options and [self.request.retries],
    the number of earlier attempts of this call. *)
Record task := mkTask {
  options : option retry_kwargs;
  request_retries : nat
}.

(** Modelled from the spec: the queue's retry primitive [self.retry] and
    its worker loop belong to the task framework configured in
    [app/core/celery_app.py], which is not among the sources.  Following
    the retry policy of the specification, a task is attempted at most
    [max_retries] times, [countdown] time units apart; [self.retry(exc=e)]
    reschedules while attempts remain and otherwise re-raises [e], which
    marks the task failed for good. *)
Definition retry (self : task) (exc : exn) : exn :=
  match options self with
  | Some kw =>
      if (S (request_retries self) <? max_retries kw)%nat
      then Retry exc (countdown kw)
      else exc
  | None => exc
  end.

(** Final state of a task call, as kept by the result backend. *)
Inductive state (R : Type) : Type :=
| SUCCESS (result : R)
| FAILURE (e : exn).
Arguments SUCCESS {R} result.
Arguments FAILURE {R} e.

(** One attempt in the log of a call: the exception it ended with, and
    the delay before the next attempt when one was scheduled. *)
Record attempt := mkAttempt {
  raised : exn;
  next_in : option Z
}.

(** Modelled from the spec: the worker loop.  A call is executed; a
    [Retry] schedules the next attempt, any other exception is a permanent
    failure.  [fuel] bounds the number of further attempts and is set from
    the retry bound by [apply_async]. *)
Fixpoint run {St R} (body : task -> St -> St * (exn + R))
  (kw : option retry_kwargs) (fuel retries : nat) (s : St)
  : St * state R * list attempt :=
  match body (mkTask kw retries) s with
  | (s', inr r) => (s', SUCCESS r, [])
  | (s', inl (Retry exc delay)) =>
      match fuel with
      | O => (s', FAILURE exc, [mkAttempt exc None])
      | S fuel' =>
          let '(s'', st, log) := run body kw fuel' (S retries) s' in
          (s'', st, mkAttempt exc (Some delay) :: log)
      end
  | (s', inl e) => (s', FAILURE e, [mkAttempt e None])
  end.

Definition apply_async {St R} (body : task -> St -> St * (exn + R))
  (kw : option retry_kwargs) (s : St) : St * state R * list attempt :=
  run body kw (match kw with Some k => max_retries k | None => O end) O s.

(** The log of a call that went by the retry options [kw]: every failed
    attempt was rescheduled [countdown] later, except the attempt number
    [max_retries], whose failure is the final state of the call. *)
Definition rescheduled (kw : retry_kwargs) (a : attempt) : Prop :=
  next_in a = Some (countdown kw).

Definition under_policy {R} (kw : retry_kwargs) (st : state R)
  (log : list attempt) : Prop :=
  match st with
  | SUCCESS _ =>
      (List.length log < max_retries kw)%nat /\ Forall (rescheduled kw) log
  | FAILURE e =>
      List.length log = max_retries kw
      /\ exists earlier,
           log = (earlier ++ [mkAttempt e None])%list
           /\ Forall (rescheduled kw) earlier
  end.

End Celery.

(* ===================================================================== *)
(** ** app/tasks/emandate_tasks.py and app/tasks/webhook_tasks.py *)
(* ===================================================================== *)

Module Tasks.

Import Py Orm Services.
#[local] Open Scope orm_scope.

(** The documents the tasks return. *)
Inductive result : Type :=
| AuthorizationSuccess (mandate_id order_id : nat) (razorpay_order_id : option string)
| RecurringSuccess (payment_id : nat) (razorpay_payment_id : option string) (amount : Q)
| MandateValidated (mandate_id : nat) (status : string)
| AlreadyProcessed
| Processed (event_type : string).

Definition retry_policy : Celery.retry_kwargs := Celery.mkRetry 3 60.

(** A task body opens its own session and closes it in [finally]. *)
Definition in_session {A} (c : M A) (d : DB) : DB * (exn + A) :=
  let '(s, r) := c (open d) in (close s, r).

(** [d[k]] *)
Definition getitem (d : list (string * json)) (k : string) : exn + json :=
  match assoc k d with
  | Some v => inr v
  | None => inl (KeyError ("'" ++ k ++ "'"))
  end.

Definition get_default (d : list (string * json)) (k : string) (v : json) : json :=
  match assoc k d with Some x => x | None => v end.

(** [process_emandate_authorization] *)
Definition process_emandate_authorization (env : Env) (self : Celery.task)
  (customer_id mandate_id : nat) (order_data : list (string * json))
  : DB -> DB * (exn + result) :=
  in_session
    (try_except
       (mandate <- get_mandate mandate_id ;;
        match mandate with
        | None => raise (ValueError "Mandate not found")
        | Some mandate =>
            order <- create_order env (Dict order_data) ;;
            let mandate' :=
              Mandate.set_razorpay_mandate_id
                (Some ("mandate_mock_" ++ str_of_nat mandate_id))
                (Mandate.set_status MandateStatus.AUTHORIZED mandate) in
            assign (put_mandate mandate') ;;;
            commit_checking (razorpay_mandate_id_unique (Mandate.id mandate')) ;;;
            ret (AuthorizationSuccess mandate_id (Order.id order)
                                      (Order.razorpay_order_id order))
        end)
       (fun e => raise (Celery.retry self e))).

(** [process_recurring_payment] *)
Definition process_recurring_payment (env : Env) (self : Celery.task)
  (mandate_id : nat) (payment_data : list (string * json))
  : DB -> DB * (exn + result) :=
  in_session
    (try_except
       (mandate <- get_mandate mandate_id ;;
        match mandate with
        | None => raise (ValueError "Mandate not found")
        | Some mandate =>
            if negb (MandateStatus.eqb (Mandate.status mandate)
                                       MandateStatus.CONFIRMED)
            then raise (ValueError "Mandate is not confirmed")
            else
              amount <- lift (getitem payment_data "amount") ;;
              let order_data :=
                [("amount", amount);
                 ("currency", get_default payment_data "currency" (JStr "INR"));
                 ("receipt", get_default payment_data "receipt" JNull);
                 ("notes", get_default payment_data "notes" JNull);
                 ("customer_id", JInt (Z.of_nat (Mandate.customer_id mandate)))] in
              order <- create_order env (Dict order_data) ;;
              amount' <- lift (getitem payment_data "amount") ;;
              payment <- create_payment
                (Dict [("customer_id", JInt (Z.of_nat (Mandate.customer_id mandate)));
                       ("mandate_id", JInt (Z.of_nat mandate_id));
                       ("amount", amount');
                       ("currency", get_default payment_data "currency" (JStr "INR"));
                       ("description", get_default payment_data "description" JNull);
                       ("receipt", get_default payment_data "receipt" JNull);
                       ("notes", get_default payment_data "notes" JNull);
                       ("transaction_type", JStr "recurring_payment")]) ;;
              let payment' :=
                Payment.set_status PaymentStatus.CAPTURED
                  (Payment.set_razorpay_order_id (Order.razorpay_order_id order)
                     (Payment.set_razorpay_payment_id
                        (Some ("pay_mock_" ++ str_of_nat (Payment.id payment)))
                        payment)) in
              assign (put_payment payment') ;;;
              commit_checking (razorpay_payment_id_unique (Payment.id payment')) ;;;
              ret (RecurringSuccess (Payment.id payment')
                                    (Payment.razorpay_payment_id payment')
                                    (Payment.amount payment'))
        end)
       (fun e => raise (Celery.retry self e))).

(** [if mandate.razorpay_mandate_id:] *)
Definition str_truthy (o : option string) : bool :=
  match o with Some s => negb (String.eqb s "") | None => false end.

(** [validate_mandate_status]: its handler re-raises ([raise]), it asks
    for no retry. *)
Definition validate_mandate_status (self : Celery.task) (mandate_id : nat)
  : DB -> DB * (exn + result) :=
  in_session
    (try_except
       (mandate <- get_mandate mandate_id ;;
        match mandate with
        | None => raise (ValueError "Mandate not found")
        | Some mandate =>
            if str_truthy (Mandate.razorpay_mandate_id mandate)
            then
              let mandate' := Mandate.set_status MandateStatus.CONFIRMED mandate in
              assign (put_mandate mandate') ;;;
              commit ;;;
              ret (MandateValidated mandate_id
                     (MandateStatus.value (Mandate.status mandate')))
            else
              ret (MandateValidated mandate_id
                     (MandateStatus.value (Mandate.status mandate)))
        end)
       (fun e => raise e)).

(** [process_payment_authorized] *)
Definition process_payment_authorized (payload : json) : M unit :=
  payment_entity <- lift (get_or payload "entity" (JObj [])) ;;
  razorpay_payment_id <- lift (get payment_entity "id") ;;
  if negb (truthy razorpay_payment_id) then ret tt
  else
    payment <- payment_by_razorpay_payment_id razorpay_payment_id ;;
    match payment with
    | Some payment =>
        assign (put_payment (Payment.set_status PaymentStatus.AUTHORIZED payment)) ;;;
        commit
    | None => ret tt
    end.

(** [process_payment_captured] *)
Definition process_payment_captured (payload : json) : M unit :=
  payment_entity <- lift (get_or payload "entity" (JObj [])) ;;
  razorpay_payment_id <- lift (get payment_entity "id") ;;
  if negb (truthy razorpay_payment_id) then ret tt
  else
    payment <- payment_by_razorpay_payment_id razorpay_payment_id ;;
    match payment with
    | Some payment =>
        let payment1 := Payment.set_status PaymentStatus.CAPTURED payment in
        assign (put_payment payment1) ;;;
        fee_value <- lift (get_or payment_entity "fee" (JInt 0)) ;;
        fee <- lift (div100 fee_value) ;;
        let payment2 := Payment.set_fee (Some fee) payment1 in
        assign (put_payment payment2) ;;;
        tax_value <- lift (get_or payment_entity "tax" (JInt 0)) ;;
        tax <- lift (div100 tax_value) ;;
        let payment3 := Payment.set_tax (Some tax) payment2 in
        assign (put_payment payment3) ;;;
        commit
    | None => ret tt
    end.

(** [process_payment_failed]; [error_code] and [error_description] are
    kept as the payload has them, and the commit is taken to accept
    them, as it does a [str] or [None]. *)
Definition process_payment_failed (payload : json) : M unit :=
  payment_entity <- lift (get_or payload "entity" (JObj [])) ;;
  razorpay_payment_id <- lift (get payment_entity "id") ;;
  if negb (truthy razorpay_payment_id) then ret tt
  else
    payment <- payment_by_razorpay_payment_id razorpay_payment_id ;;
    match payment with
    | Some payment =>
        let payment1 := Payment.set_status PaymentStatus.FAILED payment in
        assign (put_payment payment1) ;;;
        error_code <- lift (get payment_entity "error_code") ;;
        let payment2 := Payment.set_error_code error_code payment1 in
        assign (put_payment payment2) ;;;
        error_description <- lift (get payment_entity "error_description") ;;
        let payment3 := Payment.set_error_description error_description payment2 in
        assign (put_payment payment3) ;;;
        commit
    | None => ret tt
    end.

(** [process_order_paid] *)
Definition process_order_paid (payload : json) : M unit :=
  order_entity <- lift (get_or payload "entity" (JObj [])) ;;
  razorpay_order_id <- lift (get order_entity "id") ;;
  if negb (truthy razorpay_order_id) then ret tt
  else
    order <- order_by_razorpay_order_id razorpay_order_id ;;
    match order with
    | Some order =>
        assign (put_order (Order.set_status (Some "paid") order)) ;;;
        commit
    | None => ret tt
    end.

(** The [if]/[elif] chain of [process_webhook_event] on [event_type]; an
    unhandled type only logs a warning. *)
Definition dispatch (event_type : string) (payload : json) : M unit :=
  if String.eqb event_type "payment.authorized" then process_payment_authorized payload
  else if String.eqb event_type "payment.captured" then process_payment_captured payload
  else if String.eqb event_type "payment.failed" then process_payment_failed payload
  else if String.eqb event_type "order.paid" then process_order_paid payload
  else ret tt.

(** [payment_entity.get("id")] for the fields of an entity. *)
Definition entity_id (entity : list (string * json)) : json :=
  match assoc "id" entity with Some v => v | None => JNull end.

(** The event types applied to a Payment row. *)
Definition is_payment_event (event_type : string) : Prop :=
  event_type = "payment.authorized" \/ event_type = "payment.captured"
  \/ event_type = "payment.failed".

(** The apply step of [process_webhook_event]: "Parse payload" and
    "Process based on event type". *)
Definition apply_event (env : Env) (webhook : WebhookEvent.t) : M unit :=
  payload <-
    match json_loads env (WebhookEvent.payload webhook) with
    | Some payload => ret payload
    | None => raise (JSONDecodeError "Expecting value")
    end ;;
  let event_type := WebhookEvent.event_type webhook in
  dispatch event_type payload.

(** [process_webhook_event] *)
Definition process_webhook_event (env : Env) (self : Celery.task) (webhook_id : nat)
  : DB -> DB * (exn + result) :=
  in_session
    (try_except
       (webhook <- webhook_by_id webhook_id ;;
        match webhook with
        | None => raise (ValueError "Webhook event not found")
        | Some webhook =>
            if WebhookEvent.processed webhook then ret AlreadyProcessed
            else
              apply_event env webhook ;;;
              mark_webhook_processed webhook_id None ;;;
              ret (Processed (WebhookEvent.event_type webhook))
        end)
       (fun e =>
          mark_webhook_processed webhook_id (Some (str e)) ;;;
          raise (Celery.retry self e))).

End Tasks.

(* ===================================================================== *)
(** ** app/api/v1/endpoints/webhooks.py and emandate.py *)
(* ===================================================================== *)

Module Endpoints.

Import Py Orm Services.
#[local] Open Scope orm_scope.

(** A task call placed on the queue by [.delay(...)]. *)
Inductive call : Type :=
| ProcessWebhookEvent (webhook_id : nat)
| ProcessRecurringPayment (mandate_id : nat) (payment_data : list (string * json))
| ProcessEmandateAuthorization (customer_id mandate_id : nat)
                               (order_data : list (string * json))
| ValidateMandateStatus (mandate_id : nat).

(** The application: the store and the queue of calls not yet executed. *)
Record Sys := mkSys {
  db : DB;
  queue : list call
}.

(** The success envelope of [format_success_response] (its [timestamp] is
    left out) with the route's status code. *)
Record response := mkResponse {
  status_code : Z;
  success : bool;
  message : string;
  data : list (string * json)
}.

Record Request := mkRequest {
  body : string;
  x_razorpay_signature : option string
}.

(** [validate_webhook_signature] from [app/utils/helpers.py] *)
Definition validate_webhook_signature (env : Env)
  (payload signature secret : string) : bool :=
  String.eqb signature (hmac_sha256_hexdigest env secret payload).

(** A [str] field of a pydantic model refuses any other value. *)
Definition as_str (v : json) : exn + string :=
  match v with
  | JStr s => inr s
  | _ => inl (ValidationError "Input should be a valid string")
  end.

(** [all(field in payload for field in required_fields)] *)
Fixpoint all_in (payload : json) (required_fields : list string) : exn + bool :=
  match required_fields with
  | [] => inr true
  | field :: rest =>
      match contains payload field with
      | inl e => inl e
      | inr false => inr false
      | inr true => all_in payload rest
      end
  end.

(** The identifier [handle_razorpay_webhook] stores as [event_id]. *)
Definition derive_event_id (env : Env) (payload : json) : exn + json :=
  match get_or payload "entity" (JObj []) with
  | inl e => inl e
  | inr entity =>
      match get_or payload "created_at" (JStr "") with
      | inl e => inl e
      | inr created_at =>
          get_or entity "id" (JStr ("unknown_" ++ format_value env created_at))
      end
  end.

(** The part of [handle_razorpay_webhook] ahead of [.delay]: it yields the
    stored row with the identifier and type put in the response. *)
Definition receive_webhook (env : Env) (request : Request)
  : M (WebhookEvent.t * string * string) :=
  let body := body request in
  let signature :=
    match x_razorpay_signature request with Some s => s | None => "" end in
  if negb (validate_webhook_signature env body signature
                                      (razorpay_webhook_secret env))
  then raise (HTTPException 401 "Invalid webhook signature")
  else
    payload <-
      match json_loads env body with
      | Some payload => ret payload
      | None => raise (HTTPException 400 "Invalid JSON payload")
      end ;;
    present <- lift (all_in payload ["event"; "account_id"; "entity"]) ;;
    if negb present
    then raise (HTTPException 400 "Missing required webhook fields")
    else
      event_id_value <- lift (derive_event_id env payload) ;;
      event_id <- lift (as_str event_id_value) ;;
      event_value <- lift (get payload "event") ;;
      event_type <- lift (as_str event_value) ;;
      webhook_event <-
        create_webhook_event (WebhookEventCreate.mk event_id event_type body) ;;
      ret (webhook_event, event_id, event_type).

(** [handle_razorpay_webhook]: [except HTTPException: raise], any other
    exception becomes a 500; on success the apply task is queued and its
    id (here its place in the queue) reported. *)
Definition handle_razorpay_webhook (env : Env) (request : Request) (sys : Sys)
  : Sys * (exn + response) :=
  match receive_webhook env request (open (db sys)) with
  | (s, inr (webhook_event, event_id, event_type)) =>
      let task_id := List.length (queue sys) in
      (mkSys (close s)
             (queue sys ++ [ProcessWebhookEvent (WebhookEvent.id webhook_event)]),
       inr (mkResponse 200 true "Webhook received and queued for processing"
              [("event_id", JStr event_id);
               ("event_type", JStr event_type);
               ("task_id", JInt (Z.of_nat task_id));
               ("webhook_id", JInt (Z.of_nat (WebhookEvent.id webhook_event)))]))
  | (s, inl e) =>
      (mkSys (close s) (queue sys),
       inl (if is_HTTPException e then e
            else HTTPException 500 "Failed to process webhook"))
  end.

(** The store with one more webhook event, and the row a first delivery
    of [request] stores under the derived identifier. *)
Definition with_event (d : DB) (row : WebhookEvent.t) : DB :=
  mkDB (mandates d) (payments d) (orders d) (webhook_events d ++ [row]).

Definition stored_event (request : Request) (event_id event_type : string)
  (sys : Sys) : WebhookEvent.t :=
  WebhookEvent.mk (next_id (map WebhookEvent.id (webhook_events (db sys))))
                  event_id event_type (body request) false None.

Definition opt_json (o : option string) : json :=
  match o with Some s => JStr s | None => JNull end.

Definition is_active (s : MandateStatus.t) : bool :=
  MandateStatus.eqb s MandateStatus.AUTHORIZED
  || MandateStatus.eqb s MandateStatus.CONFIRMED.

(** The checks of [create_recurring_payment] ahead of [.delay]: they
    yield the [payment_data] handed to the task. *)
Definition check_recurring_payment (request_data : EMandateRecurringPaymentRequest.t)
  : M (list (string * json)) :=
  mandate <- get_mandate (EMandateRecurringPaymentRequest.mandate_id request_data) ;;
  match mandate with
  | None => raise (HTTPException 404 "Mandate not found")
  | Some mandate =>
      if negb (is_active (Mandate.status mandate))
      then raise (HTTPException 400 "Mandate is not active for payments")
      else if negb (Qle_bool (EMandateRecurringPaymentRequest.amount request_data)
                             (Mandate.amount mandate))
      then raise (HTTPException 400 "Payment amount exceeds mandate limit")
      else
        ret [("amount", JReal (EMandateRecurringPaymentRequest.amount request_data));
             ("description",
              opt_json (EMandateRecurringPaymentRequest.description request_data));
             ("receipt",
              opt_json (EMandateRecurringPaymentRequest.receipt request_data));
             ("notes",
              match EMandateRecurringPaymentRequest.notes request_data with
              | Some n => n | None => JNull end)]
  end.

(** [create_recurring_payment] *)
Definition create_recurring_payment
  (request_data : EMandateRecurringPaymentRequest.t) (sys : Sys)
  : Sys * (exn + response) :=
  match check_recurring_payment request_data (open (db sys)) with
  | (s, inr payment_data) =>
      let mandate_id := EMandateRecurringPaymentRequest.mandate_id request_data in
      let task_id := List.length (queue sys) in
      (mkSys (close s)
             (queue sys ++ [ProcessRecurringPayment mandate_id payment_data]),
       inr (mkResponse 202 true "Recurring payment initiated successfully"
              [("mandate_id", JInt (Z.of_nat mandate_id));
               ("task_id", JInt (Z.of_nat task_id));
               ("status", JStr "processing");
               ("amount", JReal (EMandateRecurringPaymentRequest.amount request_data))]))
  | (s, inl e) =>
      (mkSys (close s) (queue sys),
       inl (if is_HTTPException e then e
            else HTTPException 500 "Failed to initiate recurring payment"))
  end.

(** The worker takes a call off the queue and runs it to its final state
    under the retry options of its decorator. *)
Definition execute (env : Env) (c : call) (d : DB)
  : DB * Celery.state Tasks.result * list Celery.attempt :=
  match c with
  | ProcessWebhookEvent webhook_id =>
      Celery.apply_async (fun self => Tasks.process_webhook_event env self webhook_id)
                         (Some Tasks.retry_policy) d
  | ProcessRecurringPayment mandate_id payment_data =>
      Celery.apply_async
        (fun self => Tasks.process_recurring_payment env self mandate_id payment_data)
        (Some Tasks.retry_policy) d
  | ProcessEmandateAuthorization customer_id mandate_id order_data =>
      Celery.apply_async
        (fun self => Tasks.process_emandate_authorization env self customer_id
                       mandate_id order_data)
        (Some Tasks.retry_policy) d
  | ValidateMandateStatus mandate_id =>
      Celery.apply_async (fun self => Tasks.validate_mandate_status self mandate_id)
                         None d
  end.

(** The task a call names, and the retry options of its decorator. *)
Definition task_of (env : Env) (c : call)
  : Celery.task -> DB -> DB * (exn + Tasks.result) :=
  match c with
  | ProcessWebhookEvent webhook_id =>
      fun self => Tasks.process_webhook_event env self webhook_id
  | ProcessRecurringPayment mandate_id payment_data =>
      fun self => Tasks.process_recurring_payment env self mandate_id payment_data
  | ProcessEmandateAuthorization customer_id mandate_id order_data =>
      fun self => Tasks.process_emandate_authorization env self customer_id
                    mandate_id order_data
  | ValidateMandateStatus mandate_id =>
      fun self => Tasks.validate_mandate_status self mandate_id
  end.

Definition options_of (c : call) : option Celery.retry_kwargs :=
  match c with
  | ValidateMandateStatus _ => None
  | _ => Some Tasks.retry_policy
  end.

(** Running every queued call, in order. *)
Definition drain (env : Env) (sys : Sys) : Sys :=
  mkSys (fold_left (fun d c => fst (fst (execute env c d))) (queue sys) (db sys)) [].

(** A payload delivered [n] times in a row: the store and queue reached,
    and the outcome of each delivery. *)
Fixpoint deliver (env : Env) (request : Request) (n : nat) (sys : Sys)
  : Sys * list (exn + response) :=
  match n with
  | O => (sys, [])
  | S n' =>
      let '(sys1, r) := handle_razorpay_webhook env request sys in
      let '(sys2, rs) := deliver env request n' sys1 in
      (sys2, r :: rs)
  end.

Definition is_ack (r : exn + response) : bool :=
  match r with inr x => success x | inl _ => false end.

End Endpoints.

(* ===================================================================== *)
(** ** Concrete stores and payloads used in the examples *)
(* ===================================================================== *)

Module Scenario.

Import Py Orm.

(** Request bodies are named by a short text; [json_loads] maps each to
    the document it stands for. *)
Definition captured_body : string := "payment.captured pay_1 fee=10 tax=2".
Definition captured_payload : json :=
  JObj [("event", JStr "payment.captured");
        ("account_id", JStr "acc_1");
        ("entity", JObj [("id", JStr "pay_1"); ("fee", JInt 10); ("tax", JInt 2)]);
        ("contains", JArr [JStr "payment"]);
        ("created_at", JInt 1234567890)].

Definition bad_fee_body : string := "payment.captured pay_1 fee=null".
Definition bad_fee_payload : json :=
  JObj [("event", JStr "payment.captured");
        ("account_id", JStr "acc_1");
        ("entity", JObj [("id", JStr "pay_1"); ("fee", JNull)]);
        ("contains", JArr [JStr "payment"]);
        ("created_at", JInt 1234567890)].

Definition unmatched_body : string := "payment.authorized pay_9".
Definition unmatched_payload : json :=
  JObj [("event", JStr "payment.authorized");
        ("account_id", JStr "acc_1");
        ("entity", JObj [("id", JStr "pay_9")]);
        ("contains", JArr [JStr "payment"]);
        ("created_at", JInt 1234567890)].

Definition loads (body : string) : option json :=
  if String.eqb body captured_body then Some captured_payload
  else if String.eqb body bad_fee_body then Some bad_fee_payload
  else if String.eqb body unmatched_body then Some unmatched_payload
  else None.

(** A stand-in for the keyed digest, enough to run the examples. *)
Definition digest (key msg : string) : string := key ++ ":" ++ msg.

Definition format (v : json) : string :=
  match v with
  | JStr s => s
  | JInt z => NilZero.string_of_int (Z.to_int z)
  | _ => ""
  end.

Definition env : Env :=
  mkEnv "your_webhook_secret" digest loads format MockRazorpayClient_create_order.

Definition signed (body : string) : Endpoints.Request :=
  Endpoints.mkRequest body (Some (digest "your_webhook_secret" body)).

Definition mandate (status : MandateStatus.t) (gateway_id : option string)
  : Mandate.t :=
  Mandate.mk 1 gateway_id 1 1000 "INR" status (Some "monthly") None.

Definition payment (status : PaymentStatus.t) : Payment.t :=
  Payment.mk 1 (Some "pay_1") (Some "order_mock_1") 1 (Some 1%nat) 1000 "INR"
             status TransactionType.RECURRING_PAYMENT None None None None None
             JNull JNull.

Definition webhook (body event_type : string) : WebhookEvent.t :=
  WebhookEvent.mk 1 "pay_1" event_type body false None.

Definition store (ms : list Mandate.t) (ps : list Payment.t)
  (ws : list WebhookEvent.t) : DB :=
  mkDB ms ps [] ws.

Definition charge (amount : Q) : EMandateRecurringPaymentRequest.t :=
  EMandateRecurringPaymentRequest.mk 1 amount None None None.

Definition order_request : OrderCreate.t :=
  OrderCreate.mk 500 "INR" (Some "emandate_auth_1") None (Some 1%nat).

Definition first_attempt : Celery.task :=
  Celery.mkTask (Some Tasks.retry_policy) 0.

End Scenario.

(* ===================================================================== *)
(** * Further code: gateway mock, remaining services, tasks and endpoints *)
(* ===================================================================== *)

(** ** app/services/razorpay_service.py: MockRazorpayClient *)

Module MockRazorpayClient.

Import Py.

(** A document is a [dict] of fields; each table of [mock_data] maps an id
    to a document. *)
Definition document : Type := list (string * json).
Definition table : Type := list (string * document).

Record t := mk {
  customers : table;
  orders : table;
  payments : table;
  mandates : table
}.

(** [__init__] *)
Definition init : t := mk [] [] [] [].

(** [d[k] = v]: the binding of [k] is replaced, or added at the end. *)
Fixpoint setitem {V : Type} (k : string) (v : V) (d : list (string * V))
  : list (string * V) :=
  match d with
  | [] => [(k, v)]
  | (k', v') :: rest =>
      if String.eqb k k' then (k, v) :: rest else (k', v') :: setitem k v rest
  end.

Fixpoint lookup {V : Type} (k : string) (d : list (string * V)) : option V :=
  match d with
  | [] => None
  | (k', v) :: rest => if String.eqb k k' then Some v else lookup k rest
  end.

(** [data.get(k)] and [data.get(k, default)] on a request document *)
Definition field (data : document) (k : string) : json :=
  match assoc k data with Some v => v | None => JNull end.

Definition field_or (data : document) (k : string) (default : json) : json :=
  match assoc k data with Some v => v | None => default end.

(** [table.get(id, {})] *)
Definition get_or_empty (k : string) (d : table) : document :=
  match lookup k d with Some v => v | None => [] end.

(** [create_customer] *)
Definition create_customer (customer_data : document) (c : t) : t * document :=
  let customer_id := "cust_mock_" ++ str_of_nat (List.length (customers c) + 1) in
  let customer :=
    [("id", JStr customer_id);
     ("entity", JStr "customer");
     ("name", field customer_data "name");
     ("email", field customer_data "email");
     ("contact", field customer_data "contact");
     ("gstin", field customer_data "gstin");
     ("notes", field_or customer_data "notes" (JObj []));
     ("created_at", JInt 1234567890)] in
  (mk (setitem customer_id customer (customers c)) (orders c) (payments c)
      (mandates c),
   customer).

(** [get_customer] *)
Definition get_customer (customer_id : string) (c : t) : document :=
  get_or_empty customer_id (customers c).

(** [create_order] *)
Definition create_order (order_data : document) (c : t) : t * document :=
  let order_id := "order_mock_" ++ str_of_nat (List.length (orders c) + 1) in
  let order :=
    [("id", JStr order_id);
     ("entity", JStr "order");
     ("amount", field order_data "amount");
     ("amount_paid", JInt 0);
     ("amount_due", field order_data "amount");
     ("currency", field_or order_data "currency" (JStr "INR"));
     ("receipt", field order_data "receipt");
     ("status", JStr "created");
     ("attempts", JInt 0);
     ("notes", field_or order_data "notes" (JObj []));
     ("created_at", JInt 1234567890)] in
  (mk (customers c) (setitem order_id order (orders c)) (payments c)
      (mandates c),
   order).

(** [get_order] *)
Definition get_order (order_id : string) (c : t) : document :=
  get_or_empty order_id (orders c).

(** [get_payment] *)
Definition get_payment (payment_id : string) (c : t) : document :=
  get_or_empty payment_id (payments c).

(** [capture_payment]: a stored, non-empty payment document is updated in
    place and returned; otherwise the empty document comes back. *)
Definition capture_payment (payment_id : string) (amount : Z) (c : t)
  : t * document :=
  match get_or_empty payment_id (payments c) with
  | [] => (c, [])
  | payment =>
      let payment' :=
        setitem "amount" (JInt amount)
                (setitem "status" (JStr "captured") payment) in
      (mk (customers c) (orders c)
          (setitem payment_id payment' (payments c)) (mandates c),
       payment')
  end.

(** [refund_payment]; [amount] is [None] when the caller gives none. *)
Definition refund_payment (payment_id : string) (amount : option Z) (c : t)
  : document :=
  let refund_id := "rfnd_mock_" ++ str_of_nat (List.length (payments c) + 1) in
  [("id", JStr refund_id);
   ("entity", JStr "refund");
   ("amount", match amount with Some a => JInt a | None => JNull end);
   ("currency", JStr "INR");
   ("payment_id", JStr payment_id);
   ("status", JStr "processed");
   ("created_at", JInt 1234567890)].

(** A method call on the client, and the client reached from [init] by a
    sequence of calls. *)
Inductive call : Type :=
| CreateCustomer (customer_data : document)
| GetCustomer (customer_id : string)
| CreateOrder (order_data : document)
| GetOrder (order_id : string)
| GetPayment (payment_id : string)
| CapturePayment (payment_id : string) (amount : Z)
| RefundPayment (payment_id : string) (amount : option Z).

Definition step (c : t) (op : call) : t :=
  match op with
  | CreateCustomer data => fst (create_customer data c)
  | CreateOrder data => fst (create_order data c)
  | CapturePayment payment_id amount => fst (capture_payment payment_id amount c)
  | GetCustomer _ | GetOrder _ | GetPayment _ | RefundPayment _ _ => c
  end.

Definition after (ops : list call) : t := fold_left step ops init.

(** The id the mock gives its [n]-th order. *)
Definition order_id (n : nat) : string := "order_mock_" ++ str_of_nat n.

(** The orders of a client are numbered in creation order. *)
Definition numbered (c : t) : Prop :=
  map fst (orders c) = map order_id (seq 1 (List.length (orders c))).

End MockRazorpayClient.

(** ** Customers: app/models/models.py, app/schemas/schemas.py *)

Module Customer.
Record t := mk {
  id : nat;
  razorpay_customer_id : option string;
  name : string;
  email : string;
  contact : option string;
  gstin : option string
}.
End Customer.

Module CustomerCreate.
Record t := mk {
  name : string;
  email : string;
  contact : option string;
  gstin : option string
}.
End CustomerCreate.

Module MandateCreate.
Record t := mk {
  customer_id : nat;
  amount : Q;
  currency : string;
  frequency : option string;
  notes : option string
}.
End MandateCreate.

(** Dates are kept as the text they were sent as. *)
Module EMandateAuthorizationRequest.
Record t := mk {
  customer_id : nat;
  amount : Q;
  frequency : string;
  start_date : option string;
  end_date : option string;
  description : option string;
  notes : option Py.json
}.
End EMandateAuthorizationRequest.

(** ** app/services/database_service.py: CustomerService *)

Module CustomerService.

Import Py.

(** A service instance builds its own client ([get_razorpay_client()] in
    [__init__]); with the mock, [create_customer] is therefore always
    answered by a client in its initial state.  Only the [id] of the
    answer is used. *)
Definition fresh_mock_create_customer (customer_data : MockRazorpayClient.document)
  : exn + option string :=
  inr (match assoc "id" (snd (MockRazorpayClient.create_customer
                                customer_data MockRazorpayClient.init)) with
       | Some (JStr s) => Some s
       | _ => None
       end).

(** [get_customer] *)
Definition get_customer (customer_id : nat) (customers : list Customer.t)
  : option Customer.t :=
  find (fun x => Nat.eqb (Customer.id x) customer_id) customers.

(** [get_customer_by_email] *)
Definition get_customer_by_email (email : string) (customers : list Customer.t)
  : option Customer.t :=
  find (fun x => String.eqb (Customer.email x) email) customers.

Definition opt_json (o : option string) : json :=
  match o with Some s => JStr s | None => JNull end.

(** The unique columns [email] and [razorpay_customer_id] of a new row. *)
Definition unique_ok (row : Customer.t) (customers : list Customer.t) : bool :=
  negb (existsb (fun x => String.eqb (Customer.email x) (Customer.email row))
                customers)
  && match Customer.razorpay_customer_id row with
     | Some r =>
         negb (existsb (fun x => Orm.opt_str_is (Customer.razorpay_customer_id x) r)
                       customers)
     | None => true
     end.

(** [create_customer], on the customers table: the gateway call, then
    the insert and commit; an [IntegrityError] is rolled back and raised
    again as a [ValueError], any other exception is rolled back and
    re-raised.  [gateway] is the client's [create_customer], giving the
    [id] of its answer. *)
Definition create_customer (gateway : MockRazorpayClient.document -> exn + option string)
  (customer_data : CustomerCreate.t) (customers : list Customer.t)
  : list Customer.t * (exn + Customer.t) :=
  let razorpay_customer_data :=
    [("name", JStr (CustomerCreate.name customer_data));
     ("email", JStr (CustomerCreate.email customer_data));
     ("contact", opt_json (CustomerCreate.contact customer_data));
     ("gstin", opt_json (CustomerCreate.gstin customer_data));
     ("notes", JObj [])] in
  match gateway razorpay_customer_data with
  | inl e => (customers, inl e)
  | inr razorpay_customer_id =>
      let db_customer :=
        Customer.mk (Orm.next_id (map Customer.id customers))
                    razorpay_customer_id
                    (CustomerCreate.name customer_data)
                    (CustomerCreate.email customer_data)
                    (CustomerCreate.contact customer_data)
                    (CustomerCreate.gstin customer_data) in
      if unique_ok db_customer customers
      then ((customers ++ [db_customer])%list, inr db_customer)
      else (customers, inl (ValueError "Customer with this email already exists"))
  end.

End CustomerService.

(** ** app/services/database_service.py: the other service methods *)

Module MoreServices.

Import Py Orm.
#[local] Open Scope orm_scope.

(** [MandateService.create_mandate]; the customers table is only read. *)
Definition create_mandate (customers : list Customer.t)
  (mandate_data : arg MandateCreate.t) : M Mandate.t :=
  try_except
    (customer_id <-
       lift (getattr mandate_data "customer_id" MandateCreate.customer_id) ;;
     match CustomerService.get_customer customer_id customers with
     | None => raise (ValueError "Customer not found")
     | Some _ =>
         amount <- lift (getattr mandate_data "amount" MandateCreate.amount) ;;
         currency <- lift (getattr mandate_data "currency" MandateCreate.currency) ;;
         frequency <- lift (getattr mandate_data "frequency" MandateCreate.frequency) ;;
         notes <- lift (getattr mandate_data "notes" MandateCreate.notes) ;;
         d <- get_working ;;
         let db_mandate :=
           Mandate.mk (next_id (map Mandate.id (mandates d))) None customer_id
                      amount currency MandateStatus.CREATED frequency notes in
         set_working (mkDB (mandates d ++ [db_mandate]) (payments d) (orders d)
                           (webhook_events d)) ;;;
         commit ;;;
         ret db_mandate
     end)
    (fun e => rollback ;;; raise e).

End MoreServices.

(** ** app/tasks/webhook_tasks.py: the task for failed payments *)

Module MoreTasks.

Import Py Orm.
#[local] Open Scope orm_scope.

(** The task's answer: status "completed" and the [retry_count]. *)
Inductive result : Type :=
| RetryCompleted (retry_count : nat).

Definition is_failed (p : Payment.t) : bool :=
  match Payment.status p with PaymentStatus.FAILED => true | _ => false end.

(** [process_failed_payments_retry]: at most 100 failed payments are
    fetched and counted. *)
Definition process_failed_payments_retry (self : Celery.task)
  : DB -> DB * (exn + result) :=
  Tasks.in_session
    (try_except
       (d <- get_working ;;
        let failed_payments := firstn 100 (filter is_failed (payments d)) in
        let retry_count :=
          fold_left (fun retry_count _ => (retry_count + 1)%nat) failed_payments 0%nat in
        ret (RetryCompleted retry_count))
       (fun e => raise e)).

End MoreTasks.

(** ** The remaining endpoints of webhooks.py and emandate.py *)

Module Api.

Import Py Orm.
#[local] Open Scope orm_scope.

(** An endpoint body run in the request's session; [except HTTPException:
    raise], any other exception becomes a 500 with [failure] as message.
    These endpoints queue nothing when they fail. *)
Definition responding {A} (failure : string) (c : M A) (d : DB)
  : DB * (exn + A) :=
  match c (open d) with
  | (s, inr a) => (close s, inr a)
  | (s, inl e) =>
      (close s, inl (if is_HTTPException e then e else HTTPException 500 failure))
  end.

Definition webhook_json (w : WebhookEvent.t) : list (string * json) :=
  [("event_id", JStr (WebhookEvent.event_id w));
   ("event_type", JStr (WebhookEvent.event_type w));
   ("processed", JBool (WebhookEvent.processed w));
   ("processing_error", Endpoints.opt_json (WebhookEvent.processing_error w))].

(** [get_webhook_event]; the two timestamps of the answer are left out,
    as they are in the rows. *)
Definition get_webhook_event (event_id : string) (d : DB)
  : DB * (exn + Endpoints.response) :=
  responding "Failed to retrieve webhook event"
    (fun s =>
       match find (fun x => String.eqb (WebhookEvent.event_id x) event_id)
                  (webhook_events (working s)) with
       | None => (s, inl (HTTPException 404 "Webhook event not found"))
       | Some webhook =>
           (s, inr (Endpoints.mkResponse 200 true
                      "Webhook event retrieved successfully"
                      (webhook_json webhook)))
       end)
    d.

(** [offset(skip).limit(limit)] as SQLite runs them on the rows a query
    selects: a negative OFFSET counts as zero, a negative LIMIT is no
    limit. *)
Definition offset_limit {A : Type} (skip limit : Z) (rows : list A) : list A :=
  let rest := skipn (Z.to_nat skip) rows in
  if limit <? 0 then rest else firstn (Z.to_nat limit) rest.

(** [skip] and [limit] are bound as SQLite integers, of 64 bits; a larger
    [int] raises [OverflowError] when the query is run. *)
Definition sqlite_integer (z : Z) : bool := (- 2 ^ 63 <=? z) && (z <? 2 ^ 63).

(** The query of [list_webhook_events]: [if event_type:] skips [None] and
    the empty string, [if processed is not None:] skips [None]; then
    [offset(skip).limit(limit)].  These are the rows the query yields for
    a [skip] and a [limit] that SQLite takes. *)
Definition select_webhook_events (skip limit : Z) (event_type : option string)
  (processed : option bool) (d : DB) : list WebhookEvent.t :=
  let by_type :=
    match event_type with
    | Some t =>
        if String.eqb t "" then webhook_events d
        else filter (fun x => String.eqb (WebhookEvent.event_type x) t)
                    (webhook_events d)
    | None => webhook_events d
    end in
  let by_processed :=
    match processed with
    | Some b => filter (fun x => Bool.eqb (WebhookEvent.processed x) b) by_type
    | None => by_type
    end in
  offset_limit skip limit by_processed.

(** [list_webhook_events]: the selected rows and the [count] reported;
    [skip] and [limit] are [int] query parameters, and any exception is
    answered 500. *)
Definition list_webhook_events (skip limit : Z) (event_type : option string)
  (processed : option bool) (d : DB)
  : DB * (exn + (list WebhookEvent.t * nat)) :=
  let query : exn + list WebhookEvent.t :=
    if sqlite_integer skip && sqlite_integer limit
    then inr (select_webhook_events skip limit event_type processed d)
    else inl (OverflowError "Python int too large to convert to SQLite INTEGER") in
  match query with
  | inr webhooks => (d, inr (webhooks, List.length (map webhook_json webhooks)))
  | inl _ => (d, inl (HTTPException 500 "Failed to retrieve webhook events"))
  end.

(** [validate_mandate] *)
Definition validate_mandate (mandate_id : nat) (sys : Endpoints.Sys)
  : Endpoints.Sys * (exn + Endpoints.response) :=
  match responding "Failed to validate mandate"
          (mandate <- Services.get_mandate mandate_id ;;
           match mandate with
           | None => raise (HTTPException 404 "Mandate not found")
           | Some mandate => ret mandate
           end)
          (Endpoints.db sys) with
  | (d, inr mandate) =>
      let task_id := List.length (Endpoints.queue sys) in
      (Endpoints.mkSys d
         (Endpoints.queue sys ++ [Endpoints.ValidateMandateStatus mandate_id]),
       inr (Endpoints.mkResponse 200 true "Mandate validation initiated"
              [("mandate_id", JInt (Z.of_nat mandate_id));
               ("task_id", JInt (Z.of_nat task_id));
               ("current_status",
                JStr (MandateStatus.value (Mandate.status mandate)))]))
  | (d, inl e) => (Endpoints.mkSys d (Endpoints.queue sys), inl e)
  end.

(** [get_mandate_status] *)
Definition get_mandate_status (mandate_id : nat) (d : DB)
  : DB * (exn + Endpoints.response) :=
  responding "Failed to retrieve mandate status"
    (mandate <- Services.get_mandate mandate_id ;;
     match mandate with
     | None => raise (HTTPException 404 "Mandate not found")
     | Some mandate =>
         ret (Endpoints.mkResponse 200 true
                "Mandate status retrieved successfully"
                [("mandate_id", JInt (Z.of_nat mandate_id));
                 ("status", JStr (MandateStatus.value (Mandate.status mandate)));
                 ("razorpay_mandate_id",
                  Endpoints.opt_json (Mandate.razorpay_mandate_id mandate));
                 ("amount", JReal (Mandate.amount mandate));
                 ("currency", JStr (Mandate.currency mandate));
                 ("frequency", Endpoints.opt_json (Mandate.frequency mandate))])
     end)
    d.

(** [OrderCreate(...)] as built by [authorize_emandate]: the validator
    wants a positive amount, and [notes], a [str] field, refuses the
    request's [dict]. *)
Definition order_create (amount : Q) (receipt : string) (notes : option json)
  (customer_id : nat) : exn + OrderCreate.t :=
  if Qle_bool amount 0
  then inl (ValidationError "Amount must be greater than 0")
  else
    match notes with
    | Some (JStr s) =>
        inr (OrderCreate.mk amount "INR" (Some receipt) (Some s) (Some customer_id))
    | None | Some JNull =>
        inr (OrderCreate.mk amount "INR" (Some receipt) None (Some customer_id))
    | Some _ => inl (ValidationError "Input should be a valid string")
    end.

(** [order_data.dict()] *)
Definition order_dict (o : OrderCreate.t) : list (string * json) :=
  [("amount", JReal (OrderCreate.amount o));
   ("currency", JStr (OrderCreate.currency o));
   ("receipt", Endpoints.opt_json (OrderCreate.receipt o));
   ("notes", Endpoints.opt_json (OrderCreate.notes o));
   ("customer_id",
    match OrderCreate.customer_id o with
    | Some c => JInt (Z.of_nat c) | None => JNull end)].

(** The body of [authorize_emandate] ahead of [.delay]: the mandate row
    and the order data handed to the task. *)
Definition prepare_authorization (env : Env) (customers : list Customer.t)
  (request_data : EMandateAuthorizationRequest.t)
  : M (Mandate.t * list (string * json)) :=
  let customer_id := EMandateAuthorizationRequest.customer_id request_data in
  match CustomerService.get_customer customer_id customers with
  | None => raise (HTTPException 404 "Customer not found")
  | Some _ =>
      let mandate_data :=
        [("customer_id", JInt (Z.of_nat customer_id));
         ("amount", JReal (EMandateAuthorizationRequest.amount request_data));
         ("frequency", JStr (EMandateAuthorizationRequest.frequency request_data));
         ("start_date",
          Endpoints.opt_json (EMandateAuthorizationRequest.start_date request_data));
         ("end_date",
          Endpoints.opt_json (EMandateAuthorizationRequest.end_date request_data));
         ("notes",
          match EMandateAuthorizationRequest.notes request_data with
          | Some n => if truthy n then JStr (format_value env n) else JNull
          | None => JNull
          end)] in
      mandate <- MoreServices.create_mandate customers (Dict mandate_data) ;;
      order_data <-
        lift (order_create (EMandateAuthorizationRequest.amount request_data)
                ("emandate_auth_" ++ str_of_nat (Mandate.id mandate))
                (EMandateAuthorizationRequest.notes request_data)
                customer_id) ;;
      ret (mandate, order_dict order_data)
  end.

(** [authorize_emandate] *)
Definition authorize_emandate (env : Env) (customers : list Customer.t)
  (request_data : EMandateAuthorizationRequest.t) (sys : Endpoints.Sys)
  : Endpoints.Sys * (exn + Endpoints.response) :=
  match responding "Failed to initiate eMandate authorization"
          (prepare_authorization env customers request_data)
          (Endpoints.db sys) with
  | (d, inr (mandate, order_data)) =>
      let customer_id := EMandateAuthorizationRequest.customer_id request_data in
      let task_id := List.length (Endpoints.queue sys) in
      (Endpoints.mkSys d
         (Endpoints.queue sys
          ++ [Endpoints.ProcessEmandateAuthorization customer_id
                (Mandate.id mandate) order_data]),
       inr (Endpoints.mkResponse 202 true
              "eMandate authorization initiated successfully"
              [("mandate_id", JInt (Z.of_nat (Mandate.id mandate)));
               ("task_id", JInt (Z.of_nat task_id));
               ("status", JStr "processing");
               ("customer_id", JInt (Z.of_nat customer_id))]))
  | (d, inl e) => (Endpoints.mkSys d (Endpoints.queue sys), inl e)
  end.

End Api.

(** ** Row keys of a store *)

Module Keys.

Import Orm.

(** The primary keys of each table, in table order. *)
Definition keys (d : DB) : list nat * list nat * list nat * list nat :=
  (map Mandate.id (mandates d), map Payment.id (payments d),
   map Order.id (orders d), map WebhookEvent.id (webhook_events d)).

(** A computation that neither adds nor removes a row, and leaves the
    mandates as they are: from a session whose two stores have the
    mandates [ms] and the keys [ks], it reaches one that does too. *)
Definition settled (ms : list Mandate.t) (ks : list nat * list nat * list nat * list nat)
  (s : Session) : Prop :=
  mandates (committed s) = ms /\ mandates (working s) = ms
  /\ keys (committed s) = ks /\ keys (working s) = ks.

Definition keeps_rows {A} (c : M A) : Prop :=
  forall ms ks s s' r, settled ms ks s -> c s = (s', r) -> settled ms ks s'.

End Keys.

(** ** More payloads and stores for the examples *)

Module Cases.

Import Py Orm.

Definition authorized_body : string := "payment.authorized pay_1".
Definition authorized_payload : json :=
  JObj [("event", JStr "payment.authorized");
        ("account_id", JStr "acc_1");
        ("entity", JObj [("id", JStr "pay_1")]);
        ("contains", JArr [JStr "payment"]);
        ("created_at", JInt 1234567890)].

Definition order_paid_body : string := "order.paid order_mock_1".
Definition order_paid_payload : json :=
  JObj [("event", JStr "order.paid");
        ("account_id", JStr "acc_1");
        ("entity", JObj [("id", JStr "order_mock_1")]);
        ("contains", JArr [JStr "order"]);
        ("created_at", JInt 1234567891)].

Definition refund_body : string := "refund.created (no entity id) at 1234567892".
Definition refund_payload : json :=
  JObj [("event", JStr "refund.created");
        ("account_id", JStr "acc_1");
        ("entity", JObj [("amount", JInt 500)]);
        ("contains", JArr [JStr "refund"]);
        ("created_at", JInt 1234567892)].

Definition dispute_body : string := "dispute.created (no entity id) at 1234567892".
Definition dispute_payload : json :=
  JObj [("event", JStr "dispute.created");
        ("account_id", JStr "acc_1");
        ("entity", JObj [("amount", JInt 900)]);
        ("contains", JArr [JStr "dispute"]);
        ("created_at", JInt 1234567892)].

Definition loads (body : string) : option json :=
  if String.eqb body authorized_body then Some authorized_payload
  else if String.eqb body order_paid_body then Some order_paid_payload
  else if String.eqb body refund_body then Some refund_payload
  else if String.eqb body dispute_body then Some dispute_payload
  else Scenario.loads body.

Definition env : Env :=
  mkEnv "your_webhook_secret" Scenario.digest loads Scenario.format
        MockRazorpayClient_create_order.

Definition order (status : string) : Order.t :=
  Order.mk 1 (Some "order_mock_1") (Some 1%nat) 500 "INR"
           (Some "emandate_auth_1") (Some status) 0 None.

Definition event (key : nat) (event_id body event_type : string) (processed : bool)
  : WebhookEvent.t :=
  WebhookEvent.mk key event_id event_type body processed None.

Definition customer : Customer.t :=
  Customer.mk 1 (Some "cust_mock_1") "John Doe" "john.doe@example.com"
              (Some "9876543210") None.

Definition jane : CustomerCreate.t :=
  CustomerCreate.mk "Jane Doe" "jane.doe@example.com" (Some "9876543211") None.

Definition authorization (customer_id : nat) : EMandateAuthorizationRequest.t :=
  EMandateAuthorizationRequest.mk customer_id 500 "monthly" None None
    (Some "Test authorization") None.

Definition new_mandate : MandateCreate.t :=
  MandateCreate.mk 1 1000 "INR" (Some "monthly") (Some "Test mandate").

Definition new_payment : PaymentCreate.t :=
  PaymentCreate.mk 250 "INR" None None None 1 (Some 1%nat)
                   TransactionTypeEnum.RECURRING_PAYMENT.

End Cases.
(* ===================================================================== *)
(** * Properties *)
(* ===================================================================== *)

Import Py Orm.

(** ** Amount conversion *)

(** C9. The round trip of the helpers fails at 29 paise: 29 / 100 is the
    double just below 0.29, its product with 100 is just below 29, and
    [int] truncates it to 28, where the rounding the specification words
    would give 29 back. *)
Theorem convert_amount_round_trip_loses_a_paisa :
  Helpers.convert_amount_to_paise (Helpers.convert_amount_from_paise 29) = Some 28
  /\ Helpers.spec_to_minor_units (Helpers.convert_amount_from_paise 29) = Some 29.
Proof. split; vm_compute; reflexivity. Qed.

(** ** Sessions *)

Lemma close_open (d : DB) : close (open d) = d.
Proof. reflexivity. Qed.

Lemma sys_eta (sys : Endpoints.Sys) :
  Endpoints.mkSys (Endpoints.db sys) (Endpoints.queue sys) = sys.
Proof. destruct sys; reflexivity. Qed.

Lemma Qle_bool_false_of_lt (a b : Q) : (b < a)%Q -> Qle_bool a b = false.
Proof.
  intros Hlt. destruct (Qle_bool a b) eqn:E; [|reflexivity].
  apply Qle_bool_iff in E. exfalso. exact (Qlt_not_le _ _ Hlt E).
Qed.

Lemma Qle_bool_true_of_le (a b : Q) : (a <= b)%Q -> Qle_bool a b = true.
Proof. intros H. apply Qle_bool_iff. exact H. Qed.

(** ** The recurring-payment endpoint *)

Section RecurringPayment.

Variable request_data : EMandateRecurringPaymentRequest.t.
Variable sys : Endpoints.Sys.
Variable mandate : Mandate.t.

Let mandate_id := EMandateRecurringPaymentRequest.mandate_id request_data.
Let amount := EMandateRecurringPaymentRequest.amount request_data.

Hypothesis mandate_found :
  find (fun x => Nat.eqb (Mandate.id x) mandate_id) (mandates (Endpoints.db sys))
  = Some mandate.

Lemma recurring_inactive_rejected :
  Endpoints.is_active (Mandate.status mandate) = false ->
  Endpoints.create_recurring_payment request_data sys
  = (sys, inl (HTTPException 400 "Mandate is not active for payments")).
Proof.
  intros Hst.
  unfold Endpoints.create_recurring_payment, Endpoints.check_recurring_payment,
    Services.get_mandate, mandate_by_id, bind.
  cbn [open working committed]. fold mandate_id. rewrite mandate_found, Hst.
  cbn. rewrite sys_eta. reflexivity.
Qed.

Lemma recurring_over_limit_rejected :
  Endpoints.is_active (Mandate.status mandate) = true ->
  (Mandate.amount mandate < amount)%Q ->
  Endpoints.create_recurring_payment request_data sys
  = (sys, inl (HTTPException 400 "Payment amount exceeds mandate limit")).
Proof.
  intros Hst Hlt.
  unfold Endpoints.create_recurring_payment, Endpoints.check_recurring_payment,
    Services.get_mandate, mandate_by_id, bind.
  cbn [open working committed]. fold mandate_id. rewrite mandate_found, Hst.
  fold amount. rewrite (Qle_bool_false_of_lt _ _ Hlt).
  cbn. rewrite sys_eta. reflexivity.
Qed.

Lemma recurring_accepted :
  Endpoints.is_active (Mandate.status mandate) = true ->
  (amount <= Mandate.amount mandate)%Q ->
  exists payment_data r,
    Endpoints.create_recurring_payment request_data sys
    = (Endpoints.mkSys (Endpoints.db sys)
         (Endpoints.queue sys
          ++ [Endpoints.ProcessRecurringPayment mandate_id payment_data]),
       inr r)
    /\ Endpoints.status_code r = 202 /\ Endpoints.success r = true
    /\ assoc "amount" payment_data = Some (JReal amount).
Proof.
  intros Hst Hle.
  unfold Endpoints.create_recurring_payment, Endpoints.check_recurring_payment,
    Services.get_mandate, mandate_by_id, bind.
  cbn [open working committed]. fold mandate_id. rewrite mandate_found, Hst.
  fold amount. rewrite (Qle_bool_true_of_le _ _ Hle).
  cbn. eexists. eexists. split; [reflexivity|]. cbn. auto.
Qed.

End RecurringPayment.

(** C7. A recurring-payment request on a mandate still in [CREATED]
    status, or for more than the mandate's ceiling, is answered with HTTP
    400, and the store and the queue are left as they were: no Order row,
    no Payment row, no task. *)
Theorem recurring_payment_rejected_before_any_row
  (request_data : EMandateRecurringPaymentRequest.t) (sys : Endpoints.Sys)
  (mandate : Mandate.t)
  (Hfound : find (fun x => Nat.eqb (Mandate.id x)
                     (EMandateRecurringPaymentRequest.mandate_id request_data))
                 (mandates (Endpoints.db sys)) = Some mandate)
  (Hbad : Mandate.status mandate = MandateStatus.CREATED
          \/ (Mandate.amount mandate
              < EMandateRecurringPaymentRequest.amount request_data)%Q) :
  exists message,
    Endpoints.create_recurring_payment request_data sys
    = (sys, inl (HTTPException 400 message)).
Proof.
  destruct (Endpoints.is_active (Mandate.status mandate)) eqn:Hact.
  - destruct Hbad as [Hst | Hlt].
    + rewrite Hst in Hact. discriminate Hact.
    + eexists. apply (recurring_over_limit_rejected _ _ _ Hfound Hact Hlt).
  - eexists. apply (recurring_inactive_rejected _ _ _ Hfound Hact).
Qed.

Lemma recurring_payment_rejected_before_any_row_witness :
  let sys := Endpoints.mkSys
               (Scenario.store [Scenario.mandate MandateStatus.CREATED None] [] [])
               [] in
  find (fun x => Nat.eqb (Mandate.id x) 1) (mandates (Endpoints.db sys))
  = Some (Scenario.mandate MandateStatus.CREATED None)
  /\ exists message,
       Endpoints.create_recurring_payment (Scenario.charge 500) sys
       = (sys, inl (HTTPException 400 message)).
Proof.
  intros sys. split; [reflexivity|].
  apply (recurring_payment_rejected_before_any_row (Scenario.charge 500) sys
           (Scenario.mandate MandateStatus.CREATED None)).
  - reflexivity.
  - left. reflexivity.
Defined.

(** ** The recurring-payment task *)

Lemma recurring_task_requires_confirmed (env : Env) (self : Celery.task)
  (mandate_id : nat) (payment_data : list (string * json)) (d : DB)
  (mandate : Mandate.t) :
  find (fun x => Nat.eqb (Mandate.id x) mandate_id) (mandates d) = Some mandate ->
  Mandate.status mandate <> MandateStatus.CONFIRMED ->
  Tasks.process_recurring_payment env self mandate_id payment_data d
  = (d, inl (Celery.retry self (ValueError "Mandate is not confirmed"))).
Proof.
  intros Hfound Hst.
  unfold Tasks.process_recurring_payment, Tasks.in_session, try_except, bind,
    Services.get_mandate, mandate_by_id.
  cbn [open working committed]. rewrite Hfound.
  destruct (Mandate.status mandate); try congruence; reflexivity.
Qed.

Lemma task_mandate_not_found_recurring (env : Env) (self : Celery.task)
  (mandate_id : nat) (payment_data : list (string * json)) (d : DB) :
  find (fun x => Nat.eqb (Mandate.id x) mandate_id) (mandates d) = None ->
  Tasks.process_recurring_payment env self mandate_id payment_data d
  = (d, inl (Celery.retry self (ValueError "Mandate not found"))).
Proof.
  intros Hnone.
  unfold Tasks.process_recurring_payment, Tasks.in_session, try_except, bind,
    Services.get_mandate, mandate_by_id.
  cbn [open working committed]. rewrite Hnone. reflexivity.
Qed.

Lemma task_mandate_not_found_authorization (env : Env) (self : Celery.task)
  (customer_id mandate_id : nat) (order_data : list (string * json)) (d : DB) :
  find (fun x => Nat.eqb (Mandate.id x) mandate_id) (mandates d) = None ->
  Tasks.process_emandate_authorization env self customer_id mandate_id order_data d
  = (d, inl (Celery.retry self (ValueError "Mandate not found"))).
Proof.
  intros Hnone.
  unfold Tasks.process_emandate_authorization, Tasks.in_session, try_except, bind,
    Services.get_mandate, mandate_by_id.
  cbn [open working committed]. rewrite Hnone. reflexivity.
Qed.

(** C6, as the claim states it, fails: a charge within the ceiling of an
    [AUTHORIZED] mandate is accepted by the endpoint, but the task it
    queues refuses the mandate and no payment is produced. *)
Lemma authorized_mandate_charge_produces_no_payment :
  let sys := Endpoints.mkSys
               (Scenario.store
                  [Scenario.mandate MandateStatus.AUTHORIZED (Some "mandate_mock_1")]
                  [] [])
               [] in
  let accepted := Endpoints.create_recurring_payment (Scenario.charge 500) sys in
  Endpoints.is_ack (snd accepted) = true
  /\ exists c log,
       Endpoints.queue (fst accepted) = [c]
       /\ Endpoints.execute Scenario.env c (Endpoints.db (fst accepted))
          = (Endpoints.db sys,
             Celery.FAILURE (ValueError "Mandate is not confirmed"), log)
       /\ payments (Endpoints.db sys) = [].
Proof.
  intros sys accepted. split; [reflexivity|].
  eexists. eexists. split; [reflexivity|]. split; [vm_compute; reflexivity|].
  reflexivity.
Qed.

(** C6, amended.  For a mandate in [AUTHORIZED] or [CONFIRMED] status, a
    request for no more than the ceiling is accepted (202) and queues the
    recurring-payment task with the requested amount, while a request for
    more is refused with HTTP 400 "Payment amount exceeds mandate limit".
    The queued task in turn refuses every mandate that is not [CONFIRMED]
    with "Mandate is not confirmed", leaving the store unchanged. *)
Theorem recurring_charge_gates
  (request_data : EMandateRecurringPaymentRequest.t) (sys : Endpoints.Sys)
  (mandate : Mandate.t)
  (Hfound : find (fun x => Nat.eqb (Mandate.id x)
                     (EMandateRecurringPaymentRequest.mandate_id request_data))
                 (mandates (Endpoints.db sys)) = Some mandate)
  (Hactive : Mandate.status mandate = MandateStatus.AUTHORIZED
             \/ Mandate.status mandate = MandateStatus.CONFIRMED) :
  let mandate_id := EMandateRecurringPaymentRequest.mandate_id request_data in
  let amount := EMandateRecurringPaymentRequest.amount request_data in
  ((amount <= Mandate.amount mandate)%Q ->
   exists payment_data r,
     Endpoints.create_recurring_payment request_data sys
     = (Endpoints.mkSys (Endpoints.db sys)
          (Endpoints.queue sys
           ++ [Endpoints.ProcessRecurringPayment mandate_id payment_data]),
        inr r)
     /\ Endpoints.status_code r = 202 /\ Endpoints.success r = true
     /\ assoc "amount" payment_data = Some (JReal amount))
  /\ ((Mandate.amount mandate < amount)%Q ->
      Endpoints.create_recurring_payment request_data sys
      = (sys, inl (HTTPException 400 "Payment amount exceeds mandate limit")))
  /\ (Mandate.status mandate <> MandateStatus.CONFIRMED ->
      forall env self payment_data,
        Tasks.process_recurring_payment env self mandate_id payment_data
          (Endpoints.db sys)
        = (Endpoints.db sys,
           inl (Celery.retry self (ValueError "Mandate is not confirmed")))).
Proof.
  intros mandate_id amount.
  assert (Hact : Endpoints.is_active (Mandate.status mandate) = true).
  { destruct Hactive as [-> | ->]; reflexivity. }
  split; [|split].
  - intros Hle. apply (recurring_accepted _ _ _ Hfound Hact Hle).
  - intros Hlt. apply (recurring_over_limit_rejected _ _ _ Hfound Hact Hlt).
  - intros Hst env self payment_data.
    apply (recurring_task_requires_confirmed _ _ _ _ _ _ Hfound Hst).
Qed.

Lemma recurring_charge_gates_witness :
  let m := Scenario.mandate MandateStatus.AUTHORIZED (Some "mandate_mock_1") in
  let sys := Endpoints.mkSys (Scenario.store [m] [] []) [] in
  (500 <= Mandate.amount m)%Q
  /\ Mandate.status m <> MandateStatus.CONFIRMED
  /\ (exists payment_data r,
        Endpoints.create_recurring_payment (Scenario.charge 500) sys
        = (Endpoints.mkSys (Endpoints.db sys)
             (Endpoints.queue sys
              ++ [Endpoints.ProcessRecurringPayment 1 payment_data]),
           inr r)
        /\ Endpoints.status_code r = 202 /\ Endpoints.success r = true
        /\ assoc "amount" payment_data = Some (JReal 500))
  /\ Tasks.process_recurring_payment Scenario.env Scenario.first_attempt 1 []
       (Endpoints.db sys)
     = (Endpoints.db sys,
        inl (Celery.retry Scenario.first_attempt
               (ValueError "Mandate is not confirmed"))).
Proof.
  intros m sys.
  assert (Hle : (500 <= Mandate.amount m)%Q) by (vm_compute; discriminate).
  assert (Hst : Mandate.status m <> MandateStatus.CONFIRMED) by discriminate.
  destruct (recurring_charge_gates (Scenario.charge 500) sys m
              eq_refl (or_introl eq_refl)) as [Hok [_ Htask]].
  split; [exact Hle|]. split; [exact Hst|].
  split; [exact (Hok Hle)|]. exact (Htask Hst _ _ _).
Defined.

(** ** Retries *)

(** A call whose every attempt hands the same exception to [self.retry]
    and leaves the store alone is attempted three times, 60 time units
    apart, and then fails for good with that exception. *)
Lemma always_failing_call_runs_three_times {St R : Type}
  (body : Celery.task -> St -> St * (exn + R)) (e : exn) (s : St) :
  is_Retry e = false ->
  (forall self, body self s = (s, inl (Celery.retry self e))) ->
  Celery.apply_async body (Some Tasks.retry_policy) s
  = (s, Celery.FAILURE e,
     [Celery.mkAttempt e (Some 60); Celery.mkAttempt e (Some 60);
      Celery.mkAttempt e None]).
Proof.
  intros He Hbody.
  unfold Celery.apply_async. cbn [Tasks.retry_policy Celery.max_retries].
  repeat (cbn [Celery.run]; rewrite Hbody; unfold Celery.retry; cbn).
  destruct e; try reflexivity; discriminate He.
Qed.

(** ** Rows found, rows replaced *)

Section Rows.

Context {A : Type}.
Variable key : A -> nat.

Lemma find_by_key_some (l : list A) (k : nat) (w : A) :
  find (fun x => Nat.eqb (key x) k) l = Some w -> key w = k.
Proof.
  intros H. apply find_some in H. destruct H as [_ H].
  apply Nat.eqb_eq. exact H.
Qed.

Lemma find_replaced (l : list A) (k : nat) (w r : A) :
  find (fun x => Nat.eqb (key x) k) l = Some w ->
  key r = k ->
  find (fun x => Nat.eqb (key x) k)
       (map (fun x => if Nat.eqb (key x) (key r) then r else x) l) = Some r.
Proof.
  intros Hfind Hr. subst k. induction l as [|a l IH]; [discriminate|].
  cbn in *.
  destruct (Nat.eqb (key a) (key r)) eqn:E.
  - rewrite Nat.eqb_refl. reflexivity.
  - rewrite E. apply IH. exact Hfind.
Qed.

Lemma replace_twice (l : list A) (r1 r2 : A) :
  key r1 = key r2 ->
  map (fun x => if Nat.eqb (key x) (key r2) then r2 else x)
      (map (fun x => if Nat.eqb (key x) (key r1) then r1 else x) l)
  = map (fun x => if Nat.eqb (key x) (key r2) then r2 else x) l.
Proof.
  intros Hk. rewrite map_map. apply map_ext. intros a.
  rewrite Hk. destruct (Nat.eqb (key a) (key r2)) eqn:E.
  - rewrite Hk, Nat.eqb_refl. reflexivity.
  - rewrite E. reflexivity.
Qed.

Lemma key_le_list_max (l : list A) (a : A) :
  In a l -> (key a <= list_max (map key l))%nat.
Proof.
  intros Hin.
  assert (H : Forall (fun n => (n <= list_max (map key l))%nat) (map key l)).
  { apply list_max_le. apply Nat.le_refl. }
  rewrite Forall_forall in H. apply H. apply in_map. exact Hin.
Qed.

Lemma find_fresh_none (l : list A) :
  find (fun x => Nat.eqb (key x) (next_id (map key l))) l = None.
Proof.
  destruct (find _ l) as [w|] eqn:E; [|reflexivity].
  pose proof (find_by_key_some _ _ _ E) as Hk.
  apply find_some in E. destruct E as [Hin _].
  pose proof (key_le_list_max _ _ Hin) as Hle.
  unfold next_id in Hk. lia.
Qed.

Lemma find_in_app (f : A -> bool) (l1 l2 : list A) :
  find f (l1 ++ l2)%list
  = match find f l1 with Some x => Some x | None => find f l2 end.
Proof.
  induction l1 as [|a l1 IH]; [reflexivity|].
  cbn. destruct (f a); [reflexivity | exact IH].
Qed.

Lemma find_appended (l : list A) (r : A) :
  key r = next_id (map key l) ->
  find (fun x => Nat.eqb (key x) (key r)) (l ++ [r])%list = Some r.
Proof.
  intros Hr. rewrite find_in_app, Hr, find_fresh_none. cbn.
  rewrite Hr, Nat.eqb_refl. reflexivity.
Qed.

Lemma replace_appended (l : list A) (r r' : A) :
  key r = next_id (map key l) ->
  key r' = key r ->
  map (fun x => if Nat.eqb (key x) (key r') then r' else x) (l ++ [r])
  = (l ++ [r'])%list.
Proof.
  intros Hr Hr'. rewrite map_app. cbn. rewrite Hr', Nat.eqb_refl. f_equal.
  rewrite <- (map_id l) at 2. apply map_ext_in. intros a Hin.
  destruct (Nat.eqb (key a) (key r)) eqn:E; [|reflexivity].
  apply Nat.eqb_eq in E. pose proof (key_le_list_max _ _ Hin) as Hle.
  unfold next_id in Hr. lia.
Qed.

End Rows.

Lemma put_payment_twice (r1 r2 : Payment.t) (d : DB) :
  Payment.id r1 = Payment.id r2 ->
  put_payment r2 (put_payment r1 d) = put_payment r2 d.
Proof.
  intros Hk. unfold put_payment. cbn. f_equal.
  apply (replace_twice Payment.id). exact Hk.
Qed.

(** ** The apply step leaves the webhook events alone *)

Section Frame.

#[local] Open Scope orm_scope.

Lemma keeps_ret {A} (a : A) : keeps_webhook_events (ret a).
Proof. intros s s' r H. inversion H. reflexivity. Qed.

Lemma keeps_raise {A} (e : exn) : keeps_webhook_events (@raise A e).
Proof. intros s s' r H. inversion H. reflexivity. Qed.

Lemma keeps_lift {A} (x : exn + A) : keeps_webhook_events (lift x).
Proof. intros s s' r H. inversion H. reflexivity. Qed.

Lemma keeps_bind {A B} (c : M A) (k : A -> M B) :
  keeps_webhook_events c ->
  (forall a, keeps_webhook_events (k a)) ->
  keeps_webhook_events (bind c k).
Proof.
  intros Hc Hk s s' r H. unfold bind in H.
  destruct (c s) as [s1 [e|a]] eqn:E.
  - inversion H; subst. apply (Hc _ _ _ E).
  - rewrite (Hk a _ _ _ H). apply (Hc _ _ _ E).
Qed.

Lemma keeps_commit : keeps_webhook_events commit.
Proof. intros s s' r H. inversion H. reflexivity. Qed.

Lemma keeps_put_payment (p : Payment.t) :
  keeps_webhook_events (assign (put_payment p)).
Proof. intros s s' r H. inversion H. reflexivity. Qed.

Lemma keeps_put_order (o : Order.t) :
  keeps_webhook_events (assign (put_order o)).
Proof. intros s s' r H. inversion H. reflexivity. Qed.

Lemma keeps_payment_query (v : json) :
  keeps_webhook_events (payment_by_razorpay_payment_id v).
Proof. intros s s' r H. inversion H. reflexivity. Qed.

Lemma keeps_order_query (v : json) :
  keeps_webhook_events (order_by_razorpay_order_id v).
Proof. intros s s' r H. inversion H. reflexivity. Qed.

End Frame.

Create HintDb frame.

#[local] Hint Resolve keeps_ret keeps_raise keeps_lift keeps_commit
  keeps_put_payment keeps_put_order keeps_payment_query keeps_order_query
  : frame.

Ltac frame :=
  repeat first
    [ apply keeps_bind; [| intros ? ]
    | solve [ auto with frame ]
    | match goal with
      | |- keeps_webhook_events (if ?b then _ else _) => destruct b
      | |- keeps_webhook_events (match ?x with _ => _ end) => destruct x
      end ].

Lemma dispatch_keeps_webhook_events (event_type : string) (payload : json) :
  keeps_webhook_events (Tasks.dispatch event_type payload).
Proof.
  unfold Tasks.dispatch, Tasks.process_payment_authorized,
    Tasks.process_payment_captured, Tasks.process_payment_failed,
    Tasks.process_order_paid.
  frame.
Qed.

Lemma apply_event_keeps_webhook_events (env : Env) (w : WebhookEvent.t) :
  keeps_webhook_events (Tasks.apply_event env w).
Proof.
  unfold Tasks.apply_event. frame. apply dispatch_keeps_webhook_events.
Qed.

(** ** One execution of the webhook task *)

Lemma already_processed_short_circuits (env : Env) (self : Celery.task)
  (webhook_id : nat) (d : DB) (w : WebhookEvent.t) :
  find (fun x => Nat.eqb (WebhookEvent.id x) webhook_id) (webhook_events d) = Some w ->
  WebhookEvent.processed w = true ->
  Tasks.process_webhook_event env self webhook_id d = (d, inr Tasks.AlreadyProcessed).
Proof.
  intros Hw Hp.
  unfold Tasks.process_webhook_event, Tasks.in_session, try_except, bind,
    webhook_by_id.
  cbn [open working committed]. rewrite Hw, Hp. reflexivity.
Qed.

(** Whatever the apply step does, the task then marks the event
    processed, with the error text when the apply raised, and commits what
    the session holds at that point. *)
Lemma process_webhook_event_outcome (env : Env) (self : Celery.task)
  (webhook_id : nat) (d : DB) (w : WebhookEvent.t) (s' : Session)
  (r : exn + unit) :
  find (fun x => Nat.eqb (WebhookEvent.id x) webhook_id) (webhook_events d) = Some w ->
  WebhookEvent.processed w = false ->
  Tasks.apply_event env w (open d) = (s', r) ->
  let error := match r with inl e => Some (str e) | inr _ => None end in
  let w' := WebhookEvent.set_processed true error w in
  let d' := put_webhook_event w' (working s') in
  Tasks.process_webhook_event env self webhook_id d
  = (d', match r with
         | inl e => inl (Celery.retry self e)
         | inr _ => inr (Tasks.Processed (WebhookEvent.event_type w))
         end)
  /\ find (fun x => Nat.eqb (WebhookEvent.id x) webhook_id) (webhook_events d')
     = Some w'.
Proof.
  intros Hw Hp Happly error w' d'.
  pose proof (apply_event_keeps_webhook_events env w _ _ _ Happly) as Hkeep.
  cbn [open working] in Hkeep.
  assert (Hw' : find (fun x => Nat.eqb (WebhookEvent.id x) webhook_id)
                     (webhook_events (working s')) = Some w).
  { rewrite Hkeep. exact Hw. }
  split.
  - unfold Tasks.process_webhook_event, Tasks.in_session, try_except, bind,
      webhook_by_id.
    cbn [open working committed]. rewrite Hw, Hp.
    rewrite Happly.
    unfold Services.mark_webhook_processed, bind, webhook_by_id.
    destruct r as [e|[]]; rewrite Hw'; reflexivity.
  - unfold d', put_webhook_event. cbn [webhook_events].
    apply (find_replaced WebhookEvent.id _ _ w w' Hw').
    apply (find_by_key_some WebhookEvent.id _ _ _ Hw).
Qed.

(** ** The apply step on payment events *)

Section ApplyStep.

Variable env : Env.
Variable w : WebhookEvent.t.
Variable d : DB.
Variable payload : json.
Variable entity : list (string * json).

Hypothesis payload_parsed : json_loads env (WebhookEvent.payload w) = Some payload.
Hypothesis entity_found : get_or payload "entity" (JObj []) = inr (JObj entity).

Ltac step :=
  unfold Tasks.apply_event, Tasks.dispatch, Tasks.process_payment_authorized,
    Tasks.process_payment_captured, Tasks.process_payment_failed, bind, lift,
    ret, get;
  rewrite payload_parsed;
  cbn [String.eqb Ascii.eqb Bool.eqb];
  rewrite entity_found;
  cbn [get_or].

Lemma apply_without_matching_payment :
  Tasks.is_payment_event (WebhookEvent.event_type w) ->
  (truthy (Tasks.entity_id entity) = false
   \/ exists k, Tasks.entity_id entity = JStr k
                /\ find (fun x => opt_str_is (Payment.razorpay_payment_id x) k)
                        (payments d) = None) ->
  Tasks.apply_event env w (open d) = (open d, inr tt).
Proof.
  intros Htype Hid.
  destruct Htype as [Ht | [Ht | Ht]]; unfold Tasks.apply_event; rewrite Ht; step.
  all: fold (Tasks.entity_id entity).
  all: destruct Hid as [Hf | [k [Hk Hnone]]].
  all: try (rewrite Hf; reflexivity).
  all: rewrite Hk; destruct (truthy (JStr k)); [|reflexivity].
  all: unfold payment_by_razorpay_payment_id; cbn [open working negb].
  all: rewrite Hnone; reflexivity.
Qed.

Variable k : string.
Variable p : Payment.t.

Hypothesis id_found : assoc "id" entity = Some (JStr k).
Hypothesis id_not_empty : String.eqb k "" = false.
Hypothesis payment_found :
  find (fun x => opt_str_is (Payment.razorpay_payment_id x) k) (payments d) = Some p.

Ltac matched :=
  step; rewrite id_found; cbn [truthy negb]; rewrite id_not_empty;
  unfold payment_by_razorpay_payment_id; cbn [open working negb];
  rewrite payment_found.

Lemma apply_authorized :
  WebhookEvent.event_type w = "payment.authorized" ->
  let d' := put_payment (Payment.set_status PaymentStatus.AUTHORIZED p) d in
  Tasks.apply_event env w (open d) = (mkSession d' d', inr tt).
Proof.
  intros Ht d'. unfold Tasks.apply_event. rewrite Ht. matched. reflexivity.
Qed.

Lemma apply_captured (fee tax : Q) :
  WebhookEvent.event_type w = "payment.captured" ->
  div100 (match assoc "fee" entity with Some v => v | None => JInt 0 end) = inr fee ->
  div100 (match assoc "tax" entity with Some v => v | None => JInt 0 end) = inr tax ->
  let d' := put_payment
              (Payment.set_tax (Some tax)
                 (Payment.set_fee (Some fee)
                    (Payment.set_status PaymentStatus.CAPTURED p))) d in
  Tasks.apply_event env w (open d) = (mkSession d' d', inr tt).
Proof.
  intros Ht Hfee Htax d'. unfold Tasks.apply_event. rewrite Ht. matched.
  unfold assign, commit, commit_checking. cbn [working committed].
  rewrite Hfee, Htax. cbn [working committed].
  rewrite !put_payment_twice by reflexivity. reflexivity.
Qed.

Lemma apply_captured_bad_fee (e : exn) :
  WebhookEvent.event_type w = "payment.captured" ->
  div100 (match assoc "fee" entity with Some v => v | None => JInt 0 end) = inl e ->
  Tasks.apply_event env w (open d)
  = (mkSession d (put_payment (Payment.set_status PaymentStatus.CAPTURED p) d),
     inl e).
Proof.
  intros Ht Hfee. unfold Tasks.apply_event. rewrite Ht. matched.
  unfold assign. cbn [working committed]. rewrite Hfee. reflexivity.
Qed.

Lemma apply_failed :
  WebhookEvent.event_type w = "payment.failed" ->
  let d' := put_payment
              (Payment.set_error_description
                 (match assoc "error_description" entity with
                  | Some v => v | None => JNull end)
                 (Payment.set_error_code
                    (match assoc "error_code" entity with
                     | Some v => v | None => JNull end)
                    (Payment.set_status PaymentStatus.FAILED p))) d in
  Tasks.apply_event env w (open d) = (mkSession d' d', inr tt).
Proof.
  intros Ht d'. unfold Tasks.apply_event. rewrite Ht. matched.
  unfold assign, commit, commit_checking. cbn [working committed].
  rewrite !put_payment_twice by reflexivity. reflexivity.
Qed.

End ApplyStep.

Lemma apply_async_success {St R : Type}
  (body : Celery.task -> St -> St * (exn + R)) (kw : option Celery.retry_kwargs)
  (s s' : St) (r : R) :
  body (Celery.mkTask kw 0) s = (s', inr r) ->
  Celery.apply_async body kw s = (s', Celery.SUCCESS r, []).
Proof.
  intros H. unfold Celery.apply_async.
  destruct (match kw with Some k => Celery.max_retries k | None => 0%nat end);
    cbn [Celery.run]; rewrite H; reflexivity.
Qed.

(** ** Events that match no payment *)

(** C10. A [payment.authorized], [payment.captured] or [payment.failed]
    event whose entity carries no id, or an id that no Payment row has, is
    applied without raising and without touching any Payment, Mandate or
    Order; the event is marked processed with no error, the task succeeds
    at its first attempt, and any later execution finds the event
    processed and does nothing. *)
Theorem unmatched_payment_event_is_consumed
  (env : Env) (webhook_id : nat) (d : DB) (w : WebhookEvent.t)
  (payload : json) (entity : list (string * json))
  (Hw : find (fun x => Nat.eqb (WebhookEvent.id x) webhook_id) (webhook_events d)
        = Some w)
  (Hunprocessed : WebhookEvent.processed w = false)
  (Htype : Tasks.is_payment_event (WebhookEvent.event_type w))
  (Hparse : json_loads env (WebhookEvent.payload w) = Some payload)
  (Hentity : get_or payload "entity" (JObj []) = inr (JObj entity))
  (Hid : truthy (Tasks.entity_id entity) = false
         \/ exists k, Tasks.entity_id entity = JStr k
                      /\ find (fun x => opt_str_is (Payment.razorpay_payment_id x) k)
                              (payments d) = None) :
  let w' := WebhookEvent.set_processed true None w in
  let d' := put_webhook_event w' d in
  (forall self,
      Tasks.process_webhook_event env self webhook_id d
      = (d', inr (Tasks.Processed (WebhookEvent.event_type w))))
  /\ Endpoints.execute env (Endpoints.ProcessWebhookEvent webhook_id) d
     = (d', Celery.SUCCESS (Tasks.Processed (WebhookEvent.event_type w)), [])
  /\ payments d' = payments d /\ mandates d' = mandates d /\ orders d' = orders d
  /\ find (fun x => Nat.eqb (WebhookEvent.id x) webhook_id) (webhook_events d')
     = Some w'
  /\ WebhookEvent.processed w' = true /\ WebhookEvent.processing_error w' = None
  /\ (forall self,
         Tasks.process_webhook_event env self webhook_id d'
         = (d', inr Tasks.AlreadyProcessed)).
Proof.
  intros w' d'.
  pose proof (apply_without_matching_payment env w d payload entity
                Hparse Hentity Htype Hid) as Happly.
  assert (Hrun : forall self,
             Tasks.process_webhook_event env self webhook_id d
             = (d', inr (Tasks.Processed (WebhookEvent.event_type w)))).
  { intros self.
    apply (process_webhook_event_outcome env self webhook_id d w _ _
             Hw Hunprocessed Happly). }
  assert (Hfound : find (fun x => Nat.eqb (WebhookEvent.id x) webhook_id)
                        (webhook_events d') = Some w').
  { apply (process_webhook_event_outcome env (Celery.mkTask None 0) webhook_id d w
             _ _ Hw Hunprocessed Happly). }
  split; [exact Hrun|]. split.
  { cbn [Endpoints.execute]. apply apply_async_success. apply Hrun. }
  repeat (split; [reflexivity|]).
  split; [exact Hfound|]. repeat (split; [reflexivity|]).
  intros self. apply (already_processed_short_circuits _ _ _ _ w' Hfound).
  reflexivity.
Qed.

Lemma unmatched_payment_event_is_consumed_witness :
  let w := Scenario.webhook Scenario.unmatched_body "payment.authorized" in
  let d := Scenario.store [] [Scenario.payment PaymentStatus.CREATED] [w] in
  let d' := put_webhook_event (WebhookEvent.set_processed true None w) d in
  find (fun x => opt_str_is (Payment.razorpay_payment_id x) "pay_9") (payments d)
  = None
  /\ Endpoints.execute Scenario.env (Endpoints.ProcessWebhookEvent 1) d
     = (d', Celery.SUCCESS (Tasks.Processed "payment.authorized"), [])
  /\ payments d' = payments d.
Proof.
  intros w d d'.
  assert (Hnone : find (fun x => opt_str_is (Payment.razorpay_payment_id x) "pay_9")
                       (payments d) = None) by reflexivity.
  destruct (unmatched_payment_event_is_consumed Scenario.env 1 d w
              Scenario.unmatched_payload [("id", JStr "pay_9")]
              eq_refl eq_refl (or_introl eq_refl) eq_refl eq_refl
              (or_intror (ex_intro _ "pay_9" (conj eq_refl Hnone))))
    as [_ [Hexec [Hpay _]]].
  split; [exact Hnone|]. split; [exact Hexec | exact Hpay].
Defined.

(** ** Events whose apply raises *)

(** C4. The task at an event whose apply raises: an unprocessed
    [payment.captured] event with a [null] fee, for a stored payment.  The
    first attempt raises and asks for a retry, but it has recorded the
    error with [processed = true], where the claim wants the flag to stay
    false; so the attempt the retry schedules finds the event processed
    and returns at once, and the event is never applied again. *)
Lemma failed_apply_leaves_event_processed :
  let w := Scenario.webhook Scenario.bad_fee_body "payment.captured" in
  let d := Scenario.store [] [Scenario.payment PaymentStatus.CREATED] [w] in
  let error := "unsupported operand type(s) for /: 'NoneType' and 'int'" in
  let first := Tasks.process_webhook_event Scenario.env Scenario.first_attempt 1 d in
  snd first = inl (Retry (TypeError error) 60)
  /\ webhook_events (fst first)
     = [WebhookEvent.set_processed true (Some error) w]
  /\ Tasks.process_webhook_event Scenario.env
       (Celery.mkTask (Some Tasks.retry_policy) 1) 1 (fst first)
     = (fst first, inr Tasks.AlreadyProcessed).
Proof. intros w d error first. repeat split. Qed.

(** On either path the task marks the event processed: with the text of
    the exception as [processing_error] when the apply raised, with no
    error when it returned.  A later execution finds the event processed
    and returns without applying it. *)
Lemma task_marks_the_event_on_either_path
  (env : Env) (self : Celery.task) (webhook_id : nat) (d : DB)
  (w : WebhookEvent.t) (s' : Session) (r : exn + unit)
  (Hw : find (fun x => Nat.eqb (WebhookEvent.id x) webhook_id) (webhook_events d)
        = Some w)
  (Hunprocessed : WebhookEvent.processed w = false)
  (Happly : Tasks.apply_event env w (open d) = (s', r)) :
  let error := match r with inl e => Some (str e) | inr _ => None end in
  let w' := WebhookEvent.set_processed true error w in
  let d' := put_webhook_event w' (working s') in
  Tasks.process_webhook_event env self webhook_id d
  = (d', match r with
         | inl e => inl (Celery.retry self e)
         | inr _ => inr (Tasks.Processed (WebhookEvent.event_type w))
         end)
  /\ WebhookEvent.processed w' = true
  /\ (forall again,
         Tasks.process_webhook_event env again webhook_id d'
         = (d', inr Tasks.AlreadyProcessed)).
Proof.
  intros error w' d'.
  destruct (process_webhook_event_outcome env self webhook_id d w s' r
              Hw Hunprocessed Happly) as [Hrun Hfound].
  split; [exact Hrun|]. split; [reflexivity|].
  intros again. apply (already_processed_short_circuits _ _ _ _ w' Hfound).
  reflexivity.
Qed.

(** ** Status writes *)

Lemma validate_confirms_any_status (self : Celery.task) (mandate_id : nat)
  (d : DB) (m : Mandate.t) :
  find (fun x => Nat.eqb (Mandate.id x) mandate_id) (mandates d) = Some m ->
  Tasks.str_truthy (Mandate.razorpay_mandate_id m) = true ->
  Tasks.validate_mandate_status self mandate_id d
  = (put_mandate (Mandate.set_status MandateStatus.CONFIRMED m) d,
     inr (Tasks.MandateValidated mandate_id "confirmed")).
Proof.
  intros Hm Hgw.
  unfold Tasks.validate_mandate_status, Tasks.in_session, try_except, bind,
    Services.get_mandate, mandate_by_id.
  cbn [open working committed]. rewrite Hm, Hgw. reflexivity.
Qed.

Lemma validate_without_gateway_id (self : Celery.task) (mandate_id : nat)
  (d : DB) (m : Mandate.t) :
  find (fun x => Nat.eqb (Mandate.id x) mandate_id) (mandates d) = Some m ->
  Tasks.str_truthy (Mandate.razorpay_mandate_id m) = false ->
  Tasks.validate_mandate_status self mandate_id d
  = (d, inr (Tasks.MandateValidated mandate_id
               (MandateStatus.value (Mandate.status m)))).
Proof.
  intros Hm Hgw.
  unfold Tasks.validate_mandate_status, Tasks.in_session, try_except, bind,
    Services.get_mandate, mandate_by_id.
  cbn [open working committed]. rewrite Hm, Hgw. reflexivity.
Qed.

(** C2, as the claim states it, fails: validating a [CANCELLED] mandate
    that has a gateway id confirms it, and a captured event for a
    [REFUNDED] payment captures it again; neither is refused. *)
Lemma terminal_states_are_left :
  let m := Scenario.mandate MandateStatus.CANCELLED (Some "mandate_mock_1") in
  let p := Scenario.payment PaymentStatus.REFUNDED in
  let w := Scenario.webhook Scenario.captured_body "payment.captured" in
  let d := Scenario.store [m] [p] [w] in
  (exists log,
      Endpoints.execute Scenario.env (Endpoints.ValidateMandateStatus 1) d
      = (put_mandate (Mandate.set_status MandateStatus.CONFIRMED m) d,
         Celery.SUCCESS (Tasks.MandateValidated 1 "confirmed"), log))
  /\ map Payment.status
         (payments (fst (Tasks.process_webhook_event Scenario.env
                           Scenario.first_attempt 1 d)))
     = [PaymentStatus.CAPTURED].
Proof.
  intros m p w d. split; [eexists; vm_compute; reflexivity|].
  vm_compute. reflexivity.
Qed.

(** C2, amended.  The operations write their target status whatever the
    current one is, and none reports a refused transition.  Validation
    sets a mandate that has a gateway id to [CONFIRMED] and returns that
    status (a mandate without one is left as it is); the apply of a
    [payment.authorized], [payment.captured] or [payment.failed] event
    sets the matching payment to [AUTHORIZED], [CAPTURED] or [FAILED] and
    commits. *)
Theorem status_is_written_from_any_state
  (env : Env) (self : Celery.task) (d : DB)
  (mandate_id : nat) (m : Mandate.t)
  (w : WebhookEvent.t) (payload : json) (entity : list (string * json))
  (k : string) (p : Payment.t)
  (Hm : find (fun x => Nat.eqb (Mandate.id x) mandate_id) (mandates d) = Some m)
  (Hparse : json_loads env (WebhookEvent.payload w) = Some payload)
  (Hentity : get_or payload "entity" (JObj []) = inr (JObj entity))
  (Hid : assoc "id" entity = Some (JStr k))
  (Hk : String.eqb k "" = false)
  (Hp : find (fun x => opt_str_is (Payment.razorpay_payment_id x) k) (payments d)
        = Some p) :
  let committed_with (p' : Payment.t) :=
    (mkSession (put_payment p' d) (put_payment p' d), @inr exn unit tt) in
  (Tasks.str_truthy (Mandate.razorpay_mandate_id m) = true ->
   Tasks.validate_mandate_status self mandate_id d
   = (put_mandate (Mandate.set_status MandateStatus.CONFIRMED m) d,
      inr (Tasks.MandateValidated mandate_id "confirmed"))
   /\ find (fun x => Nat.eqb (Mandate.id x) mandate_id)
           (mandates (put_mandate (Mandate.set_status MandateStatus.CONFIRMED m) d))
      = Some (Mandate.set_status MandateStatus.CONFIRMED m))
  /\ (Tasks.str_truthy (Mandate.razorpay_mandate_id m) = false ->
      Tasks.validate_mandate_status self mandate_id d
      = (d, inr (Tasks.MandateValidated mandate_id
                   (MandateStatus.value (Mandate.status m)))))
  /\ (WebhookEvent.event_type w = "payment.authorized" ->
      Tasks.apply_event env w (open d)
      = committed_with (Payment.set_status PaymentStatus.AUTHORIZED p))
  /\ (WebhookEvent.event_type w = "payment.captured" ->
      forall fee tax,
        div100 (match assoc "fee" entity with Some v => v | None => JInt 0 end)
        = inr fee ->
        div100 (match assoc "tax" entity with Some v => v | None => JInt 0 end)
        = inr tax ->
        Tasks.apply_event env w (open d)
        = committed_with
            (Payment.set_tax (Some tax)
               (Payment.set_fee (Some fee)
                  (Payment.set_status PaymentStatus.CAPTURED p))))
  /\ (WebhookEvent.event_type w = "payment.failed" ->
      Tasks.apply_event env w (open d)
      = committed_with
          (Payment.set_error_description
             (match assoc "error_description" entity with
              | Some v => v | None => JNull end)
             (Payment.set_error_code
                (match assoc "error_code" entity with
                 | Some v => v | None => JNull end)
                (Payment.set_status PaymentStatus.FAILED p)))).
Proof.
  intros committed_with. split; [|split; [|split; [|split]]].
  - intros Hgw. split.
    + apply (validate_confirms_any_status self mandate_id d m Hm Hgw).
    + unfold put_mandate. cbn [mandates].
      apply (find_replaced Mandate.id _ _ m _ Hm).
      apply (find_by_key_some Mandate.id _ _ _ Hm).
  - intros Hgw. apply (validate_without_gateway_id self mandate_id d m Hm Hgw).
  - intros Ht.
    apply (apply_authorized env w d payload entity Hparse Hentity k p Hid Hk Hp Ht).
  - intros Ht fee tax Hfee Htax.
    apply (apply_captured env w d payload entity Hparse Hentity k p Hid Hk Hp
             fee tax Ht Hfee Htax).
  - intros Ht.
    apply (apply_failed env w d payload entity Hparse Hentity k p Hid Hk Hp Ht).
Qed.

Lemma status_is_written_from_any_state_witness :
  let m := Scenario.mandate MandateStatus.EXPIRED (Some "mandate_mock_1") in
  let p := Scenario.payment PaymentStatus.REFUNDED in
  let w := Scenario.webhook Scenario.captured_body "payment.captured" in
  let d := Scenario.store [m] [p] [w] in
  let p' := Payment.set_tax (Some (inject_Z 2 / 100)%Q)
              (Payment.set_fee (Some (inject_Z 10 / 100)%Q)
                 (Payment.set_status PaymentStatus.CAPTURED p)) in
  find (fun x => opt_str_is (Payment.razorpay_payment_id x) "pay_1") (payments d)
  = Some p
  /\ Tasks.validate_mandate_status Scenario.first_attempt 1 d
     = (put_mandate (Mandate.set_status MandateStatus.CONFIRMED m) d,
        inr (Tasks.MandateValidated 1 "confirmed"))
  /\ Tasks.apply_event Scenario.env w (open d)
     = (mkSession (put_payment p' d) (put_payment p' d), inr tt).
Proof.
  intros m p w d p'.
  destruct (status_is_written_from_any_state Scenario.env Scenario.first_attempt
              d 1 m w Scenario.captured_payload
              [("id", JStr "pay_1"); ("fee", JInt 10); ("tax", JInt 2)]
              "pay_1" p eq_refl eq_refl eq_refl eq_refl eq_refl eq_refl)
    as [Hval [_ [_ [Hcap _]]]].
  split; [reflexivity|]. split.
  - apply (Hval eq_refl).
  - apply (Hcap eq_refl _ _ eq_refl eq_refl).
Defined.

(** ** Commits inside a task *)

(** [create_order] on an [OrderCreate] commits by itself: when it
    returns, the new row (and whatever else the session held) is in the
    committed store. *)
Lemma create_order_commits (env : Env) (order_data : OrderCreate.t)
  (s s1 : Session) (row : Order.t) :
  Services.create_order env (Model order_data) s = (s1, inr row) ->
  committed s1 = working s1
  /\ orders (committed s1) = (orders (working s) ++ [row])%list
  /\ mandates (committed s1) = mandates (working s)
  /\ payments (committed s1) = payments (working s).
Proof.
  unfold Services.create_order, try_except, bind, lift, getattr, get_working,
    set_working, commit_checking, ret, rollback, raise.
  destruct (razorpay_create_order env _ _ _) as [e|g]; [discriminate|].
  cbn [working committed].
  match goal with |- context [if ?b then _ else _] => destruct b end;
    [|discriminate].
  intros H. inversion H; subst. cbn. repeat split.
Qed.

(** [create_order] on a [dict], which is what the tasks pass, raises on
    its first attribute access and rolls back. *)
Lemma create_order_refuses_dict (env : Env) (fields : list (string * json))
  (s : Session) :
  Services.create_order env (Dict fields) s
  = (mkSession (committed s) (committed s),
     inl (AttributeError "'dict' object has no attribute 'amount'")).
Proof. reflexivity. Qed.

(** C5. The task at an event whose apply raises half way: an unprocessed
    [payment.captured] event with a [null] fee, for a stored payment in
    [CREATED] status.  The handler has set the status when the fee
    raises; the task fails and asks for a retry, yet the store it leaves
    has the payment [CAPTURED] with no fee and no tax.  The error path
    commits, with its mark on the event, the part of the writes made so
    far, where the claim wants all or none of them. *)
Lemma failed_task_commits_part_of_its_writes :
  let p := Scenario.payment PaymentStatus.CREATED in
  let w := Scenario.webhook Scenario.bad_fee_body "payment.captured" in
  let d := Scenario.store [] [p] [w] in
  let run := Tasks.process_webhook_event Scenario.env Scenario.first_attempt 1 d in
  (exists e, snd run = inl (Retry e 60))
  /\ payments (fst run) = [Payment.set_status PaymentStatus.CAPTURED p]
  /\ payments (fst run) <> payments d
  /\ Payment.fee (Payment.set_status PaymentStatus.CAPTURED p) = None.
Proof.
  intros p w d run. split; [eexists; reflexivity|].
  split; [reflexivity|]. split; [|reflexivity].
  vm_compute. discriminate.
Qed.

(** ** Deliveries of one webhook *)

Section Delivery.

Variable env : Env.
Variable request : Endpoints.Request.
Variable payload : json.
Variables event_id event_type : string.

Hypothesis signature_valid :
  Endpoints.validate_webhook_signature env (Endpoints.body request)
    (match Endpoints.x_razorpay_signature request with
     | Some s => s | None => "" end)
    (razorpay_webhook_secret env) = true.
Hypothesis body_parsed : json_loads env (Endpoints.body request) = Some payload.
Hypothesis fields_present :
  Endpoints.all_in payload ["event"; "account_id"; "entity"] = inr true.
Hypothesis id_derived : Endpoints.derive_event_id env payload = inr (JStr event_id).
Hypothesis type_given : get payload "event" = inr (JStr event_type).

Ltac received :=
  unfold Endpoints.handle_razorpay_webhook, Endpoints.receive_webhook,
    bind, lift, ret, raise;
  rewrite signature_valid; cbn [negb]; rewrite body_parsed, fields_present;
  cbn [negb]; rewrite id_derived; cbn [Endpoints.as_str];
  rewrite type_given; cbn [Endpoints.as_str];
  unfold Services.create_webhook_event, try_except, bind, get_working,
    set_working, commit_checking, rollback, raise, ret;
  cbn [open working committed WebhookEventCreate.event_id
         WebhookEventCreate.event_type WebhookEventCreate.payload].

Lemma first_delivery_accepted (sys : Endpoints.Sys) :
  event_id_free event_id (Endpoints.db sys) = true ->
  exists r,
    Endpoints.handle_razorpay_webhook env request sys
    = (Endpoints.mkSys (Endpoints.with_event (Endpoints.db sys) (Endpoints.stored_event request event_id event_type sys))
         (Endpoints.queue sys
          ++ [Endpoints.ProcessWebhookEvent (WebhookEvent.id (Endpoints.stored_event request event_id event_type sys))]),
       inr r)
    /\ Endpoints.success r = true.
Proof.
  intros Hfree. received. rewrite Hfree. cbn. eexists. split; reflexivity.
Qed.

Lemma repeated_delivery_refused (sys : Endpoints.Sys) :
  event_id_free event_id (Endpoints.db sys) = false ->
  Endpoints.handle_razorpay_webhook env request sys
  = (sys, inl (HTTPException 500 "Failed to process webhook")).
Proof.
  intros Hfree. received. rewrite Hfree. cbn. rewrite sys_eta. reflexivity.
Qed.

Lemma repeated_deliveries_refused (n : nat) (sys : Endpoints.Sys) :
  event_id_free event_id (Endpoints.db sys) = false ->
  Endpoints.deliver env request n sys
  = (sys, repeat (inl (HTTPException 500 "Failed to process webhook")) n).
Proof.
  intros Hfree. induction n as [|n IH]; [reflexivity|].
  cbn [Endpoints.deliver repeat].
  rewrite (repeated_delivery_refused sys Hfree), IH. reflexivity.
Qed.

Lemma event_id_taken_after_store (d : DB) (row : WebhookEvent.t) :
  WebhookEvent.event_id row = event_id ->
  event_id_free event_id (Endpoints.with_event d row) = false.
Proof.
  intros Hrow. unfold event_id_free, Endpoints.with_event. cbn [webhook_events].
  rewrite existsb_app. cbn. rewrite Hrow, String.eqb_refl, orb_true_r.
  reflexivity.
Qed.

Lemma deliveries_store_once (n : nat) (sys : Endpoints.Sys) :
  event_id_free event_id (Endpoints.db sys) = true ->
  exists r,
    Endpoints.deliver env request (S n) sys
    = (Endpoints.mkSys (Endpoints.with_event (Endpoints.db sys) (Endpoints.stored_event request event_id event_type sys))
         (Endpoints.queue sys
          ++ [Endpoints.ProcessWebhookEvent (WebhookEvent.id (Endpoints.stored_event request event_id event_type sys))]),
       inr r :: repeat (inl (HTTPException 500 "Failed to process webhook")) n)
    /\ Endpoints.success r = true.
Proof.
  intros Hfree.
  destruct (first_delivery_accepted sys Hfree) as [r [Hfirst Hr]].
  exists r. split; [|exact Hr].
  cbn [Endpoints.deliver]. rewrite Hfirst.
  rewrite repeated_deliveries_refused; [reflexivity|].
  cbn [Endpoints.db]. apply event_id_taken_after_store. reflexivity.
Qed.

End Delivery.

Lemma no_ack_in_refusals (e : exn) (n : nat) :
  filter Endpoints.is_ack (repeat (@inl exn Endpoints.response e) n) = [].
Proof. induction n as [|n IH]; [reflexivity | exact IH]. Qed.

Lemma free_event_id_has_no_row (event_id : string) (d : DB) :
  event_id_free event_id d = true ->
  filter (fun x => String.eqb (WebhookEvent.event_id x) event_id) (webhook_events d)
  = [].
Proof.
  unfold event_id_free. intros H. apply negb_true_iff in H.
  induction (webhook_events d) as [|a l IH]; [reflexivity|].
  cbn in *. apply orb_false_iff in H. destruct H as [Ha Hl].
  rewrite Ha. apply IH. exact Hl.
Qed.

(** C1, as the claim states it, fails: the second delivery of a payload
    is not acknowledged.  The handler looks nothing up; it inserts again,
    the unique [event_id] refuses the row, and the answer is HTTP 500: two
    deliveries, one acknowledgement. *)
Lemma second_delivery_is_not_acknowledged :
  let sys := Endpoints.mkSys
               (Scenario.store [] [Scenario.payment PaymentStatus.AUTHORIZED] [])
               [] in
  let answers :=
    snd (Endpoints.deliver Scenario.env (Scenario.signed Scenario.captured_body)
           2 sys) in
  map Endpoints.is_ack answers = [true; false]
  /\ nth_error answers 1
     = Some (inl (HTTPException 500 "Failed to process webhook"))
  /\ List.length (filter Endpoints.is_ack answers) = 1%nat.
Proof. intros sys answers. repeat split. Qed.

(** C1, amended.  The handler performs no lookup of an existing event.
    Of [N] deliveries of a payload whose derived identifier is not yet
    stored, the first stores the WebhookEvent (unprocessed), queues its
    apply and is acknowledged; each later one fails on the unique
    [event_id] column and is answered with HTTP 500, storing and queuing
    nothing.  So the [N] deliveries leave one stored event for the
    identifier and one queued apply, hence at most one state transition,
    and produce exactly one acknowledgement. *)
Theorem redelivery_stores_once_and_acknowledges_once
  (env : Env) (request : Endpoints.Request) (payload : json)
  (event_id event_type : string) (n : nat) (sys : Endpoints.Sys)
  (Hsignature :
     Endpoints.validate_webhook_signature env (Endpoints.body request)
       (match Endpoints.x_razorpay_signature request with
        | Some s => s | None => "" end)
       (razorpay_webhook_secret env) = true)
  (Hparse : json_loads env (Endpoints.body request) = Some payload)
  (Hfields : Endpoints.all_in payload ["event"; "account_id"; "entity"] = inr true)
  (Hid : Endpoints.derive_event_id env payload = inr (JStr event_id))
  (Htype : get payload "event" = inr (JStr event_type))
  (Hfree : event_id_free event_id (Endpoints.db sys) = true) :
  let row := Endpoints.stored_event request event_id event_type sys in
  let refused := @inl exn Endpoints.response
                   (HTTPException 500 "Failed to process webhook") in
  exists r sys' answers,
    Endpoints.deliver env request (S n) sys = (sys', answers)
    /\ answers = inr r :: repeat refused n
    /\ Endpoints.success r = true
    /\ List.length (filter Endpoints.is_ack answers) = 1%nat
    /\ Endpoints.db sys' = Endpoints.with_event (Endpoints.db sys) row
    /\ filter (fun x => String.eqb (WebhookEvent.event_id x) event_id)
              (webhook_events (Endpoints.db sys')) = [row]
    /\ Endpoints.queue sys'
       = (Endpoints.queue sys
          ++ [Endpoints.ProcessWebhookEvent (WebhookEvent.id row)])%list.
Proof.
  intros row refused.
  destruct (deliveries_store_once env request payload event_id event_type
              Hsignature Hparse Hfields Hid Htype n sys Hfree) as [r [Hrun Hr]].
  exists r. eexists. eexists. split; [exact Hrun|].
  split; [reflexivity|]. split; [exact Hr|]. split.
  { cbn [filter Endpoints.is_ack]. rewrite Hr. cbn [List.length].
    unfold refused. rewrite no_ack_in_refusals. reflexivity. }
  split; [reflexivity|]. split; [|reflexivity].
  cbn [Endpoints.db Endpoints.with_event webhook_events].
  rewrite filter_app, (free_event_id_has_no_row _ _ Hfree). cbn.
  rewrite String.eqb_refl. reflexivity.
Qed.

Lemma redelivery_stores_once_and_acknowledges_once_witness :
  let sys := Endpoints.mkSys
               (Scenario.store [] [Scenario.payment PaymentStatus.AUTHORIZED] [])
               [] in
  let request := Scenario.signed Scenario.captured_body in
  let row := Endpoints.stored_event request "pay_1" "payment.captured" sys in
  event_id_free "pay_1" (Endpoints.db sys) = true
  /\ exists r sys' answers,
       Endpoints.deliver Scenario.env request 3 sys = (sys', answers)
       /\ answers
          = inr r :: repeat (inl (HTTPException 500 "Failed to process webhook")) 2
       /\ Endpoints.success r = true
       /\ List.length (filter Endpoints.is_ack answers) = 1%nat
       /\ Endpoints.db sys' = Endpoints.with_event (Endpoints.db sys) row
       /\ filter (fun x => String.eqb (WebhookEvent.event_id x) "pay_1")
                 (webhook_events (Endpoints.db sys')) = [row]
       /\ Endpoints.queue sys'
          = (Endpoints.queue sys
             ++ [Endpoints.ProcessWebhookEvent (WebhookEvent.id row)])%list.
Proof.
  intros sys request row. split; [reflexivity|].
  apply (redelivery_stores_once_and_acknowledges_once Scenario.env request
           Scenario.captured_payload "pay_1" "payment.captured" 2 sys
           eq_refl eq_refl eq_refl eq_refl eq_refl eq_refl).
Defined.

(** ** A captured payment, delivered twice *)

Lemma event_id_is_entity_id (env : Env) (payload : json)
  (entity : list (string * json)) (k : string) :
  get_or payload "entity" (JObj []) = inr (JObj entity) ->
  assoc "id" entity = Some (JStr k) ->
  Endpoints.derive_event_id env payload = inr (JStr k).
Proof.
  intros Hentity Hid. unfold Endpoints.derive_event_id. rewrite Hentity.
  destruct payload; try discriminate Hentity.
  cbn [get_or]. rewrite Hid. reflexivity.
Qed.

Lemma find_after_replacing {A : Type} (key : A -> nat) (f : A -> bool)
  (l : list A) (p p' : A) :
  find f l = Some p ->
  key p' = key p ->
  f p' = true ->
  find f (map (fun x => if Nat.eqb (key x) (key p') then p' else x) l) = Some p'.
Proof.
  intros Hfind Hkey Hf. induction l as [|a l IH]; [discriminate|].
  cbn in *. destruct (Nat.eqb (key a) (key p')) eqn:E.
  - rewrite Hf. reflexivity.
  - destruct (f a) eqn:Fa.
    + inversion Hfind; subst a. rewrite Hkey, Nat.eqb_refl in E. discriminate.
    + apply IH. exact Hfind.
Qed.

Lemma drain_single (env : Env) (d : DB) (c : Endpoints.call) :
  Endpoints.drain env (Endpoints.mkSys d [c])
  = Endpoints.mkSys (fst (fst (Endpoints.execute env c d))) [].
Proof. reflexivity. Qed.

(** C8, as the claim states it, fails twice over.  With fee 10 and tax 2
    in the entity, a captured payment ends with a fee of 0.10 and a tax
    of 0.02, the amounts being divided by 100 on the way in, not 10.00
    and 2.00.  And in the scenario as the specification has it, where the
    [payment.authorized] webhook of the same payment comes first, the two
    deliveries of [payment.captured] share its event id: both are
    answered 500 and the payment stays [AUTHORIZED] with no fee. *)
Lemma captured_fee_is_not_recorded_as_ten :
  (let p := Scenario.payment PaymentStatus.AUTHORIZED in
   let sys := Endpoints.mkSys (Scenario.store [] [p] []) [] in
   let final :=
     Endpoints.drain Scenario.env
       (fst (Endpoints.deliver Scenario.env
               (Scenario.signed Scenario.captured_body) 2 sys)) in
   exists p' fee tax,
     payments (Endpoints.db final) = [p']
     /\ Payment.status p' = PaymentStatus.CAPTURED
     /\ Payment.fee p' = Some fee /\ Payment.tax p' = Some tax
     /\ (fee == 1 # 10)%Q /\ (tax == 1 # 50)%Q
     /\ ~ (fee == 10)%Q /\ ~ (tax == 2)%Q)
  /\ (let p := Scenario.payment PaymentStatus.CREATED in
      let sys := Endpoints.mkSys (Scenario.store [] [p] []) [] in
      let authorized :=
        Endpoints.handle_razorpay_webhook Cases.env
          (Scenario.signed Cases.authorized_body) sys in
      let captured :=
        Endpoints.deliver Cases.env (Scenario.signed Scenario.captured_body) 2
          (Endpoints.drain Cases.env (fst authorized)) in
      let final := Endpoints.drain Cases.env (fst captured) in
      Endpoints.is_ack (snd authorized) = true
      /\ snd captured
         = [inl (HTTPException 500 "Failed to process webhook");
            inl (HTTPException 500 "Failed to process webhook")]
      /\ payments (Endpoints.db final)
         = [Scenario.payment PaymentStatus.AUTHORIZED]
      /\ Payment.fee (Scenario.payment PaymentStatus.AUTHORIZED) = None
      /\ List.length (webhook_events (Endpoints.db final)) = 1%nat).
Proof.
  split.
  - intros p sys final. eexists. eexists. eexists.
    split; [vm_compute; reflexivity|].
    split; [reflexivity|]. split; [reflexivity|]. split; [reflexivity|].
    repeat split; vm_compute; discriminate.
  - intros p sys authorized captured final.
    split; [reflexivity|]. split; [vm_compute; reflexivity|].
    split; [vm_compute; reflexivity|]. split; reflexivity.
Qed.

(** C8, amended.  What a [payment.captured] event carrying fee [f] and
    tax [t] (in paise) for a stored payment does, delivered twice, depends
    on whether an event is already stored under the payment's gateway id,
    which is the event id of every event about that payment.  If none is,
    the first delivery is acknowledged and the second refused with HTTP
    500; applied by the worker, the event leaves the payment [CAPTURED]
    with fee [f / 100] and tax [t / 100] (for fee 10 and tax 2, 0.10 and
    0.02), and the store ends with one WebhookEvent for the event id,
    marked processed with no error.  If one is, as after the
    [payment.authorized] webhook of the same payment, both deliveries are
    refused with HTTP 500, nothing is stored or queued, and the store,
    the payment with it, stays as it was. *)
Theorem captured_event_delivered_twice
  (env : Env) (request : Endpoints.Request) (payload : json)
  (entity : list (string * json)) (k : string) (p : Payment.t) (f t : Z)
  (d : DB)
  (Hsignature :
     Endpoints.validate_webhook_signature env (Endpoints.body request)
       (match Endpoints.x_razorpay_signature request with
        | Some s => s | None => "" end)
       (razorpay_webhook_secret env) = true)
  (Hparse : json_loads env (Endpoints.body request) = Some payload)
  (Hfields : Endpoints.all_in payload ["event"; "account_id"; "entity"] = inr true)
  (Htype : get payload "event" = inr (JStr "payment.captured"))
  (Hentity : get_or payload "entity" (JObj []) = inr (JObj entity))
  (Hid : assoc "id" entity = Some (JStr k))
  (Hk : String.eqb k "" = false)
  (Hfee : assoc "fee" entity = Some (JInt f))
  (Htax : assoc "tax" entity = Some (JInt t))
  (Hp : find (fun x => opt_str_is (Payment.razorpay_payment_id x) k) (payments d)
        = Some p) :
  let row := Endpoints.stored_event request k "payment.captured"
               (Endpoints.mkSys d []) in
  let p' := Payment.set_tax (Some (inject_Z t / 100)%Q)
              (Payment.set_fee (Some (inject_Z f / 100)%Q)
                 (Payment.set_status PaymentStatus.CAPTURED p)) in
  (event_id_free k d = true ->
   exists r sys',
     Endpoints.deliver env request 2 (Endpoints.mkSys d [])
     = (sys', [inr r; inl (HTTPException 500 "Failed to process webhook")])
     /\ Endpoints.success r = true
     /\ Endpoints.drain env sys'
        = Endpoints.mkSys
            (mkDB (mandates d) (payments (put_payment p' d)) (orders d)
                  (webhook_events d ++ [WebhookEvent.set_processed true None row]))
            []
     /\ Payment.status p' = PaymentStatus.CAPTURED
     /\ find (fun x => opt_str_is (Payment.razorpay_payment_id x) k)
             (payments (put_payment p' d)) = Some p')
  /\ (event_id_free k d = false ->
      exists sys',
        Endpoints.deliver env request 2 (Endpoints.mkSys d [])
        = (sys', [inl (HTTPException 500 "Failed to process webhook");
                  inl (HTTPException 500 "Failed to process webhook")])
        /\ Endpoints.drain env sys' = Endpoints.mkSys d []
        /\ find (fun x => opt_str_is (Payment.razorpay_payment_id x) k)
                (payments (Endpoints.db (Endpoints.drain env sys'))) = Some p).
Proof.
  intros row p'.
  pose proof (event_id_is_entity_id env payload entity k Hentity Hid) as Hderived.
  split.
  - intros Hfree.
    destruct (deliveries_store_once env request payload k "payment.captured"
                Hsignature Hparse Hfields Hderived Htype 1 (Endpoints.mkSys d [])
                Hfree)
      as [r [Hrun Hr]].
    exists r. eexists. split; [exact Hrun|]. split; [exact Hr|].
    fold row. cbn [Endpoints.db Endpoints.queue app].
    set (d1 := Endpoints.with_event d row).
    assert (Hw : find (fun x => Nat.eqb (WebhookEvent.id x) (WebhookEvent.id row))
                      (webhook_events d1) = Some row).
    { apply (find_appended WebhookEvent.id). reflexivity. }
    assert (Happly : Tasks.apply_event env row (open d1)
                     = (mkSession (put_payment p' d1) (put_payment p' d1), inr tt)).
    { apply (apply_captured env row d1 payload entity Hparse Hentity k p Hid Hk Hp).
      - reflexivity.
      - rewrite Hfee. reflexivity.
      - rewrite Htax. reflexivity. }
    split; [|split; [reflexivity|]].
    + rewrite drain_single. cbn [Endpoints.execute].
      rewrite (apply_async_success _ _ d1
                 (put_webhook_event (WebhookEvent.set_processed true None row)
                    (put_payment p' d1))
                 (Tasks.Processed "payment.captured")).
      * cbn [fst]. f_equal. unfold put_webhook_event, d1, Endpoints.with_event.
        cbn [mandates payments orders webhook_events put_payment].
        f_equal.
        apply (replace_appended WebhookEvent.id); reflexivity.
      * apply (process_webhook_event_outcome env _ _ d1 row _ _ Hw eq_refl Happly).
    + unfold put_payment. cbn [payments].
      apply (find_after_replacing Payment.id _ _ p p' Hp); [reflexivity|].
      apply find_some in Hp. destruct Hp as [_ Hp]. exact Hp.
  - intros Htaken. exists (Endpoints.mkSys d []).
    split; [|split; [reflexivity | exact Hp]].
    apply (repeated_deliveries_refused env request payload k "payment.captured"
             Hsignature Hparse Hfields Hderived Htype 2 (Endpoints.mkSys d [])
             Htaken).
Qed.

Lemma captured_event_delivered_twice_witness :
  let p := Scenario.payment PaymentStatus.AUTHORIZED in
  let d := Scenario.store [] [p] [] in
  let seen := Cases.event 1 "pay_1" Cases.authorized_body "payment.authorized"
                true in
  let d_seen := Scenario.store [] [p] [seen] in
  let request := Scenario.signed Scenario.captured_body in
  let row := Endpoints.stored_event request "pay_1" "payment.captured"
               (Endpoints.mkSys d []) in
  let p' := Payment.set_tax (Some (inject_Z 2 / 100)%Q)
              (Payment.set_fee (Some (inject_Z 10 / 100)%Q)
                 (Payment.set_status PaymentStatus.CAPTURED p)) in
  event_id_free "pay_1" d = true
  /\ (inject_Z 10 / 100 == 1 # 10)%Q /\ (inject_Z 2 / 100 == 1 # 50)%Q
  /\ (exists r sys',
        Endpoints.deliver Scenario.env request 2 (Endpoints.mkSys d [])
        = (sys', [inr r; inl (HTTPException 500 "Failed to process webhook")])
        /\ Endpoints.drain Scenario.env sys'
           = Endpoints.mkSys
               (mkDB [] [p'] [] [WebhookEvent.set_processed true None row]) [])
  /\ event_id_free "pay_1" d_seen = false
  /\ (exists sys',
        Endpoints.deliver Scenario.env request 2 (Endpoints.mkSys d_seen [])
        = (sys', [inl (HTTPException 500 "Failed to process webhook");
                  inl (HTTPException 500 "Failed to process webhook")])
        /\ Endpoints.drain Scenario.env sys' = Endpoints.mkSys d_seen []).
Proof.
  intros p d seen d_seen request row p'.
  destruct (captured_event_delivered_twice Scenario.env request
              Scenario.captured_payload
              [("id", JStr "pay_1"); ("fee", JInt 10); ("tax", JInt 2)]
              "pay_1" p 10 2 d
              eq_refl eq_refl eq_refl eq_refl eq_refl eq_refl eq_refl eq_refl
              eq_refl eq_refl)
    as [Hfree _].
  destruct (Hfree eq_refl) as [r [sys' [Hrun [_ [Hdrain _]]]]].
  destruct (captured_event_delivered_twice Scenario.env request
              Scenario.captured_payload
              [("id", JStr "pay_1"); ("fee", JInt 10); ("tax", JInt 2)]
              "pay_1" p 10 2 d_seen
              eq_refl eq_refl eq_refl eq_refl eq_refl eq_refl eq_refl eq_refl
              eq_refl eq_refl)
    as [_ Htaken].
  destruct (Htaken eq_refl) as [sys2 [Hrun2 [Hdrain2 _]]].
  split; [reflexivity|]. split; [reflexivity|]. split; [reflexivity|].
  split; [exists r, sys'; split; [exact Hrun | exact Hdrain]|].
  split; [reflexivity|].
  exists sys2. split; [exact Hrun2 | exact Hdrain2].
Defined.


(* ===================================================================== *)
(** * Further properties *)
(* ===================================================================== *)

(** ** What the webhook handler lets through *)

Lemma contains_error_is_generic (x : json) (k : string) (e : exn) :
  contains x k = inl e -> is_HTTPException e = false.
Proof. destruct x; cbn; intros H; inversion H; reflexivity. Qed.

Lemma all_in_error_is_generic (x : json) (fs : list string) (e : exn) :
  Endpoints.all_in x fs = inl e -> is_HTTPException e = false.
Proof.
  induction fs as [|f fs IH]; cbn; [discriminate|].
  destruct (contains x f) as [e'|[|]] eqn:E.
  - intros H. inversion H; subst. apply (contains_error_is_generic _ _ _ E).
  - exact IH.
  - discriminate.
Qed.

Lemma get_or_error_is_generic (x : json) (k : string) (v : json) (e : exn) :
  get_or x k v = inl e -> is_HTTPException e = false.
Proof. destruct x; cbn; intros H; inversion H; reflexivity. Qed.

Lemma derive_error_is_generic (env : Env) (payload : json) (e : exn) :
  Endpoints.derive_event_id env payload = inl e -> is_HTTPException e = false.
Proof.
  unfold Endpoints.derive_event_id.
  destruct (get_or payload "entity" (JObj [])) as [e1|entity] eqn:E1.
  - intros H. inversion H; subst. apply (get_or_error_is_generic _ _ _ _ E1).
  - destruct (get_or payload "created_at" (JStr "")) as [e2|created] eqn:E2.
    + intros H. inversion H; subst. apply (get_or_error_is_generic _ _ _ _ E2).
    + apply get_or_error_is_generic.
Qed.

Lemma as_str_cases (v : json) :
  (exists s, v = JStr s /\ Endpoints.as_str v = inr s)
  \/ (exists e, Endpoints.as_str v = inl e /\ is_HTTPException e = false).
Proof.
  destruct v; cbn; try (right; eexists; split; reflexivity).
  left. eexists. split; reflexivity.
Qed.

(** Every way [receive_webhook] can end, from a fresh session on [d]. *)
Lemma receive_webhook_cases (env : Env) (request : Endpoints.Request) (d : DB)
  (s' : Session) (r : exn + (WebhookEvent.t * string * string)) :
  Endpoints.receive_webhook env request (open d) = (s', r) ->
  match r with
  | inl e =>
      close s' = d
      /\ (e = HTTPException 401 "Invalid webhook signature"
          \/ e = HTTPException 400 "Invalid JSON payload"
          \/ e = HTTPException 400 "Missing required webhook fields"
          \/ is_HTTPException e = false)
  | inr (row, event_id, event_type) =>
      Endpoints.validate_webhook_signature env (Endpoints.body request)
        (match Endpoints.x_razorpay_signature request with
         | Some s => s | None => "" end)
        (razorpay_webhook_secret env) = true
      /\ (exists payload,
             json_loads env (Endpoints.body request) = Some payload
             /\ Endpoints.all_in payload ["event"; "account_id"; "entity"] = inr true
             /\ Endpoints.derive_event_id env payload = inr (JStr event_id)
             /\ get payload "event" = inr (JStr event_type))
      /\ event_id_free event_id d = true
      /\ row = Endpoints.stored_event request event_id event_type
                 (Endpoints.mkSys d [])
      /\ s' = mkSession (Endpoints.with_event d row) (Endpoints.with_event d row)
  end.
Proof.
  unfold Endpoints.receive_webhook, bind, lift, ret, raise.
  destruct (Endpoints.validate_webhook_signature _ _ _ _) eqn:Hsig; cbn [negb].
  2:{ intros H. inversion H; subst. split; [reflexivity | auto]. }
  destruct (json_loads env (Endpoints.body request)) as [payload|] eqn:Hparse.
  2:{ intros H. inversion H; subst. split; [reflexivity | auto]. }
  destruct (Endpoints.all_in payload _) as [e|[|]] eqn:Hall; cbn [negb].
  { intros H. inversion H; subst. split; [reflexivity|].
    right; right; right. apply (all_in_error_is_generic _ _ _ Hall). }
  2:{ intros H. inversion H; subst. split; [reflexivity | auto]. }
  destruct (Endpoints.derive_event_id env payload) as [e|idv] eqn:Hid.
  { intros H. inversion H; subst. split; [reflexivity|].
    right; right; right. apply (derive_error_is_generic _ _ _ Hid). }
  destruct (as_str_cases idv) as [[eid [-> Heid]] | [e [He Hgen]]]; rewrite ?Heid, ?He.
  2:{ intros H. inversion H; subst. split; [reflexivity | auto]. }
  destruct (get payload "event") as [e|etv] eqn:Hev.
  { intros H. inversion H; subst. split; [reflexivity|].
    right; right; right. apply (get_or_error_is_generic _ _ _ _ Hev). }
  destruct (as_str_cases etv) as [[ety [-> Hety]] | [e [He Hgen]]]; rewrite ?Hety, ?He.
  2:{ intros H. inversion H; subst. split; [reflexivity | auto]. }
  unfold Services.create_webhook_event, try_except, bind, get_working,
    set_working, commit_checking, rollback, raise, ret.
  cbn [open working committed WebhookEventCreate.event_id
         WebhookEventCreate.event_type WebhookEventCreate.payload].
  destruct (event_id_free eid d) eqn:Hfree.
  - intros H. inversion H; subst.
    split; [first [reflexivity | assumption]|]. split.
    { exists payload. repeat split; first [reflexivity | assumption]. }
    split; [first [reflexivity | assumption]|]. split; reflexivity.
  - intros H. inversion H; subst. split; [reflexivity|].
    right; right; right. reflexivity.
Qed.

(** X1. A delivery whose signature header is missing or is not the digest
    of the body under the webhook secret is answered 401; nothing is
    parsed, stored or queued. *)
Theorem unsigned_delivery_is_refused
  (env : Env) (request : Endpoints.Request) (sys : Endpoints.Sys)
  (Hsignature :
     Endpoints.validate_webhook_signature env (Endpoints.body request)
       (match Endpoints.x_razorpay_signature request with
        | Some s => s | None => "" end)
       (razorpay_webhook_secret env) = false) :
  Endpoints.handle_razorpay_webhook env request sys
  = (sys, inl (HTTPException 401 "Invalid webhook signature")).
Proof.
  unfold Endpoints.handle_razorpay_webhook, Endpoints.receive_webhook.
  rewrite Hsignature. cbn. rewrite sys_eta. reflexivity.
Qed.

Lemma unsigned_delivery_is_refused_witness :
  let sys := Endpoints.mkSys (Scenario.store [] [] []) [] in
  let forged := Endpoints.mkRequest Scenario.captured_body (Some "forged") in
  let bare := Endpoints.mkRequest Scenario.captured_body None in
  Endpoints.handle_razorpay_webhook Scenario.env forged sys
  = (sys, inl (HTTPException 401 "Invalid webhook signature"))
  /\ Endpoints.handle_razorpay_webhook Scenario.env bare sys
     = (sys, inl (HTTPException 401 "Invalid webhook signature")).
Proof.
  intros sys forged bare. split.
  - apply (unsigned_delivery_is_refused Scenario.env forged sys). reflexivity.
  - apply (unsigned_delivery_is_refused Scenario.env bare sys). reflexivity.
Defined.

(** X2. A signed delivery whose body is not JSON, or is an object that
    lacks one of [event], [account_id] and [entity], is answered 400 and
    leaves the store and the queue as they were. *)
Theorem unreadable_delivery_is_refused
  (env : Env) (request : Endpoints.Request) (sys : Endpoints.Sys)
  (Hsignature :
     Endpoints.validate_webhook_signature env (Endpoints.body request)
       (match Endpoints.x_razorpay_signature request with
        | Some s => s | None => "" end)
       (razorpay_webhook_secret env) = true) :
  (json_loads env (Endpoints.body request) = None ->
   Endpoints.handle_razorpay_webhook env request sys
   = (sys, inl (HTTPException 400 "Invalid JSON payload")))
  /\ (forall fields,
         json_loads env (Endpoints.body request) = Some (JObj fields) ->
         assoc "event" fields = None \/ assoc "account_id" fields = None
         \/ assoc "entity" fields = None ->
         Endpoints.handle_razorpay_webhook env request sys
         = (sys, inl (HTTPException 400 "Missing required webhook fields"))).
Proof.
  split.
  - intros Hparse.
    unfold Endpoints.handle_razorpay_webhook, Endpoints.receive_webhook, bind.
    rewrite Hsignature, Hparse. cbn. rewrite sys_eta. reflexivity.
  - intros fields Hparse Hmissing.
    assert (Hall : Endpoints.all_in (JObj fields)
                     ["event"; "account_id"; "entity"] = inr false).
    { cbn. destruct (assoc "event" fields); [|reflexivity].
      destruct (assoc "account_id" fields); [|reflexivity].
      destruct (assoc "entity" fields); [|reflexivity].
      destruct Hmissing as [H | [H | H]]; discriminate H. }
    unfold Endpoints.handle_razorpay_webhook, Endpoints.receive_webhook, bind,
      lift, raise, ret.
    rewrite Hsignature, Hparse. cbn [negb]. rewrite Hall. cbn.
    rewrite sys_eta. reflexivity.
Qed.

Lemma unreadable_delivery_is_refused_witness :
  let sys := Endpoints.mkSys (Scenario.store [] [] []) [] in
  Endpoints.handle_razorpay_webhook Scenario.env (Scenario.signed "not json") sys
  = (sys, inl (HTTPException 400 "Invalid JSON payload")).
Proof.
  intros sys.
  apply (unreadable_delivery_is_refused Scenario.env (Scenario.signed "not json")
           sys eq_refl).
  reflexivity.
Defined.

(** X3. An acknowledged delivery was signed with the webhook secret, and
    it did exactly this: it stored one new, unprocessed WebhookEvent with
    the request body as payload, under an event id and a key no stored
    event had, and queued the apply of that event; mandates, payments and
    orders are untouched. *)
Theorem acknowledged_delivery_stored_one_event
  (env : Env) (request : Endpoints.Request) (sys sys' : Endpoints.Sys)
  (r : Endpoints.response)
  (Hack : Endpoints.handle_razorpay_webhook env request sys = (sys', inr r)) :
  Endpoints.validate_webhook_signature env (Endpoints.body request)
    (match Endpoints.x_razorpay_signature request with
     | Some s => s | None => "" end)
    (razorpay_webhook_secret env) = true
  /\ exists row,
       Endpoints.db sys' = Endpoints.with_event (Endpoints.db sys) row
       /\ Endpoints.queue sys'
          = (Endpoints.queue sys
             ++ [Endpoints.ProcessWebhookEvent (WebhookEvent.id row)])%list
       /\ WebhookEvent.payload row = Endpoints.body request
       /\ WebhookEvent.processed row = false
       /\ WebhookEvent.processing_error row = None
       /\ event_id_free (WebhookEvent.event_id row) (Endpoints.db sys) = true
       /\ ~ In (WebhookEvent.id row)
              (map WebhookEvent.id (webhook_events (Endpoints.db sys)))
       /\ Endpoints.status_code r = 200 /\ Endpoints.success r = true.
Proof.
  unfold Endpoints.handle_razorpay_webhook in Hack.
  destruct (Endpoints.receive_webhook env request (open (Endpoints.db sys)))
    as [s1 [e|[[row eid] ety]]] eqn:E; [discriminate Hack|].
  pose proof (receive_webhook_cases _ _ _ _ _ E) as [Hsig [_ [Hfree [Hrow Hs]]]].
  inversion Hack; subst sys' r. clear Hack.
  split; [exact Hsig|]. exists row. rewrite Hs. cbn [close committed Endpoints.db Endpoints.queue].
  split; [reflexivity|]. split; [reflexivity|].
  rewrite Hrow. cbn [Endpoints.stored_event WebhookEvent.payload
                      WebhookEvent.processed WebhookEvent.processing_error
                      WebhookEvent.event_id WebhookEvent.id Endpoints.db
                      Endpoints.status_code Endpoints.success].
  repeat (split; [first [reflexivity | exact Hfree]|]).
  split; [|split; reflexivity].
  intros Hin. apply in_map_iff in Hin. destruct Hin as [x [Hx Hin]].
  pose proof (key_le_list_max WebhookEvent.id _ _ Hin) as Hle.
  unfold next_id in Hx. lia.
Qed.

Lemma acknowledged_delivery_stored_one_event_witness :
  let sys := Endpoints.mkSys
               (Scenario.store [] [Scenario.payment PaymentStatus.AUTHORIZED] [])
               [] in
  let request := Scenario.signed Scenario.captured_body in
  let out := Endpoints.handle_razorpay_webhook Scenario.env request sys in
  Endpoints.is_ack (snd out) = true
  /\ exists row,
       Endpoints.db (fst out) = Endpoints.with_event (Endpoints.db sys) row
       /\ WebhookEvent.payload row = Scenario.captured_body
       /\ WebhookEvent.processed row = false.
Proof.
  intros sys request out. split; [reflexivity|].
  destruct (acknowledged_delivery_stored_one_event Scenario.env request sys
              (fst out)
              (Endpoints.mkResponse 200 true
                 "Webhook received and queued for processing"
                 [("event_id", JStr "pay_1");
                  ("event_type", JStr "payment.captured");
                  ("task_id", JInt 0); ("webhook_id", JInt 1)])
              eq_refl)
    as [_ [row [Hdb [_ [Hpayload [Hprocessed _]]]]]].
  exists row. split; [exact Hdb|]. split; [exact Hpayload | exact Hprocessed].
Defined.

(** X4. A delivery that is not acknowledged changes nothing, whatever the
    reason: the store and the queue are as before, and the answer is an
    HTTP error with status 400, 401 or 500. *)
Theorem refused_delivery_changes_nothing
  (env : Env) (request : Endpoints.Request) (sys sys' : Endpoints.Sys) (e : exn)
  (Hrefused : Endpoints.handle_razorpay_webhook env request sys = (sys', inl e)) :
  sys' = sys
  /\ exists status message,
       e = HTTPException status message
       /\ (status = 400 \/ status = 401 \/ status = 500).
Proof.
  unfold Endpoints.handle_razorpay_webhook in Hrefused.
  destruct (Endpoints.receive_webhook env request (open (Endpoints.db sys)))
    as [s1 [e1|[[row eid] ety]]] eqn:E; [|discriminate Hrefused].
  pose proof (receive_webhook_cases _ _ _ _ _ E) as [Hclose Hcases].
  inversion Hrefused; subst sys' e. clear Hrefused.
  rewrite Hclose, sys_eta. split; [reflexivity|].
  destruct Hcases as [-> | [-> | [-> | Hgen]]].
  - exists 401, "Invalid webhook signature". split; [reflexivity | auto].
  - exists 400, "Invalid JSON payload". split; [reflexivity | auto].
  - exists 400, "Missing required webhook fields". split; [reflexivity | auto].
  - rewrite Hgen. exists 500, "Failed to process webhook".
    split; [reflexivity | auto].
Qed.

Lemma refused_delivery_changes_nothing_witness :
  let w := Scenario.webhook Scenario.captured_body "payment.captured" in
  let sys := Endpoints.mkSys (Scenario.store [] [] [w]) [] in
  let request := Scenario.signed Scenario.captured_body in
  let out := Endpoints.handle_razorpay_webhook Scenario.env request sys in
  snd out = inl (HTTPException 500 "Failed to process webhook")
  /\ fst out = sys.
Proof.
  intros w sys request out.
  destruct (refused_delivery_changes_nothing Scenario.env request sys (fst out)
              (HTTPException 500 "Failed to process webhook") eq_refl)
    as [Hsys _].
  split; [reflexivity | exact Hsys].
Defined.

(** ** Event ids that collide *)

(** X5. The stored [event_id] is the id of the entity, so two different
    notifications about one entity share it: once the first is stored,
    the second (another body, another event type, say the capture that
    follows an authorization) is answered 500 and is neither stored nor
    queued. *)
Theorem second_event_for_an_entity_is_refused
  (env : Env) (first second : Endpoints.Request) (payload1 payload2 : json)
  (event_id type1 type2 : string) (sys : Endpoints.Sys)
  (Hsig1 :
     Endpoints.validate_webhook_signature env (Endpoints.body first)
       (match Endpoints.x_razorpay_signature first with
        | Some s => s | None => "" end)
       (razorpay_webhook_secret env) = true)
  (Hparse1 : json_loads env (Endpoints.body first) = Some payload1)
  (Hfields1 : Endpoints.all_in payload1 ["event"; "account_id"; "entity"] = inr true)
  (Hid1 : Endpoints.derive_event_id env payload1 = inr (JStr event_id))
  (Htype1 : get payload1 "event" = inr (JStr type1))
  (Hsig2 :
     Endpoints.validate_webhook_signature env (Endpoints.body second)
       (match Endpoints.x_razorpay_signature second with
        | Some s => s | None => "" end)
       (razorpay_webhook_secret env) = true)
  (Hparse2 : json_loads env (Endpoints.body second) = Some payload2)
  (Hfields2 : Endpoints.all_in payload2 ["event"; "account_id"; "entity"] = inr true)
  (Hid2 : Endpoints.derive_event_id env payload2 = inr (JStr event_id))
  (Htype2 : get payload2 "event" = inr (JStr type2))
  (Hfree : event_id_free event_id (Endpoints.db sys) = true) :
  exists r sys1,
    Endpoints.handle_razorpay_webhook env first sys = (sys1, inr r)
    /\ Endpoints.handle_razorpay_webhook env second sys1
       = (sys1, inl (HTTPException 500 "Failed to process webhook"))
    /\ Endpoints.queue sys1
       = (Endpoints.queue sys
          ++ [Endpoints.ProcessWebhookEvent
                (WebhookEvent.id
                   (Endpoints.stored_event first event_id type1 sys))])%list.
Proof.
  destruct (first_delivery_accepted env first payload1 event_id type1
              Hsig1 Hparse1 Hfields1 Hid1 Htype1 sys Hfree) as [r [Hfirst _]].
  exists r. eexists. split; [exact Hfirst|]. split; [|reflexivity].
  apply (repeated_delivery_refused env second payload2 event_id type2
           Hsig2 Hparse2 Hfields2 Hid2 Htype2).
  cbn [Endpoints.db]. apply event_id_taken_after_store. reflexivity.
Qed.

Lemma second_event_for_an_entity_is_refused_witness :
  let sys := Endpoints.mkSys
               (Scenario.store [] [Scenario.payment PaymentStatus.CREATED] [])
               [] in
  let authorized := Scenario.signed Cases.authorized_body in
  let captured := Scenario.signed Scenario.captured_body in
  event_id_free "pay_1" (Endpoints.db sys) = true
  /\ exists r sys1,
       Endpoints.handle_razorpay_webhook Cases.env authorized sys = (sys1, inr r)
       /\ Endpoints.handle_razorpay_webhook Cases.env captured sys1
          = (sys1, inl (HTTPException 500 "Failed to process webhook")).
Proof.
  intros sys authorized captured. split; [reflexivity|].
  destruct (second_event_for_an_entity_is_refused Cases.env authorized captured
              Cases.authorized_payload Scenario.captured_payload "pay_1"
              "payment.authorized" "payment.captured" sys
              eq_refl eq_refl eq_refl eq_refl eq_refl
              eq_refl eq_refl eq_refl eq_refl eq_refl eq_refl)
    as [r [sys1 [H1 [H2 _]]]].
  exists r, sys1. split; [exact H1 | exact H2].
Defined.

Lemma fallback_event_id (env : Env) (fields entity : list (string * json)) :
  assoc "entity" fields = Some (JObj entity) ->
  assoc "id" entity = None ->
  Endpoints.derive_event_id env (JObj fields)
  = inr (JStr ("unknown_"
               ++ format_value env
                    (match assoc "created_at" fields with
                     | Some v => v | None => JStr "" end))).
Proof.
  intros Hentity Hid. unfold Endpoints.derive_event_id. cbn [get_or].
  rewrite Hentity. cbn [get_or]. rewrite Hid. reflexivity.
Qed.

(** X6. An event whose entity carries no id is stored under
    ["unknown_"] followed by its [created_at].  Two such events created
    at the same time therefore collide, however else they differ: the
    first is acknowledged and stored under that id, the second is
    answered 500 and dropped. *)
Theorem events_without_entity_id_collide
  (env : Env) (first second : Endpoints.Request)
  (fields1 fields2 entity1 entity2 : list (string * json))
  (created_at : json) (type1 type2 : string) (sys : Endpoints.Sys)
  (Hsig1 :
     Endpoints.validate_webhook_signature env (Endpoints.body first)
       (match Endpoints.x_razorpay_signature first with
        | Some s => s | None => "" end)
       (razorpay_webhook_secret env) = true)
  (Hparse1 : json_loads env (Endpoints.body first) = Some (JObj fields1))
  (Hentity1 : assoc "entity" fields1 = Some (JObj entity1))
  (Hid1 : assoc "id" entity1 = None)
  (Hcreated1 : assoc "created_at" fields1 = Some created_at)
  (Htype1 : assoc "event" fields1 = Some (JStr type1))
  (Haccount1 : assoc "account_id" fields1 <> None)
  (Hsig2 :
     Endpoints.validate_webhook_signature env (Endpoints.body second)
       (match Endpoints.x_razorpay_signature second with
        | Some s => s | None => "" end)
       (razorpay_webhook_secret env) = true)
  (Hparse2 : json_loads env (Endpoints.body second) = Some (JObj fields2))
  (Hentity2 : assoc "entity" fields2 = Some (JObj entity2))
  (Hid2 : assoc "id" entity2 = None)
  (Hcreated2 : assoc "created_at" fields2 = Some created_at)
  (Htype2 : assoc "event" fields2 = Some (JStr type2))
  (Haccount2 : assoc "account_id" fields2 <> None)
  (Hfree : event_id_free ("unknown_" ++ format_value env created_at)
                         (Endpoints.db sys) = true) :
  let event_id := "unknown_" ++ format_value env created_at in
  exists r sys1,
    Endpoints.handle_razorpay_webhook env first sys = (sys1, inr r)
    /\ Endpoints.db sys1
       = Endpoints.with_event (Endpoints.db sys)
           (Endpoints.stored_event first event_id type1 sys)
    /\ Endpoints.handle_razorpay_webhook env second sys1
       = (sys1, inl (HTTPException 500 "Failed to process webhook")).
Proof.
  intros event_id.
  assert (Hall : forall fields entity ty,
             assoc "entity" fields = Some (JObj entity) ->
             assoc "event" fields = Some (JStr ty) ->
             assoc "account_id" fields <> None ->
             Endpoints.all_in (JObj fields) ["event"; "account_id"; "entity"]
             = inr true).
  { intros fields entity ty He Ht Ha. cbn. rewrite Ht, He.
    destruct (assoc "account_id" fields); [reflexivity | congruence]. }
  assert (Hd1 : Endpoints.derive_event_id env (JObj fields1) = inr (JStr event_id)).
  { rewrite (fallback_event_id env fields1 entity1 Hentity1 Hid1), Hcreated1.
    reflexivity. }
  assert (Hd2 : Endpoints.derive_event_id env (JObj fields2) = inr (JStr event_id)).
  { rewrite (fallback_event_id env fields2 entity2 Hentity2 Hid2), Hcreated2.
    reflexivity. }
  assert (Ht1 : get (JObj fields1) "event" = inr (JStr type1)).
  { unfold get. cbn [get_or]. rewrite Htype1. reflexivity. }
  assert (Ht2 : get (JObj fields2) "event" = inr (JStr type2)).
  { unfold get. cbn [get_or]. rewrite Htype2. reflexivity. }
  destruct (first_delivery_accepted env first (JObj fields1) event_id type1
              Hsig1 Hparse1 (Hall _ _ _ Hentity1 Htype1 Haccount1) Hd1 Ht1
              sys Hfree) as [r [Hfirst _]].
  exists r. eexists. split; [exact Hfirst|]. split; [reflexivity|].
  apply (repeated_delivery_refused env second (JObj fields2) event_id type2
           Hsig2 Hparse2 (Hall _ _ _ Hentity2 Htype2 Haccount2) Hd2 Ht2).
  cbn [Endpoints.db]. apply event_id_taken_after_store. reflexivity.
Qed.

Lemma events_without_entity_id_collide_witness :
  let sys := Endpoints.mkSys (Scenario.store [] [] []) [] in
  let refund := Scenario.signed Cases.refund_body in
  let dispute := Scenario.signed Cases.dispute_body in
  exists r sys1,
    Endpoints.handle_razorpay_webhook Cases.env refund sys = (sys1, inr r)
    /\ map WebhookEvent.event_id (webhook_events (Endpoints.db sys1))
       = ["unknown_1234567892"]
    /\ Endpoints.handle_razorpay_webhook Cases.env dispute sys1
       = (sys1, inl (HTTPException 500 "Failed to process webhook")).
Proof.
  intros sys refund dispute.
  assert (Ha : forall a : option json, a = Some (JStr "acc_1") -> a <> None)
    by (intros a ->; discriminate).
  destruct (events_without_entity_id_collide Cases.env refund dispute
              [("event", JStr "refund.created"); ("account_id", JStr "acc_1");
               ("entity", JObj [("amount", JInt 500)]);
               ("contains", JArr [JStr "refund"]);
               ("created_at", JInt 1234567892)]
              [("event", JStr "dispute.created"); ("account_id", JStr "acc_1");
               ("entity", JObj [("amount", JInt 900)]);
               ("contains", JArr [JStr "dispute"]);
               ("created_at", JInt 1234567892)]
              [("amount", JInt 500)] [("amount", JInt 900)]
              (JInt 1234567892) "refund.created" "dispute.created" sys
              eq_refl eq_refl eq_refl eq_refl eq_refl eq_refl (Ha _ eq_refl)
              eq_refl eq_refl eq_refl eq_refl eq_refl eq_refl (Ha _ eq_refl)
              eq_refl)
    as [r [sys1 [H1 [Hdb H2]]]].
  exists r, sys1. split; [exact H1|]. split; [|exact H2].
  rewrite Hdb. reflexivity.
Defined.

(** ** The webhook task on orders, unknown events and unknown rows *)

Lemma apply_order_paid (env : Env) (w : WebhookEvent.t) (d : DB) (payload : json)
  (entity : list (string * json)) (k : string) (o : Order.t) :
  json_loads env (WebhookEvent.payload w) = Some payload ->
  get_or payload "entity" (JObj []) = inr (JObj entity) ->
  WebhookEvent.event_type w = "order.paid" ->
  assoc "id" entity = Some (JStr k) ->
  String.eqb k "" = false ->
  find (fun x => opt_str_is (Order.razorpay_order_id x) k) (orders d) = Some o ->
  let d' := put_order (Order.set_status (Some "paid") o) d in
  Tasks.apply_event env w (open d) = (mkSession d' d', inr tt).
Proof.
  intros Hparse Hentity Ht Hid Hk Ho d'.
  unfold Tasks.apply_event, Tasks.dispatch, Tasks.process_order_paid, bind, lift,
    ret, get.
  rewrite Hparse, Ht. cbn [String.eqb Ascii.eqb Bool.eqb].
  rewrite Hentity. cbn [get_or]. rewrite Hid. cbn [truthy negb]. rewrite Hk.
  unfold order_by_razorpay_order_id. cbn [open working negb]. rewrite Ho.
  reflexivity.
Qed.

(** X7. An [order.paid] event for a stored order sets that order's
    status to "paid", commits, and marks the event processed; mandates
    and payments are untouched, and the order is still found under its
    gateway id. *)
Theorem order_paid_event_marks_the_order
  (env : Env) (self : Celery.task) (webhook_id : nat) (d : DB)
  (w : WebhookEvent.t) (payload : json) (entity : list (string * json))
  (k : string) (o : Order.t)
  (Hw : find (fun x => Nat.eqb (WebhookEvent.id x) webhook_id) (webhook_events d)
        = Some w)
  (Hunprocessed : WebhookEvent.processed w = false)
  (Htype : WebhookEvent.event_type w = "order.paid")
  (Hparse : json_loads env (WebhookEvent.payload w) = Some payload)
  (Hentity : get_or payload "entity" (JObj []) = inr (JObj entity))
  (Hid : assoc "id" entity = Some (JStr k))
  (Hk : String.eqb k "" = false)
  (Ho : find (fun x => opt_str_is (Order.razorpay_order_id x) k) (orders d)
        = Some o) :
  let o' := Order.set_status (Some "paid") o in
  let d' := put_webhook_event (WebhookEvent.set_processed true None w)
              (put_order o' d) in
  Tasks.process_webhook_event env self webhook_id d
  = (d', inr (Tasks.Processed "order.paid"))
  /\ find (fun x => opt_str_is (Order.razorpay_order_id x) k) (orders d') = Some o'
  /\ Order.status o' = Some "paid"
  /\ mandates d' = mandates d /\ payments d' = payments d.
Proof.
  intros o' d'.
  pose proof (apply_order_paid env w d payload entity k o
                Hparse Hentity Htype Hid Hk Ho) as Happly.
  destruct (process_webhook_event_outcome env self webhook_id d w _ _
              Hw Hunprocessed Happly) as [Hrun _].
  cbn [working] in Hrun. rewrite Htype in Hrun.
  split; [exact Hrun|]. split.
  { unfold d', put_webhook_event, put_order. cbn [orders].
    apply (find_after_replacing Order.id _ _ o o' Ho); [reflexivity|].
    apply find_some in Ho. destruct Ho as [_ Ho]. exact Ho. }
  repeat split.
Qed.

Lemma order_paid_event_marks_the_order_witness :
  let w := Cases.event 1 "order_mock_1" Cases.order_paid_body "order.paid" false in
  let d := mkDB [] [Scenario.payment PaymentStatus.CAPTURED]
                [Cases.order "created"] [w] in
  let d' := mkDB [] [Scenario.payment PaymentStatus.CAPTURED]
                 [Cases.order "paid"]
                 [WebhookEvent.set_processed true None w] in
  Tasks.process_webhook_event Cases.env Scenario.first_attempt 1 d
  = (d', inr (Tasks.Processed "order.paid")).
Proof.
  intros w d d'.
  apply (order_paid_event_marks_the_order Cases.env Scenario.first_attempt 1 d w
           Cases.order_paid_payload [("id", JStr "order_mock_1")] "order_mock_1"
           (Cases.order "created")
           eq_refl eq_refl eq_refl eq_refl eq_refl eq_refl eq_refl eq_refl).
Defined.

Lemma dispatch_unknown_type (event_type : string) (payload : json) :
  event_type <> "payment.authorized" -> event_type <> "payment.captured" ->
  event_type <> "payment.failed" -> event_type <> "order.paid" ->
  Tasks.dispatch event_type payload = ret tt.
Proof.
  intros H1 H2 H3 H4. unfold Tasks.dispatch.
  apply String.eqb_neq in H1, H2, H3, H4. rewrite H1, H2, H3, H4. reflexivity.
Qed.

(** X8. An event of a type the task does not handle is not an error: if
    its payload parses, nothing is mutated, the event is marked processed
    with no error and the task succeeds at its first attempt. *)
Theorem unhandled_event_type_is_consumed
  (env : Env) (webhook_id : nat) (d : DB) (w : WebhookEvent.t) (payload : json)
  (Hw : find (fun x => Nat.eqb (WebhookEvent.id x) webhook_id) (webhook_events d)
        = Some w)
  (Hunprocessed : WebhookEvent.processed w = false)
  (Hparse : json_loads env (WebhookEvent.payload w) = Some payload)
  (Hauthorized : WebhookEvent.event_type w <> "payment.authorized")
  (Hcaptured : WebhookEvent.event_type w <> "payment.captured")
  (Hfailed : WebhookEvent.event_type w <> "payment.failed")
  (Hpaid : WebhookEvent.event_type w <> "order.paid") :
  let d' := put_webhook_event (WebhookEvent.set_processed true None w) d in
  Endpoints.execute env (Endpoints.ProcessWebhookEvent webhook_id) d
  = (d', Celery.SUCCESS (Tasks.Processed (WebhookEvent.event_type w)), [])
  /\ mandates d' = mandates d /\ payments d' = payments d
  /\ orders d' = orders d.
Proof.
  intros d'.
  assert (Happly : Tasks.apply_event env w (open d) = (open d, inr tt)).
  { unfold Tasks.apply_event, bind, ret. rewrite Hparse.
    rewrite (dispatch_unknown_type _ payload Hauthorized Hcaptured Hfailed Hpaid).
    reflexivity. }
  split; [|repeat split].
  cbn [Endpoints.execute]. apply apply_async_success.
  apply (process_webhook_event_outcome env _ webhook_id d w _ _
           Hw Hunprocessed Happly).
Qed.

Lemma unhandled_event_type_is_consumed_witness :
  let w := Cases.event 1 "unknown_1234567892" Cases.refund_body "refund.created"
             false in
  let d := mkDB [] [Scenario.payment PaymentStatus.CAPTURED] [] [w] in
  Endpoints.execute Cases.env (Endpoints.ProcessWebhookEvent 1) d
  = (mkDB [] [Scenario.payment PaymentStatus.CAPTURED] []
          [WebhookEvent.set_processed true None w],
     Celery.SUCCESS (Tasks.Processed "refund.created"), []).
Proof.
  intros w d.
  assert (Hne : forall s, s <> "refund.created" -> "refund.created" <> s)
    by (intros s H E; apply H; symmetry; exact E).
  apply (unhandled_event_type_is_consumed Cases.env 1 d w Cases.refund_payload
           eq_refl eq_refl eq_refl).
  all: apply Hne; discriminate.
Defined.

Lemma webhook_task_without_row (env : Env) (self : Celery.task)
  (webhook_id : nat) (d : DB) :
  find (fun x => Nat.eqb (WebhookEvent.id x) webhook_id) (webhook_events d) = None ->
  Tasks.process_webhook_event env self webhook_id d
  = (d, inl (Celery.retry self (ValueError "Webhook event not found"))).
Proof.
  intros Hnone.
  unfold Tasks.process_webhook_event, Tasks.in_session, try_except, bind,
    webhook_by_id, Services.mark_webhook_processed, bind, webhook_by_id.
  cbn [open working committed]. rewrite Hnone. cbn. rewrite Hnone. reflexivity.
Qed.

(** X9. The webhook task called for a key that no WebhookEvent has fails
    with "Webhook event not found" at each of its three attempts, records
    nothing (there is no row to record on) and leaves the store
    unchanged. *)
Theorem webhook_task_for_unknown_key_fails
  (env : Env) (webhook_id : nat) (d : DB)
  (Hnone : find (fun x => Nat.eqb (WebhookEvent.id x) webhook_id)
                (webhook_events d) = None) :
  let e := ValueError "Webhook event not found" in
  Endpoints.execute env (Endpoints.ProcessWebhookEvent webhook_id) d
  = (d, Celery.FAILURE e,
     [Celery.mkAttempt e (Some 60); Celery.mkAttempt e (Some 60);
      Celery.mkAttempt e None]).
Proof.
  intros e. cbn [Endpoints.execute].
  apply always_failing_call_runs_three_times; [reflexivity|].
  intros self. apply webhook_task_without_row. exact Hnone.
Qed.

Lemma webhook_task_for_unknown_key_fails_witness :
  let d := Scenario.store [] [] [] in
  exists log,
    Endpoints.execute Scenario.env (Endpoints.ProcessWebhookEvent 5) d
    = (d, Celery.FAILURE (ValueError "Webhook event not found"), log)
    /\ List.length log = 3%nat.
Proof.
  intros d. eexists. split.
  - apply (webhook_task_for_unknown_key_fails Scenario.env 5 d). reflexivity.
  - reflexivity.
Defined.

(** ** Tasks that never write *)

Lemma create_order_dict_in_task (env : Env) (fields : list (string * json)) (d : DB) :
  Services.create_order env (Dict fields) (open d)
  = (open d, inl (AttributeError "'dict' object has no attribute 'amount'")).
Proof. reflexivity. Qed.

Lemma authorization_task_outcome (env : Env) (self : Celery.task)
  (customer_id mandate_id : nat) (order_data : list (string * json)) (d : DB) :
  Tasks.process_emandate_authorization env self customer_id mandate_id order_data d
  = (d, inl (Celery.retry self
               (match find (fun x => Nat.eqb (Mandate.id x) mandate_id)
                           (mandates d) with
                | None => ValueError "Mandate not found"
                | Some _ =>
                    AttributeError "'dict' object has no attribute 'amount'"
                end))).
Proof.
  unfold Tasks.process_emandate_authorization, Tasks.in_session, try_except, bind,
    Services.get_mandate, mandate_by_id.
  cbn [open working committed].
  destruct (find _ (mandates d)); reflexivity.
Qed.

(** X10. The authorization task never writes and never succeeds.  It
    hands [create_order] the [dict] it was called with, and [create_order]
    reads attributes: for an existing mandate every attempt ends in
    [AttributeError], for a missing one in "Mandate not found".  After
    three attempts the call has failed and the store is as it was: no
    Order row, the mandate not authorized. *)
Theorem authorization_task_never_writes
  (env : Env) (customer_id mandate_id : nat) (order_data : list (string * json))
  (d : DB) :
  let e := match find (fun x => Nat.eqb (Mandate.id x) mandate_id) (mandates d) with
           | None => ValueError "Mandate not found"
           | Some _ => AttributeError "'dict' object has no attribute 'amount'"
           end in
  Endpoints.execute env
    (Endpoints.ProcessEmandateAuthorization customer_id mandate_id order_data) d
  = (d, Celery.FAILURE e,
     [Celery.mkAttempt e (Some 60); Celery.mkAttempt e (Some 60);
      Celery.mkAttempt e None]).
Proof.
  intros e. cbn [Endpoints.execute].
  apply always_failing_call_runs_three_times.
  - unfold e. destruct (find _ (mandates d)); reflexivity.
  - intros self. apply authorization_task_outcome.
Qed.

Lemma recurring_task_outcome (env : Env) (self : Celery.task) (mandate_id : nat)
  (payment_data : list (string * json)) (d : DB) :
  Tasks.process_recurring_payment env self mandate_id payment_data d
  = (d, inl (Celery.retry self
               (match find (fun x => Nat.eqb (Mandate.id x) mandate_id)
                           (mandates d) with
                | None => ValueError "Mandate not found"
                | Some m =>
                    if MandateStatus.eqb (Mandate.status m) MandateStatus.CONFIRMED
                    then match assoc "amount" payment_data with
                         | None => KeyError "'amount'"
                         | Some _ =>
                             AttributeError
                               "'dict' object has no attribute 'amount'"
                         end
                    else ValueError "Mandate is not confirmed"
                end))).
Proof.
  unfold Tasks.process_recurring_payment, Tasks.in_session, try_except, bind,
    Services.get_mandate, mandate_by_id, lift, Tasks.getitem.
  cbn [open working committed].
  destruct (find _ (mandates d)) as [m|]; [|reflexivity].
  destruct (MandateStatus.eqb (Mandate.status m) MandateStatus.CONFIRMED);
    [|reflexivity].
  cbn [negb]. destruct (assoc "amount" payment_data); reflexivity.
Qed.

(** X11. The recurring-payment task never produces a payment.  Whatever
    the mandate and the payment data, each of its three attempts raises
    (mandate not found, mandate not confirmed, no amount, or, for a
    confirmed mandate, the [AttributeError] of [create_order] on a
    [dict]), and the store is left exactly as it was. *)
Theorem recurring_task_never_writes
  (env : Env) (mandate_id : nat) (payment_data : list (string * json)) (d : DB) :
  exists e,
    Endpoints.execute env
      (Endpoints.ProcessRecurringPayment mandate_id payment_data) d
    = (d, Celery.FAILURE e,
       [Celery.mkAttempt e (Some 60); Celery.mkAttempt e (Some 60);
        Celery.mkAttempt e None])
    /\ (forall m,
           find (fun x => Nat.eqb (Mandate.id x) mandate_id) (mandates d) = Some m ->
           Mandate.status m = MandateStatus.CONFIRMED ->
           assoc "amount" payment_data <> None ->
           e = AttributeError "'dict' object has no attribute 'amount'").
Proof.
  eexists. split.
  - cbn [Endpoints.execute]. apply always_failing_call_runs_three_times.
    2:{ intros self. apply recurring_task_outcome. }
    destruct (find _ (mandates d)) as [m|]; [|reflexivity].
    destruct (MandateStatus.eqb _ _); [|reflexivity].
    destruct (assoc "amount" payment_data); reflexivity.
  - intros m Hm Hst Hamount. cbn beta. rewrite Hm, Hst. cbn.
    destruct (assoc "amount" payment_data); [reflexivity | congruence].
Qed.

Lemma recurring_task_never_writes_witness :
  let m := Scenario.mandate MandateStatus.CONFIRMED (Some "mandate_mock_1") in
  let d := Scenario.store [m] [] [] in
  let e := AttributeError "'dict' object has no attribute 'amount'" in
  Endpoints.execute Scenario.env
    (Endpoints.ProcessRecurringPayment 1 [("amount", JReal 500)]) d
  = (d, Celery.FAILURE e,
     [Celery.mkAttempt e (Some 60); Celery.mkAttempt e (Some 60);
      Celery.mkAttempt e None])
  /\ payments d = [] /\ orders d = [].
Proof.
  intros m d e.
  destruct (recurring_task_never_writes Scenario.env 1 [("amount", JReal 500)] d)
    as [e' [Hrun He]].
  assert (Hsome : assoc "amount" [("amount", JReal 500)] <> None)
    by discriminate.
  rewrite (He m eq_refl eq_refl Hsome) in Hrun.
  split; [exact Hrun|]. split; reflexivity.
Defined.

(** ** Validation *)

Lemma put_mandate_twice (r1 r2 : Mandate.t) (d : DB) :
  Mandate.id r1 = Mandate.id r2 ->
  put_mandate r2 (put_mandate r1 d) = put_mandate r2 d.
Proof.
  intros Hk. unfold put_mandate. cbn. f_equal.
  apply (replace_twice Mandate.id). exact Hk.
Qed.

Lemma validate_missing (self : Celery.task) (mandate_id : nat) (d : DB) :
  find (fun x => Nat.eqb (Mandate.id x) mandate_id) (mandates d) = None ->
  Tasks.validate_mandate_status self mandate_id d
  = (d, inl (ValueError "Mandate not found")).
Proof.
  intros Hnone.
  unfold Tasks.validate_mandate_status, Tasks.in_session, try_except, bind,
    Services.get_mandate, mandate_by_id.
  cbn [open working committed]. rewrite Hnone. reflexivity.
Qed.

(** X12. Validation is idempotent: run again on the store it produced,
    by any worker, it returns the same result and changes nothing
    further. *)
Theorem validate_mandate_status_is_idempotent
  (self again : Celery.task) (mandate_id : nat) (d : DB) :
  let once := Tasks.validate_mandate_status self mandate_id d in
  Tasks.validate_mandate_status again mandate_id (fst once) = once.
Proof.
  intros once. unfold once.
  destruct (find (fun x => Nat.eqb (Mandate.id x) mandate_id) (mandates d))
    as [m|] eqn:Hm.
  - destruct (Tasks.str_truthy (Mandate.razorpay_mandate_id m)) eqn:Hgw.
    + rewrite (validate_confirms_any_status self mandate_id d m Hm Hgw).
      cbn [fst].
      set (m' := Mandate.set_status MandateStatus.CONFIRMED m).
      assert (Hm' : find (fun x => Nat.eqb (Mandate.id x) mandate_id)
                         (mandates (put_mandate m' d)) = Some m').
      { unfold put_mandate. cbn [mandates].
        apply (find_replaced Mandate.id _ _ m m' Hm).
        apply (find_by_key_some Mandate.id _ _ _ Hm). }
      rewrite (validate_confirms_any_status again mandate_id _ m' Hm' Hgw).
      rewrite put_mandate_twice by reflexivity. reflexivity.
    + rewrite (validate_without_gateway_id self mandate_id d m Hm Hgw).
      apply (validate_without_gateway_id again mandate_id d m Hm Hgw).
  - rewrite (validate_missing self mandate_id d Hm).
    apply (validate_missing again mandate_id d Hm).
Qed.

(** X13. Validation of a mandate that does not exist is attempted once:
    the task was declared without retry options and its handler
    re-raises, so the call fails at once with "Mandate not found" (where
    the authorization and payment tasks would be retried), and the store
    is unchanged. *)
Theorem validation_of_missing_mandate_fails_at_once
  (env : Env) (mandate_id : nat) (d : DB)
  (Hnone : find (fun x => Nat.eqb (Mandate.id x) mandate_id) (mandates d) = None) :
  Endpoints.execute env (Endpoints.ValidateMandateStatus mandate_id) d
  = (d, Celery.FAILURE (ValueError "Mandate not found"),
     [Celery.mkAttempt (ValueError "Mandate not found") None]).
Proof.
  cbn [Endpoints.execute]. unfold Celery.apply_async. cbn [Celery.run].
  rewrite (validate_missing _ mandate_id d Hnone). reflexivity.
Qed.

Lemma validation_of_missing_mandate_fails_at_once_witness :
  let d := Scenario.store [Scenario.mandate MandateStatus.CREATED None] [] [] in
  Endpoints.execute Scenario.env (Endpoints.ValidateMandateStatus 2) d
  = (d, Celery.FAILURE (ValueError "Mandate not found"),
     [Celery.mkAttempt (ValueError "Mandate not found") None]).
Proof.
  intros d.
  apply (validation_of_missing_mandate_fails_at_once Scenario.env 2 d).
  reflexivity.
Defined.

(** ** No task adds or removes a row *)

Lemma replace_keeps_keys {A : Type} (key : A -> nat) (r : A) (l : list A) :
  map key (map (fun x => if Nat.eqb (key x) (key r) then r else x) l) = map key l.
Proof.
  rewrite map_map. apply map_ext. intros a.
  destruct (Nat.eqb (key a) (key r)) eqn:E; [|reflexivity].
  apply Nat.eqb_eq in E. symmetry. exact E.
Qed.

Lemma keys_put_payment (r : Payment.t) (d : DB) :
  Keys.keys (put_payment r d) = Keys.keys d.
Proof.
  unfold Keys.keys, put_payment. cbn. rewrite (replace_keeps_keys Payment.id).
  reflexivity.
Qed.

Lemma keys_put_order (r : Order.t) (d : DB) :
  Keys.keys (put_order r d) = Keys.keys d.
Proof.
  unfold Keys.keys, put_order. cbn. rewrite (replace_keeps_keys Order.id).
  reflexivity.
Qed.

Lemma keys_put_webhook_event (r : WebhookEvent.t) (d : DB) :
  Keys.keys (put_webhook_event r d) = Keys.keys d.
Proof.
  unfold Keys.keys, put_webhook_event. cbn.
  rewrite (replace_keeps_keys WebhookEvent.id). reflexivity.
Qed.

Lemma keys_put_mandate (r : Mandate.t) (d : DB) :
  Keys.keys (put_mandate r d) = Keys.keys d.
Proof.
  unfold Keys.keys, put_mandate. cbn. rewrite (replace_keeps_keys Mandate.id).
  reflexivity.
Qed.

Section KeepsRows.

#[local] Open Scope orm_scope.

Lemma rows_ret {A} (a : A) : Keys.keeps_rows (ret a).
Proof. intros ms ks s s' r H E. inversion E; subst. exact H. Qed.

Lemma rows_raise {A} (e : exn) : Keys.keeps_rows (@raise A e).
Proof. intros ms ks s s' r H E. inversion E; subst. exact H. Qed.

Lemma rows_lift {A} (x : exn + A) : Keys.keeps_rows (lift x).
Proof. intros ms ks s s' r H E. inversion E; subst. exact H. Qed.

Lemma rows_bind {A B} (c : M A) (k : A -> M B) :
  Keys.keeps_rows c -> (forall a, Keys.keeps_rows (k a)) ->
  Keys.keeps_rows (bind c k).
Proof.
  intros Hc Hk ms ks s s' r H E. unfold bind in E.
  destruct (c s) as [s1 [e|a]] eqn:E1.
  - inversion E; subst. apply (Hc _ _ _ _ _ H E1).
  - apply (Hk a _ _ _ _ _ (Hc _ _ _ _ _ H E1) E).
Qed.

Lemma rows_try_except {A} (c : M A) (h : exn -> M A) :
  Keys.keeps_rows c -> (forall e, Keys.keeps_rows (h e)) ->
  Keys.keeps_rows (try_except c h).
Proof.
  intros Hc Hh ms ks s s' r H E. unfold try_except in E.
  destruct (c s) as [s1 [e|a]] eqn:E1.
  - apply (Hh e _ _ _ _ _ (Hc _ _ _ _ _ H E1) E).
  - inversion E; subst. apply (Hc _ _ _ _ _ H E1).
Qed.

Lemma rows_commit : Keys.keeps_rows commit.
Proof.
  intros ms ks s s' r [_ [Hm [_ Hk]]] E. inversion E; subst.
  unfold Keys.settled. cbn [committed working]. repeat split; assumption.
Qed.

Lemma rows_assign (f : DB -> DB) :
  (forall d, mandates (f d) = mandates d) ->
  (forall d, Keys.keys (f d) = Keys.keys d) ->
  Keys.keeps_rows (assign f).
Proof.
  intros Hfm Hfk ms ks s s' r [Hcm [Hm [Hck Hk]]] E. inversion E; subst.
  unfold Keys.settled. cbn [committed working]. rewrite Hfm, Hfk.
  repeat split; assumption.
Qed.

Lemma rows_put_payment (p : Payment.t) : Keys.keeps_rows (assign (put_payment p)).
Proof. apply rows_assign; [reflexivity | apply keys_put_payment]. Qed.

Lemma rows_put_order (o : Order.t) : Keys.keeps_rows (assign (put_order o)).
Proof. apply rows_assign; [reflexivity | apply keys_put_order]. Qed.

Lemma rows_put_webhook_event (w : WebhookEvent.t) :
  Keys.keeps_rows (assign (put_webhook_event w)).
Proof. apply rows_assign; [reflexivity | apply keys_put_webhook_event]. Qed.

Lemma rows_payment_query (v : json) :
  Keys.keeps_rows (payment_by_razorpay_payment_id v).
Proof. intros ms ks s s' r H E. inversion E; subst. exact H. Qed.

Lemma rows_order_query (v : json) :
  Keys.keeps_rows (order_by_razorpay_order_id v).
Proof. intros ms ks s s' r H E. inversion E; subst. exact H. Qed.

Lemma rows_webhook_query (k : nat) : Keys.keeps_rows (webhook_by_id k).
Proof. intros ms ks s s' r H E. inversion E; subst. exact H. Qed.

End KeepsRows.

Create HintDb rows.

#[local] Hint Resolve rows_ret rows_raise rows_lift rows_commit rows_put_payment
  rows_put_order rows_put_webhook_event rows_payment_query rows_order_query
  rows_webhook_query : rows.

Ltac rows :=
  repeat first
    [ apply rows_bind; [| intros ? ]
    | apply rows_try_except; [| intros ? ]
    | solve [ auto with rows ]
    | match goal with
      | |- Keys.keeps_rows (if ?b then _ else _) => destruct b
      | |- Keys.keeps_rows (match ?x with _ => _ end) => destruct x
      end ].

Lemma webhook_task_body_keeps_rows (env : Env) (self : Celery.task) (webhook_id : nat) :
  Keys.keeps_rows
    (try_except
       (bind (webhook_by_id webhook_id)
          (fun webhook =>
             match webhook with
             | None => raise (ValueError "Webhook event not found")
             | Some webhook =>
                 if WebhookEvent.processed webhook then ret Tasks.AlreadyProcessed
                 else
                   bind (Tasks.apply_event env webhook)
                     (fun _ =>
                        bind (Services.mark_webhook_processed webhook_id None)
                          (fun _ =>
                             ret (Tasks.Processed
                                    (WebhookEvent.event_type webhook))))
             end))
       (fun e =>
          bind (Services.mark_webhook_processed webhook_id (Some (str e)))
            (fun _ => raise (Celery.retry self e)))).
Proof.
  unfold Tasks.apply_event, Tasks.dispatch, Tasks.process_payment_authorized,
    Tasks.process_payment_captured, Tasks.process_payment_failed,
    Tasks.process_order_paid, Services.mark_webhook_processed.
  rows.
Qed.

Lemma webhook_task_keeps_rows (env : Env) (self : Celery.task) (webhook_id : nat)
  (d : DB) :
  let d' := fst (Tasks.process_webhook_event env self webhook_id d) in
  Keys.keys d' = Keys.keys d /\ mandates d' = mandates d.
Proof.
  unfold Tasks.process_webhook_event, Tasks.in_session.
  match goal with |- context [?c (open d)] => destruct (c (open d)) as [s' r] eqn:E end.
  cbn [fst close].
  assert (Hs : Keys.settled (mandates d) (Keys.keys d) (open d))
    by (repeat split).
  destruct (webhook_task_body_keeps_rows env self webhook_id _ _ _ _ _ Hs E)
    as [Hm [_ [Hk _]]].
  split; assumption.
Qed.

Lemma run_keeps {R : Type} (I : DB -> Prop)
  (body : Celery.task -> DB -> DB * (exn + R)) (kw : option Celery.retry_kwargs) :
  (forall self d, I d -> I (fst (body self d))) ->
  forall fuel retries d, I d -> I (fst (fst (Celery.run body kw fuel retries d))).
Proof.
  intros Hbody fuel. induction fuel as [|fuel IH]; intros retries d Hd.
  - cbn [Celery.run].
    pose proof (Hbody (Celery.mkTask kw retries) d Hd) as H.
    destruct (body (Celery.mkTask kw retries) d) as [d1 [e|r]]; cbn [fst] in *.
    + destruct e; exact H.
    + exact H.
  - cbn [Celery.run].
    pose proof (Hbody (Celery.mkTask kw retries) d Hd) as H.
    destruct (body (Celery.mkTask kw retries) d) as [d1 [e|r]]; cbn [fst] in *;
      [|exact H].
    destruct e; try exact H.
    specialize (IH (S retries) d1 H).
    destruct (Celery.run body kw fuel (S retries) d1) as [[d2 st] log].
    exact IH.
Qed.

Lemma validate_keeps_keys (self : Celery.task) (mandate_id : nat) (d : DB) :
  Keys.keys (fst (Tasks.validate_mandate_status self mandate_id d)) = Keys.keys d.
Proof.
  destruct (find (fun x => Nat.eqb (Mandate.id x) mandate_id) (mandates d))
    as [m|] eqn:Hm.
  - destruct (Tasks.str_truthy (Mandate.razorpay_mandate_id m)) eqn:Hgw.
    + rewrite (validate_confirms_any_status self mandate_id d m Hm Hgw).
      apply keys_put_mandate.
    + rewrite (validate_without_gateway_id self mandate_id d m Hm Hgw).
      reflexivity.
  - rewrite (validate_missing self mandate_id d Hm). reflexivity.
Qed.

(** X14. No task adds or removes a row.  Whatever call the worker takes
    off the queue and however many attempts it needs, the store it leaves
    has the same primary keys in every table (mandates, payments, orders,
    webhook events) as the store it started from; and only a validation
    call can change a mandate at all. *)
Theorem no_task_adds_or_removes_a_row (env : Env) (c : Endpoints.call) (d : DB) :
  let d' := fst (fst (Endpoints.execute env c d)) in
  Keys.keys d' = Keys.keys d
  /\ match c with
     | Endpoints.ValidateMandateStatus _ => True
     | _ => mandates d' = mandates d
     end.
Proof.
  destruct c as [webhook_id | mandate_id payment_data
                | customer_id mandate_id order_data | mandate_id];
    cbn [Endpoints.execute]; unfold Celery.apply_async.
  - apply (run_keeps (fun x => Keys.keys x = Keys.keys d /\ mandates x = mandates d));
      [|split; reflexivity].
    intros self d1 [Hk Hm].
    destruct (webhook_task_keeps_rows env self webhook_id d1) as [Hk1 Hm1].
    split; congruence.
  - apply (run_keeps (fun x => Keys.keys x = Keys.keys d /\ mandates x = mandates d));
      [|split; reflexivity].
    intros self d1 H. rewrite recurring_task_outcome. exact H.
  - apply (run_keeps (fun x => Keys.keys x = Keys.keys d /\ mandates x = mandates d));
      [|split; reflexivity].
    intros self d1 H. rewrite authorization_task_outcome. exact H.
  - split; [|exact I].
    apply (run_keeps (fun x => Keys.keys x = Keys.keys d)); [|reflexivity].
    intros self d1 H. rewrite validate_keeps_keys. exact H.
Qed.

(** ** Reading webhook events back *)

Lemma in_firstn {A : Type} (n : nat) (l : list A) (x : A) :
  In x (firstn n l) -> In x l.
Proof.
  revert l. induction n as [|n IH]; intros [|a l]; cbn; try tauto.
  intros [H | H]; [left; exact H | right; apply IH; exact H].
Qed.

Lemma in_skipn {A : Type} (n : nat) (l : list A) (x : A) :
  In x (skipn n l) -> In x l.
Proof.
  revert l. induction n as [|n IH]; intros [|a l]; cbn; try tauto.
  intros H. right. apply IH. exact H.
Qed.

Lemma in_offset_limit {A : Type} (skip limit : Z) (l : list A) (x : A) :
  In x (Api.offset_limit skip limit l) -> In x l.
Proof.
  unfold Api.offset_limit. destruct (limit <? 0); intros H.
  - apply (in_skipn _ _ _ H).
  - apply in_firstn, in_skipn in H. exact H.
Qed.

Lemma selected_events_pass_the_filters
  (skip limit : Z) (event_type : option string) (processed : option bool)
  (d : DB) (x : WebhookEvent.t) :
  In x (Api.select_webhook_events skip limit event_type processed d) ->
  In x (webhook_events d)
  /\ (forall t, event_type = Some t -> t <> "" ->
        WebhookEvent.event_type x = t)
  /\ (forall b, processed = Some b -> WebhookEvent.processed x = b).
Proof.
  intros Hx. unfold Api.select_webhook_events in Hx.
  apply in_offset_limit in Hx.
  assert (Htype : forall l,
             In x (match event_type with
                   | Some t =>
                       if String.eqb t "" then l
                       else filter (fun y => String.eqb (WebhookEvent.event_type y) t) l
                   | None => l
                   end) ->
             In x l
             /\ (forall t, event_type = Some t -> t <> "" ->
                   WebhookEvent.event_type x = t)).
  { intros l Hin. destruct event_type as [t|].
    - destruct (String.eqb t "") eqn:Et.
      + split; [exact Hin|]. intros t' Ht' Hne. inversion Ht'; subst t'.
        apply String.eqb_eq in Et. contradiction.
      + apply filter_In in Hin. destruct Hin as [Hin Hf].
        split; [exact Hin|]. intros t' Ht' _. inversion Ht'; subst t'.
        apply String.eqb_eq. exact Hf.
    - split; [exact Hin|]. intros t Ht. discriminate Ht. }
  destruct processed as [b|].
  - apply filter_In in Hx. destruct Hx as [Hx Hb].
    destruct (Htype _ Hx) as [Hin Ht].
    split; [exact Hin|]. split; [exact Ht|].
    intros b' Hb'. inversion Hb'; subst b'. apply Bool.eqb_prop. exact Hb.
  - destruct (Htype _ Hx) as [Hin Ht].
    split; [exact Hin|]. split; [exact Ht|]. intros b Hb. discriminate Hb.
Qed.

Lemma unlimited_selection_is_complete
  (skip limit : Z) (event_type : option string) (processed : option bool)
  (d : DB) (x : WebhookEvent.t) :
  limit < 0 -> skip <= 0 ->
  In x (webhook_events d) ->
  (forall t, event_type = Some t -> t <> "" -> WebhookEvent.event_type x = t) ->
  (forall b, processed = Some b -> WebhookEvent.processed x = b) ->
  In x (Api.select_webhook_events skip limit event_type processed d).
Proof.
  intros Hlimit Hskip Hin Htype Hflag.
  unfold Api.select_webhook_events, Api.offset_limit.
  apply Z.ltb_lt in Hlimit. rewrite Hlimit.
  replace (Z.to_nat skip) with 0%nat by lia. cbn [skipn].
  assert (Hby_type :
            In x (match event_type with
                  | Some t =>
                      if String.eqb t "" then webhook_events d
                      else filter (fun y => String.eqb (WebhookEvent.event_type y) t)
                                  (webhook_events d)
                  | None => webhook_events d
                  end)).
  { destruct event_type as [t|]; [|exact Hin].
    destruct (String.eqb t "") eqn:Et; [exact Hin|].
    apply filter_In. split; [exact Hin|]. apply String.eqb_eq.
    apply (Htype t eq_refl). intros ->. discriminate Et. }
  destruct processed as [b|]; [|exact Hby_type].
  apply filter_In. split; [exact Hby_type|].
  rewrite (Hflag b eq_refl). apply Bool.eqb_reflx.
Qed.

(** X15. The listing of webhook events takes [skip] and [limit] as any
    [int].  When both fit a 64-bit SQLite integer it answers with rows of
    the table only; with a non-empty [event_type] filter every row has
    that type, with a [processed] filter every row has that flag; the
    reported count is the number of rows returned.  A [limit] of zero or
    more bounds that count; a negative [limit] is no limit at all, and
    with no positive [skip] every row that passes the filters is
    returned.  Otherwise the request is answered 500.  The store is never
    changed. *)
Theorem listed_events_satisfy_the_filters
  (skip limit : Z) (event_type : option string) (processed : option bool)
  (d : DB) :
  match Api.list_webhook_events skip limit event_type processed d with
  | (d', inr (rows, count)) =>
      d' = d /\ count = List.length rows
      /\ Api.sqlite_integer skip && Api.sqlite_integer limit = true
      /\ (0 <= limit -> Z.of_nat count <= limit)
      /\ (forall x, In x rows ->
            In x (webhook_events d)
            /\ (forall t, event_type = Some t -> t <> "" ->
                  WebhookEvent.event_type x = t)
            /\ (forall b, processed = Some b -> WebhookEvent.processed x = b))
      /\ (limit < 0 -> skip <= 0 ->
          forall x, In x (webhook_events d) ->
            (forall t, event_type = Some t -> t <> "" ->
               WebhookEvent.event_type x = t) ->
            (forall b, processed = Some b -> WebhookEvent.processed x = b) ->
            In x rows)
  | (d', inl e) =>
      d' = d /\ e = HTTPException 500 "Failed to retrieve webhook events"
      /\ Api.sqlite_integer skip && Api.sqlite_integer limit = false
  end.
Proof.
  unfold Api.list_webhook_events.
  destruct (Api.sqlite_integer skip && Api.sqlite_integer limit) eqn:Hfit;
    [|repeat split].
  split; [reflexivity|]. split; [apply length_map|]. split; [reflexivity|].
  split; [|split].
  - intros Hlimit. rewrite length_map.
    unfold Api.select_webhook_events, Api.offset_limit.
    destruct (limit <? 0) eqn:E; [apply Z.ltb_lt in E; lia|].
    rewrite length_firstn. lia.
  - intros x Hx. apply (selected_events_pass_the_filters _ _ _ _ _ _ Hx).
  - intros Hlimit Hskip x Hin Htype Hflag.
    apply unlimited_selection_is_complete; assumption.
Qed.

(** X16. Once the task has run on an unprocessed event, that event is no
    longer listed as unprocessed, also when its apply raised and whatever
    the paging and type filter: a failed apply cannot be found by asking
    for [processed = false]. *)
Theorem attempted_event_is_not_listed_as_unprocessed
  (env : Env) (self : Celery.task) (webhook_id : nat) (d : DB) (w : WebhookEvent.t)
  (Hw : find (fun x => Nat.eqb (WebhookEvent.id x) webhook_id) (webhook_events d)
        = Some w)
  (Hunprocessed : WebhookEvent.processed w = false) :
  let d' := fst (Tasks.process_webhook_event env self webhook_id d) in
  forall skip limit event_type x,
    In x (Api.select_webhook_events skip limit event_type (Some false) d') ->
    WebhookEvent.id x <> webhook_id.
Proof.
  intros d' skip limit event_type x Hx.
  destruct (Tasks.apply_event env w (open d)) as [s' r] eqn:Happly.
  destruct (process_webhook_event_outcome env self webhook_id d w s' r
              Hw Hunprocessed Happly) as [Hrun _].
  unfold d' in Hx. rewrite Hrun in Hx. cbn [fst] in Hx.
  destruct (selected_events_pass_the_filters _ _ _ _ _ _ Hx) as [Hin [_ Hflag]].
  specialize (Hflag false eq_refl).
  unfold put_webhook_event in Hin. cbn [webhook_events] in Hin.
  apply in_map_iff in Hin. destruct Hin as [y [Hy _]].
  cbn [WebhookEvent.id WebhookEvent.set_processed] in Hy.
  destruct (Nat.eqb (WebhookEvent.id y) (WebhookEvent.id w)) eqn:E.
  - subst x. discriminate Hflag.
  - subst y. apply Nat.eqb_neq in E.
    rewrite (find_by_key_some WebhookEvent.id _ _ _ Hw) in E. exact E.
Qed.

Lemma attempted_event_is_not_listed_as_unprocessed_witness :
  let w := Scenario.webhook Scenario.bad_fee_body "payment.captured" in
  let d := Scenario.store [] [Scenario.payment PaymentStatus.CREATED] [w] in
  let run := Tasks.process_webhook_event Scenario.env Scenario.first_attempt 1 d in
  (exists e, snd run = inl e)
  /\ Api.select_webhook_events 0 100 None (Some false) d = [w]
  /\ forall x,
       In x (Api.select_webhook_events 0 100 None (Some false) (fst run)) ->
       WebhookEvent.id x <> 1%nat.
Proof.
  intros w d run. split; [eexists; reflexivity|]. split; [reflexivity|].
  intros x Hx.
  apply (attempted_event_is_not_listed_as_unprocessed Scenario.env
           Scenario.first_attempt 1 d w eq_refl eq_refl 0 100 None x Hx).
Defined.

Lemma listed_events_satisfy_the_filters_witness :
  let w1 := Cases.event 1 "pay_1" Scenario.captured_body "payment.captured" true in
  let w2 := Cases.event 2 "pay_9" Scenario.unmatched_body "payment.authorized"
              false in
  let w3 := Cases.event 3 "order_mock_1" Cases.order_paid_body "order.paid" false in
  let d := mkDB [] [] [] [w1; w2; w3] in
  Api.list_webhook_events 0 1 None (Some false) d = (d, inr ([w2], 1%nat))
  /\ In w2 (webhook_events d) /\ WebhookEvent.processed w2 = false
  /\ Api.list_webhook_events 0 (-1) None (Some false) d
     = (d, inr ([w2; w3], 2%nat))
  /\ (forall x, In x (webhook_events d) -> WebhookEvent.processed x = false ->
        In x [w2; w3])
  /\ Api.list_webhook_events 0 (2 ^ 63) None None d
     = (d, inl (HTTPException 500 "Failed to retrieve webhook events")).
Proof.
  intros w1 w2 w3 d.
  pose proof (listed_events_satisfy_the_filters 0 1 None (Some false) d) as H.
  change (Api.list_webhook_events 0 1 None (Some false) d)
    with (d, @inr exn _ ([w2], 1%nat)) in H.
  destruct H as [_ [_ [_ [Hbound [Hall _]]]]].
  assert (Hcount : Z.of_nat 1 <= 1) by (apply Hbound; lia).
  destruct (Hall w2 (or_introl eq_refl)) as [Hin [_ Hflag]].
  pose proof (listed_events_satisfy_the_filters 0 (-1) None (Some false) d) as H'.
  change (Api.list_webhook_events 0 (-1) None (Some false) d)
    with (d, @inr exn _ ([w2; w3], 2%nat)) in H'.
  destruct H' as [_ [_ [_ [_ [_ Hcomplete]]]]].
  assert (Hw3 : forall x, In x (webhook_events d) ->
                  WebhookEvent.processed x = false -> In x [w2; w3]).
  { intros x Hx Hp. apply Hcomplete; [lia | lia | exact Hx | |].
    - intros t Ht. discriminate Ht.
    - intros b Hb. inversion Hb. exact Hp. }
  split; [reflexivity|]. split; [exact Hin|].
  split; [exact (Hflag false eq_refl)|]. split; [reflexivity|].
  split; [exact Hw3 | reflexivity].
Defined.

Lemma free_event_id_is_not_found (event_id : string) (d : DB) :
  event_id_free event_id d = true ->
  find (fun x => String.eqb (WebhookEvent.event_id x) event_id) (webhook_events d)
  = None.
Proof.
  unfold event_id_free. intros H. apply negb_true_iff in H.
  induction (webhook_events d) as [|a l IH]; [reflexivity|].
  cbn in *. apply orb_false_iff in H. destruct H as [Ha Hl].
  rewrite Ha. apply IH. exact Hl.
Qed.

(** X17. An acknowledged delivery can be read back: right after it,
    [get_webhook_event] for the event id of the stored row answers 200
    with that row's type, [processed = false] and no error, and changes
    nothing; for an event id that no row has it answers 404. *)
Theorem acknowledged_event_is_read_back
  (env : Env) (request : Endpoints.Request) (sys sys' : Endpoints.Sys)
  (r : Endpoints.response)
  (Hack : Endpoints.handle_razorpay_webhook env request sys = (sys', inr r)) :
  (exists row,
      Endpoints.db sys' = Endpoints.with_event (Endpoints.db sys) row
      /\ Api.get_webhook_event (WebhookEvent.event_id row) (Endpoints.db sys')
         = (Endpoints.db sys',
            inr (Endpoints.mkResponse 200 true
                   "Webhook event retrieved successfully"
                   [("event_id", JStr (WebhookEvent.event_id row));
                    ("event_type", JStr (WebhookEvent.event_type row));
                    ("processed", JBool false);
                    ("processing_error", JNull)])))
  /\ forall other,
       event_id_free other (Endpoints.db sys') = true ->
       Api.get_webhook_event other (Endpoints.db sys')
       = (Endpoints.db sys', inl (HTTPException 404 "Webhook event not found")).
Proof.
  split.
  - unfold Endpoints.handle_razorpay_webhook in Hack.
    destruct (Endpoints.receive_webhook env request (open (Endpoints.db sys)))
      as [s1 [e|[[row eid] ety]]] eqn:E; [discriminate Hack|].
    pose proof (receive_webhook_cases _ _ _ _ _ E) as [_ [_ [Hfree [Hrow Hs]]]].
    inversion Hack; subst sys' r. clear Hack.
    exists row. rewrite Hs. cbn [close committed Endpoints.db].
    split; [reflexivity|].
    unfold Api.get_webhook_event, Api.responding.
    cbn [open working Endpoints.with_event webhook_events].
    rewrite find_in_app.
    assert (Heid : WebhookEvent.event_id row = eid) by (rewrite Hrow; reflexivity).
    rewrite Heid, (free_event_id_is_not_found _ _ Hfree). cbn [find].
    rewrite Heid, String.eqb_refl. cbn.
    rewrite Hrow. reflexivity.
  - intros other Hfree.
    unfold Api.get_webhook_event, Api.responding. cbn [open working].
    rewrite (free_event_id_is_not_found _ _ Hfree). reflexivity.
Qed.

Lemma acknowledged_event_is_read_back_witness :
  let sys := Endpoints.mkSys (Scenario.store [] [] []) [] in
  let request := Scenario.signed Scenario.captured_body in
  let out := Endpoints.handle_razorpay_webhook Scenario.env request sys in
  Endpoints.is_ack (snd out) = true
  /\ Api.get_webhook_event "pay_7" (Endpoints.db (fst out))
     = (Endpoints.db (fst out), inl (HTTPException 404 "Webhook event not found")).
Proof.
  intros sys request out. split; [reflexivity|].
  destruct (acknowledged_event_is_read_back Scenario.env request sys (fst out)
              (Endpoints.mkResponse 200 true
                 "Webhook received and queued for processing"
                 [("event_id", JStr "pay_1");
                  ("event_type", JStr "payment.captured");
                  ("task_id", JInt 0); ("webhook_id", JInt 1)])
              eq_refl) as [_ Hother].
  apply (Hother "pay_7"). reflexivity.
Defined.

(** ** The eMandate endpoints *)

(** X18. Asking for the validation of a stored mandate answers with the
    status the mandate has at that moment and queues the validation
    without touching the store; once the worker has run the queue, a
    mandate that has a gateway id is reported as "confirmed" by
    [get_mandate_status], whatever its status was. *)
Theorem validation_request_then_status
  (env : Env) (mandate_id : nat) (d : DB) (m : Mandate.t)
  (Hm : find (fun x => Nat.eqb (Mandate.id x) mandate_id) (mandates d) = Some m)
  (Hgateway : Tasks.str_truthy (Mandate.razorpay_mandate_id m) = true) :
  let sys := Endpoints.mkSys d [] in
  exists r,
    Api.validate_mandate mandate_id sys
    = (Endpoints.mkSys d [Endpoints.ValidateMandateStatus mandate_id], inr r)
    /\ assoc "current_status" (Endpoints.data r)
       = Some (JStr (MandateStatus.value (Mandate.status m)))
    /\ exists r',
         Api.get_mandate_status mandate_id
           (Endpoints.db (Endpoints.drain env
                            (fst (Api.validate_mandate mandate_id sys))))
         = (put_mandate (Mandate.set_status MandateStatus.CONFIRMED m) d, inr r')
         /\ assoc "status" (Endpoints.data r') = Some (JStr "confirmed")
         /\ assoc "razorpay_mandate_id" (Endpoints.data r')
            = Some (Endpoints.opt_json (Mandate.razorpay_mandate_id m)).
Proof.
  intros sys.
  assert (Hreq : Api.validate_mandate mandate_id sys
                 = (Endpoints.mkSys d [Endpoints.ValidateMandateStatus mandate_id],
                    inr (Endpoints.mkResponse 200 true "Mandate validation initiated"
                           [("mandate_id", JInt (Z.of_nat mandate_id));
                            ("task_id", JInt 0);
                            ("current_status",
                             JStr (MandateStatus.value (Mandate.status m)))]))).
  { unfold Api.validate_mandate, Api.responding, bind, Services.get_mandate,
      mandate_by_id.
    cbn [open working committed Endpoints.db sys]. rewrite Hm. reflexivity. }
  eexists. split; [exact Hreq|]. split; [reflexivity|].
  rewrite Hreq. cbn [fst]. rewrite drain_single. cbn [Endpoints.execute].
  rewrite (apply_async_success _ _ d
             (put_mandate (Mandate.set_status MandateStatus.CONFIRMED m) d)
             (Tasks.MandateValidated mandate_id "confirmed"))
    by (apply (validate_confirms_any_status _ mandate_id d m Hm Hgateway)).
  cbn [fst Endpoints.db].
  set (m' := Mandate.set_status MandateStatus.CONFIRMED m).
  assert (Hm' : find (fun x => Nat.eqb (Mandate.id x) mandate_id)
                     (mandates (put_mandate m' d)) = Some m').
  { unfold put_mandate. cbn [mandates].
    apply (find_replaced Mandate.id _ _ m m' Hm).
    apply (find_by_key_some Mandate.id _ _ _ Hm). }
  eexists. split.
  - unfold Api.get_mandate_status, Api.responding, bind, Services.get_mandate,
      mandate_by_id.
    cbn [open working committed]. rewrite Hm'. reflexivity.
  - split; reflexivity.
Qed.

Lemma validation_request_then_status_witness :
  let m := Scenario.mandate MandateStatus.PAUSED (Some "mandate_mock_1") in
  let d := Scenario.store [m] [] [] in
  let sys := Endpoints.mkSys d [] in
  exists r',
    Api.get_mandate_status 1
      (Endpoints.db (Endpoints.drain Scenario.env
                       (fst (Api.validate_mandate 1 sys))))
    = (put_mandate (Mandate.set_status MandateStatus.CONFIRMED m) d, inr r')
    /\ assoc "status" (Endpoints.data r') = Some (JStr "confirmed").
Proof.
  intros m d sys.
  destruct (validation_request_then_status Scenario.env 1 d m eq_refl eq_refl)
    as [r [_ [_ [r' [Hget [Hstatus _]]]]]].
  exists r'. split; [exact Hget | exact Hstatus].
Defined.

Lemma create_mandate_refuses_dict (customers : list Customer.t)
  (fields : list (string * json)) (d : DB) :
  MoreServices.create_mandate customers (Dict fields) (open d)
  = (open d, inl (AttributeError "'dict' object has no attribute 'customer_id'")).
Proof. reflexivity. Qed.

(** X19. The authorization endpoint never accepts a request.  For an
    unknown customer it answers 404; for a known one it hands
    [create_mandate] a [dict], whose first attribute access raises, and
    answers 500.  Either way no mandate is stored and no task is queued. *)
Theorem authorization_request_is_never_accepted
  (env : Env) (customers : list Customer.t)
  (request_data : EMandateAuthorizationRequest.t) (sys : Endpoints.Sys) :
  Api.authorize_emandate env customers request_data sys
  = (sys,
     inl (match CustomerService.get_customer
                  (EMandateAuthorizationRequest.customer_id request_data)
                  customers with
          | None => HTTPException 404 "Customer not found"
          | Some _ =>
              HTTPException 500 "Failed to initiate eMandate authorization"
          end)).
Proof.
  unfold Api.authorize_emandate, Api.responding, Api.prepare_authorization.
  destruct (CustomerService.get_customer _ customers).
  - unfold bind. rewrite create_mandate_refuses_dict. cbn.
    rewrite sys_eta. reflexivity.
  - cbn. rewrite sys_eta. reflexivity.
Qed.

(** ** The order, payment and mandate services *)

(** X20. When [create_order] raises, be it on the gateway call or on the
    unique gateway order id, the session has been rolled back: no Order
    row is stored, and whatever else the session held uncommitted is
    dropped with it. *)
Theorem create_order_failure_rolls_back
  (env : Env) (order_data : OrderCreate.t) (s s' : Session) (e : exn)
  (Hfailed : Services.create_order env (Model order_data) s = (s', inl e)) :
  committed s' = committed s /\ working s' = committed s.
Proof.
  revert Hfailed.
  unfold Services.create_order, try_except, bind, lift, getattr, get_working,
    set_working, commit_checking, ret, rollback, raise.
  destruct (razorpay_create_order env _ _ _) as [e1|g].
  - intros H. inversion H; subst. split; reflexivity.
  - cbn [working committed].
    match goal with |- context [if ?b then _ else _] => destruct b end.
    + discriminate.
    + intros H. inversion H; subst. split; reflexivity.
Qed.

Lemma create_order_failure_rolls_back_witness :
  let d := mkDB [] [] [Cases.order "created"] [] in
  let pending := put_order (Order.set_status (Some "paid") (Cases.order "created")) d in
  let s := mkSession d pending in
  let out := Services.create_order Scenario.env (Model Scenario.order_request) s in
  snd out = inl (IntegrityError "UNIQUE constraint failed")
  /\ committed (fst out) = d /\ working (fst out) = d.
Proof.
  intros d pending s out.
  destruct (create_order_failure_rolls_back Scenario.env Scenario.order_request s
              (fst out) (IntegrityError "UNIQUE constraint failed") eq_refl)
    as [Hc Hw].
  split; [reflexivity|]. split; [exact Hc | exact Hw].
Defined.

(** X21. With the mock gateway only one order can ever be stored.  Every
    service instance builds a new mock client, whose first order is
    always [order_mock_1]; once a row carries that gateway id, each
    further [create_order] fails on the unique column and rolls back. *)
Theorem mock_gateway_allows_one_order
  (env : Env) (order_data : OrderCreate.t) (s : Session)
  (Hmock : razorpay_create_order env = MockRazorpayClient_create_order)
  (Htaken : existsb (fun x => opt_str_is (Order.razorpay_order_id x) "order_mock_1")
                    (orders (working s)) = true) :
  Services.create_order env (Model order_data) s
  = (mkSession (committed s) (committed s),
     inl (IntegrityError "UNIQUE constraint failed")).
Proof.
  unfold Services.create_order, try_except, bind, lift, getattr, get_working,
    set_working, commit_checking, ret, rollback, raise.
  rewrite Hmock. cbn [MockRazorpayClient_create_order gateway_order_id
                        gateway_order_status working committed].
  set (new_id := next_id (map Order.id (orders (working s)))).
  match goal with
  | |- context [razorpay_order_id_unique ?k ?d] =>
      assert (Hdup : razorpay_order_id_unique k d = false)
  end.
  { unfold razorpay_order_id_unique. cbn [orders Order.id].
    fold new_id.
    match goal with
    | |- context [find ?f (orders (working s) ++ [?row])] =>
        replace (find f (orders (working s) ++ [row])) with (Some row)
          by (symmetry;
              exact (find_appended Order.id (orders (working s)) row eq_refl))
    end.
    cbn [Order.razorpay_order_id]. apply negb_false_iff.
    apply existsb_exists. apply existsb_exists in Htaken.
    destruct Htaken as [x [Hin Hx]]. exists x. split.
    - apply in_or_app. left. exact Hin.
    - apply andb_true_iff. split; [|exact Hx].
      apply negb_true_iff. apply Nat.eqb_neq.
      pose proof (key_le_list_max Order.id _ _ Hin) as Hle.
      unfold new_id, next_id. lia. }
  rewrite Hdup. reflexivity.
Qed.

Lemma mock_gateway_allows_one_order_witness :
  let d := Scenario.store [] [] [] in
  let row := Order.mk 1 (Some "order_mock_1") (Some 1%nat) 500 "INR"
               (Some "emandate_auth_1") (Some "created") 0 None in
  let s1 := mkSession (mkDB [] [] [row] []) (mkDB [] [] [row] []) in
  Services.create_order Scenario.env (Model Scenario.order_request) (open d)
  = (s1, inr row)
  /\ Services.create_order Scenario.env (Model Scenario.order_request) s1
     = (s1, inl (IntegrityError "UNIQUE constraint failed")).
Proof.
  intros d row s1. split; [reflexivity|].
  apply (mock_gateway_allows_one_order Scenario.env Scenario.order_request s1
           eq_refl eq_refl).
Defined.

Lemma schema_value_is_no_member_name (transaction_type : TransactionTypeEnum.t) :
  exists msg,
    TransactionType.of_stored (TransactionTypeEnum.value transaction_type)
    = inl (LookupError msg).
Proof. destruct transaction_type; eexists; reflexivity. Qed.

(** X22. [create_payment] never returns a payment.  Given a
    [PaymentCreate], it commits the new row (in [CREATED] status, with no
    gateway ids, fee or tax, under a key no payment had) and then raises
    [LookupError] when it reads the row back, for every transaction type:
    the column was written with the schema enum's value, which is not the
    name of a member.  The rollback of the handler comes too late: the
    row stays committed.  Given a [dict], it raises [AttributeError] with
    the session rolled back. *)
Theorem create_payment_commits_then_raises (s : Session) :
  (forall payment_data : PaymentCreate.t,
      let row := Payment.mk (next_id (map Payment.id (payments (working s))))
                   None None
                   (PaymentCreate.customer_id payment_data)
                   (PaymentCreate.mandate_id payment_data)
                   (PaymentCreate.amount payment_data)
                   (PaymentCreate.currency payment_data)
                   PaymentStatus.CREATED
                   (TransactionTypeEnum.member
                      (PaymentCreate.transaction_type payment_data))
                   (PaymentCreate.description payment_data)
                   (PaymentCreate.receipt payment_data)
                   (PaymentCreate.notes payment_data)
                   None None JNull JNull in
      let d' := mkDB (mandates (working s)) (payments (working s) ++ [row])
                     (orders (working s)) (webhook_events (working s)) in
      (exists msg,
          Services.create_payment (Model payment_data) s
          = (mkSession d' d', inl (LookupError msg)))
      /\ ~ In (Payment.id row) (map Payment.id (payments (working s))))
  /\ (forall fields,
         Services.create_payment (Dict fields) s
         = (mkSession (committed s) (committed s),
            inl (AttributeError "'dict' object has no attribute 'customer_id'")))
  /\ (forall payment_data : arg PaymentCreate.t,
         exists e, snd (Services.create_payment payment_data s) = inl e).
Proof.
  assert (Hmodel : forall payment_data : PaymentCreate.t,
             exists msg d',
               Services.create_payment (Model payment_data) s
               = (mkSession d' d', inl (LookupError msg))
               /\ d' = mkDB (mandates (working s))
                         (payments (working s)
                          ++ [Payment.mk
                                (next_id (map Payment.id (payments (working s))))
                                None None
                                (PaymentCreate.customer_id payment_data)
                                (PaymentCreate.mandate_id payment_data)
                                (PaymentCreate.amount payment_data)
                                (PaymentCreate.currency payment_data)
                                PaymentStatus.CREATED
                                (TransactionTypeEnum.member
                                   (PaymentCreate.transaction_type payment_data))
                                (PaymentCreate.description payment_data)
                                (PaymentCreate.receipt payment_data)
                                (PaymentCreate.notes payment_data)
                                None None JNull JNull])
                         (orders (working s)) (webhook_events (working s))).
  { intros payment_data.
    destruct (schema_value_is_no_member_name
                (PaymentCreate.transaction_type payment_data)) as [msg Hmsg].
    exists msg. eexists. split; [|reflexivity].
    unfold Services.create_payment, try_except, bind, lift, getattr, get_working,
      set_working, commit, commit_checking, ret, rollback, raise.
    cbn [working committed]. rewrite Hmsg. reflexivity. }
  split; [|split].
  - intros payment_data row d'.
    destruct (Hmodel payment_data) as [msg [d1 [Hrun Hd1]]]. split.
    + exists msg. rewrite Hrun, Hd1. reflexivity.
    + intros Hin. apply in_map_iff in Hin. destruct Hin as [x [Hx Hin]].
      pose proof (key_le_list_max Payment.id _ _ Hin) as Hle.
      unfold row, next_id in Hx. cbn [Payment.id] in Hx. lia.
  - intros fields. reflexivity.
  - intros [payment_data | fields].
    + destruct (Hmodel payment_data) as [msg [d1 [Hrun _]]].
      rewrite Hrun. eexists. reflexivity.
    + eexists. reflexivity.
Qed.

Lemma create_mandate_run
  (customers : list Customer.t) (mandate_data : MandateCreate.t) (d : DB) :
  MoreServices.create_mandate customers (Model mandate_data) (open d)
  = match CustomerService.get_customer (MandateCreate.customer_id mandate_data)
            customers with
    | None => (open d, inl (ValueError "Customer not found"))
    | Some _ =>
        let row := Mandate.mk (next_id (map Mandate.id (mandates d))) None
                     (MandateCreate.customer_id mandate_data)
                     (MandateCreate.amount mandate_data)
                     (MandateCreate.currency mandate_data)
                     MandateStatus.CREATED
                     (MandateCreate.frequency mandate_data)
                     (MandateCreate.notes mandate_data) in
        (open (mkDB (mandates d ++ [row]) (payments d) (orders d)
                 (webhook_events d)),
         inr row)
    end.
Proof.
  unfold MoreServices.create_mandate, try_except, bind, lift, getattr.
  destruct (CustomerService.get_customer _ customers); reflexivity.
Qed.

(** X23. [create_mandate] for a customer that does not exist raises
    "Customer not found" and stores nothing.  For an existing customer
    the mandate is stored and committed in [CREATED] status with no
    gateway id, under a new key, and [get_mandate] returns it. *)
Theorem create_mandate_checks_the_customer
  (customers : list Customer.t) (mandate_data : MandateCreate.t) (d : DB) :
  let row := Mandate.mk (next_id (map Mandate.id (mandates d))) None
               (MandateCreate.customer_id mandate_data)
               (MandateCreate.amount mandate_data)
               (MandateCreate.currency mandate_data)
               MandateStatus.CREATED
               (MandateCreate.frequency mandate_data)
               (MandateCreate.notes mandate_data) in
  let d' := mkDB (mandates d ++ [row]) (payments d) (orders d) (webhook_events d) in
  (CustomerService.get_customer (MandateCreate.customer_id mandate_data) customers
   = None ->
   MoreServices.create_mandate customers (Model mandate_data) (open d)
   = (open d, inl (ValueError "Customer not found")))
  /\ (CustomerService.get_customer (MandateCreate.customer_id mandate_data) customers
      <> None ->
      MoreServices.create_mandate customers (Model mandate_data) (open d)
      = (open d', inr row)
      /\ Services.get_mandate (Mandate.id row) (open d') = (open d', inr (Some row))).
Proof.
  intros row d'. split.
  - intros Hnone. rewrite create_mandate_run, Hnone. reflexivity.
  - intros Hsome. split.
    + rewrite create_mandate_run.
      destruct (CustomerService.get_customer _ customers); [|congruence].
      reflexivity.
    + unfold Services.get_mandate, mandate_by_id. cbn [open working mandates d'].
      replace (find (fun x => Nat.eqb (Mandate.id x) (Mandate.id row))
                    (mandates d ++ [row])) with (Some row)
        by (symmetry; exact (find_appended Mandate.id (mandates d) row eq_refl)).
      reflexivity.
Qed.

Lemma create_mandate_checks_the_customer_witness :
  let d := Scenario.store [] [] [] in
  let row := Mandate.mk 1 None 1 1000 "INR" MandateStatus.CREATED
               (Some "monthly") (Some "Test mandate") in
  MoreServices.create_mandate [] (Model Cases.new_mandate) (open d)
  = (open d, inl (ValueError "Customer not found"))
  /\ MoreServices.create_mandate [Cases.customer] (Model Cases.new_mandate) (open d)
     = (open (mkDB [row] [] [] []), inr row).
Proof.
  intros d row.
  destruct (create_mandate_checks_the_customer [] Cases.new_mandate d) as [Hnone _].
  destruct (create_mandate_checks_the_customer [Cases.customer] Cases.new_mandate d)
    as [_ Hsome].
  assert (Hc : CustomerService.get_customer 1 [Cases.customer] <> None)
    by discriminate.
  split; [exact (Hnone eq_refl) | exact (proj1 (Hsome Hc))].
Defined.

(** X24. A mandate that has just been created cannot be charged: a
    recurring-payment request on it, for any amount, is answered 400
    "Mandate is not active for payments"; nothing is stored or queued. *)
Theorem new_mandate_cannot_be_charged
  (customers : list Customer.t) (mandate_data : MandateCreate.t) (d : DB)
  (s' : Session) (row : Mandate.t) (amount : Q)
  (description receipt : option string) (notes : option json)
  (queue : list Endpoints.call)
  (Hcreated : MoreServices.create_mandate customers (Model mandate_data) (open d)
              = (s', inr row)) :
  let sys := Endpoints.mkSys (close s') queue in
  Endpoints.create_recurring_payment
    (EMandateRecurringPaymentRequest.mk (Mandate.id row) amount description
       receipt notes) sys
  = (sys, inl (HTTPException 400 "Mandate is not active for payments")).
Proof.
  intros sys. rewrite create_mandate_run in Hcreated.
  destruct (CustomerService.get_customer
              (MandateCreate.customer_id mandate_data) customers) eqn:Hc.
  - cbv zeta in Hcreated. inversion Hcreated; subst s' row. clear Hcreated.
    apply (recurring_inactive_rejected _ _
             (Mandate.mk (next_id (map Mandate.id (mandates d))) None
                (MandateCreate.customer_id mandate_data)
                (MandateCreate.amount mandate_data)
                (MandateCreate.currency mandate_data)
                MandateStatus.CREATED
                (MandateCreate.frequency mandate_data)
                (MandateCreate.notes mandate_data))).
    + cbn [EMandateRecurringPaymentRequest.mandate_id Endpoints.db sys close
             committed open mandates Mandate.id].
      match goal with
      | |- find _ (mandates d ++ [?r]) = _ =>
          exact (find_appended Mandate.id (mandates d) r eq_refl)
      end.
    + reflexivity.
  - discriminate Hcreated.
Qed.

Lemma new_mandate_cannot_be_charged_witness :
  let d := Scenario.store [] [] [] in
  let row := Mandate.mk 1 None 1 1000 "INR" MandateStatus.CREATED
               (Some "monthly") (Some "Test mandate") in
  let sys := Endpoints.mkSys (mkDB [row] [] [] []) [] in
  Endpoints.create_recurring_payment (Scenario.charge 1) sys
  = (sys, inl (HTTPException 400 "Mandate is not active for payments")).
Proof.
  intros d row sys.
  apply (new_mandate_cannot_be_charged [Cases.customer] Cases.new_mandate d
           (open (mkDB [row] [] [] [])) row 1 None None None [] eq_refl).
Defined.

(** ** Customers *)

(** X25. [create_customer] stores nothing when it fails: an exception of
    the gateway is passed on as it is, and a taken email is reported as
    "Customer with this email already exists".  When it succeeds, the
    table has grown by the one row returned, which has a new key and the
    email asked for, and is found both by key and by email. *)
Theorem create_customer_outcomes
  (gateway : MockRazorpayClient.document -> exn + option string)
  (customer_data : CustomerCreate.t) (customers : list Customer.t) :
  let request :=
    [("name", JStr (CustomerCreate.name customer_data));
     ("email", JStr (CustomerCreate.email customer_data));
     ("contact", CustomerService.opt_json (CustomerCreate.contact customer_data));
     ("gstin", CustomerService.opt_json (CustomerCreate.gstin customer_data));
     ("notes", JObj [])] in
  let out := CustomerService.create_customer gateway customer_data customers in
  (forall e, gateway request = inl e -> out = (customers, inl e))
  /\ (forall gateway_id,
         gateway request = inr gateway_id ->
         existsb (fun x => String.eqb (Customer.email x)
                             (CustomerCreate.email customer_data)) customers = true ->
         out = (customers,
                inl (ValueError "Customer with this email already exists")))
  /\ (forall e, snd out = inl e -> fst out = customers)
  /\ (forall row,
         snd out = inr row ->
         fst out = (customers ++ [row])%list
         /\ Customer.email row = CustomerCreate.email customer_data
         /\ ~ In (Customer.id row) (map Customer.id customers)
         /\ CustomerService.get_customer (Customer.id row) (fst out) = Some row
         /\ CustomerService.get_customer_by_email (Customer.email row) (fst out)
            = Some row).
Proof.
  intros request out. unfold out, CustomerService.create_customer. fold request.
  split; [|split; [|split]].
  - intros e He. rewrite He. reflexivity.
  - intros gid Hg Hdup. rewrite Hg. unfold CustomerService.unique_ok.
    cbn [Customer.email]. rewrite Hdup. reflexivity.
  - intros e. destruct (gateway request) as [e1|gid]; [reflexivity|].
    destruct (CustomerService.unique_ok _ customers); [discriminate | reflexivity].
  - intros row. destruct (gateway request) as [e1|gid]; [discriminate|].
    destruct (CustomerService.unique_ok _ customers) eqn:Hu; [|discriminate].
    cbn [snd fst]. intros H. inversion H; subst row. clear H.
    split; [reflexivity|]. split; [reflexivity|].
    cbn [Customer.id Customer.email]. split.
    { intros Hin. apply in_map_iff in Hin. destruct Hin as [x [Hx Hin]].
      pose proof (key_le_list_max Customer.id _ _ Hin) as Hle.
      unfold next_id in Hx. lia. }
    split.
    { unfold CustomerService.get_customer.
      match goal with
      | |- find _ (customers ++ [?row]) = _ =>
          exact (find_appended Customer.id customers row eq_refl)
      end. }
    unfold CustomerService.get_customer_by_email. rewrite find_in_app.
    unfold CustomerService.unique_ok in Hu. apply andb_true_iff in Hu.
    destruct Hu as [Hemail _]. cbn [Customer.email] in Hemail.
    apply negb_true_iff in Hemail.
    assert (Hnone : find (fun x => String.eqb (Customer.email x)
                                     (CustomerCreate.email customer_data))
                         customers = None).
    { destruct (find _ customers) as [x|] eqn:F; [|reflexivity].
      apply find_some in F. destruct F as [Hin Hx].
      assert (Hex : existsb (fun x => String.eqb (Customer.email x)
                                        (CustomerCreate.email customer_data))
                            customers = true).
      { apply existsb_exists. exists x. split; assumption. }
      congruence. }
    rewrite Hnone. cbn. rewrite String.eqb_refl. reflexivity.
Qed.

Lemma create_customer_outcomes_witness :
  let gateway := CustomerService.fresh_mock_create_customer in
  let row := Customer.mk 1 (Some "cust_mock_1") "Jane Doe" "jane.doe@example.com"
               (Some "9876543211") None in
  CustomerService.create_customer gateway Cases.jane [] = ([row], inr row)
  /\ CustomerService.get_customer_by_email "jane.doe@example.com" [row] = Some row
  /\ CustomerService.create_customer gateway Cases.jane [row]
     = ([row], inl (ValueError "Customer with this email already exists")).
Proof.
  intros gateway row.
  destruct (create_customer_outcomes gateway Cases.jane []) as [_ [_ [_ Hok]]].
  destruct (create_customer_outcomes gateway Cases.jane [row]) as [_ [Hdup _]].
  destruct (Hok row eq_refl) as [_ [_ [_ [_ Hfind]]]].
  split; [reflexivity|]. split; [exact Hfind|].
  apply (Hdup (Some "cust_mock_1") eq_refl eq_refl).
Defined.

(** X26. With the mock gateway a second customer can never be created.
    Each service instance builds a new mock client, which answers every
    first [create_customer] with the id [cust_mock_1]; once a customer
    carries that id, any further one, new email or not, violates the
    unique gateway id and is refused as "Customer with this email already
    exists". *)
Theorem mock_gateway_allows_one_customer
  (customer_data : CustomerCreate.t) (customers : list Customer.t)
  (Htaken : existsb (fun x => opt_str_is (Customer.razorpay_customer_id x)
                                "cust_mock_1") customers = true) :
  CustomerService.create_customer CustomerService.fresh_mock_create_customer
    customer_data customers
  = (customers, inl (ValueError "Customer with this email already exists")).
Proof.
  unfold CustomerService.create_customer,
    CustomerService.fresh_mock_create_customer, CustomerService.unique_ok.
  cbn [MockRazorpayClient.create_customer MockRazorpayClient.init
         MockRazorpayClient.customers snd assoc String.eqb Ascii.eqb Bool.eqb
         List.length Nat.add Customer.razorpay_customer_id Customer.email].
  change (str_of_nat 1) with "1". cbn [append].
  rewrite Htaken. rewrite andb_false_r. reflexivity.
Qed.

Lemma mock_gateway_allows_one_customer_witness :
  CustomerService.get_customer_by_email "jane.doe@example.com" [Cases.customer]
  = None
  /\ CustomerService.create_customer CustomerService.fresh_mock_create_customer
       Cases.jane [Cases.customer]
     = ([Cases.customer],
        inl (ValueError "Customer with this email already exists")).
Proof.
  split; [reflexivity|].
  apply (mock_gateway_allows_one_customer Cases.jane [Cases.customer]).
  reflexivity.
Defined.

(** ** Amounts sent to the gateway *)

Lemma digits_aux_le (fuel : nat) :
  forall n m, 0 < n < 10 ^ m -> PyDecimal.digits_aux fuel n <= m.
Proof.
  induction fuel as [|fuel IH]; intros n m Hn.
  - cbn. destruct (Z.le_gt_cases 0 m) as [Hm|Hm]; [exact Hm|].
    rewrite Z.pow_neg_r in Hn by exact Hm. lia.
  - assert (Hm : 1 <= m).
    { destruct (Z.le_gt_cases 1 m) as [H|H]; [exact H|].
      destruct (Z.le_gt_cases 0 m) as [H0|H0].
      - replace m with 0 in Hn by lia. cbn in Hn. lia.
      - rewrite Z.pow_neg_r in Hn by exact H0. lia. }
    cbn [PyDecimal.digits_aux]. destruct (n <? 10) eqn:E; [exact Hm|].
    apply Z.ltb_ge in E.
    assert (Hdiv : 0 < n / 10 < 10 ^ (m - 1)).
    { split.
      - apply Z.div_str_pos. lia.
      - apply Z.div_lt_upper_bound; [lia|].
        replace m with (Z.succ (m - 1)) in Hn by lia.
        rewrite Z.pow_succ_r in Hn by lia. lia. }
    specialize (IH (n / 10) (m - 1) Hdiv). lia.
Qed.

Lemma round_half_even_exact (c d : Z) :
  0 < d -> PyDecimal.round_half_even (c * d) d = c.
Proof.
  intros Hd. unfold PyDecimal.round_half_even.
  rewrite Z.mod_mul by lia. rewrite Z.div_mul by lia.
  replace (2 * 0) with 0 by reflexivity.
  destruct (Z.compare_spec 0 d); [lia | reflexivity | lia].
Qed.

Lemma product_within_precision_is_exact (q : Q) (c : Z) :
  (q == inject_Z c)%Q -> 0 < c < 10 ^ PyDecimal.prec ->
  Services.int_of_decimal (PyDecimal.round q) = c.
Proof.
  destruct q as [n den]. intros Hq Hc.
  unfold Qeq in Hq. cbn in Hq. rewrite Z.mul_1_r in Hq.
  unfold PyDecimal.round, PyDecimal.adjusted. cbn [Qnum Qden].
  subst n.
  assert (Hpos : 0 < c * Z.pos den) by lia.
  destruct (c * Z.pos den =? 0) eqn:E0; [apply Z.eqb_eq in E0; lia|].
  destruct (c * Z.pos den <? 0) eqn:E1; [apply Z.ltb_lt in E1; lia|].
  rewrite (Z.abs_eq (c * Z.pos den)) by lia.
  destruct (Z.pos den <=? c * Z.pos den) eqn:E2; [|apply Z.leb_gt in E2; nia].
  rewrite Z.div_mul by lia.
  pose proof (digits_aux_le (S (Z.to_nat (Z.log2 c))) c PyDecimal.prec Hc) as Hd.
  fold (PyDecimal.digits c) in Hd. unfold PyDecimal.prec in *.
  set (e := PyDecimal.digits c - 1 - (28 - 1)) in *.
  assert (He : e <= 0) by (unfold e; lia).
  destruct (0 <=? e) eqn:E3.
  - apply Z.leb_le in E3. replace e with 0 by lia.
    rewrite Z.pow_0_r, !Z.mul_1_r.
    rewrite round_half_even_exact by lia.
    unfold Services.int_of_decimal. cbn. apply Z.quot_1_r.
  - apply Z.leb_gt in E3.
    assert (Hk : 0 < 10 ^ (- e)) by (apply Z.pow_pos_nonneg; lia).
    replace (c * Z.pos den * 10 ^ (- e)) with (c * 10 ^ (- e) * Z.pos den) by lia.
    rewrite round_half_even_exact by lia.
    unfold Services.int_of_decimal. cbn [Qnum Qden].
    rewrite Z2Pos.id by exact Hk. apply Z.quot_mul. lia.
Qed.

(** X27. The amount [create_order] sends to the gateway,
    [int(amount * 100)] on a [Decimal], is exact for every positive amount
    with two decimals whose paise fit the 28 digits of the decimal
    context: an amount worth [c] hundredths is sent as [c] paise, however
    the decimal is written.  It is not exact beyond: the product is
    rounded to 28 digits, and 100000000000000000000000000.01 is sent as
    10^28 paise, one less than it is worth. *)
Theorem order_amount_in_paise_is_exact :
  (forall (amount : Q) (c : Z),
      (amount == inject_Z c / 100)%Q -> 0 < c < 10 ^ 28 ->
      Services.amount_in_paise amount = c)
  /\ Services.amount_in_paise ((10 ^ 28 + 1) # 100) = 10 ^ 28.
Proof.
  split; [|vm_compute; reflexivity].
  intros amount c Hamount Hc. unfold Services.amount_in_paise, PyDecimal.mul.
  apply product_within_precision_is_exact; [|exact Hc].
  rewrite Hamount. unfold Qeq. cbn. lia.
Qed.

Lemma order_amount_in_paise_is_exact_witness :
  ((1 # 2) == inject_Z 50 / 100)%Q
  /\ Services.amount_in_paise (1 # 2) = 50
  /\ Services.amount_in_paise (29 # 100) = 29.
Proof.
  assert (H1 : ((1 # 2) == inject_Z 50 / 100)%Q) by reflexivity.
  assert (H2 : ((29 # 100) == inject_Z 29 / 100)%Q) by reflexivity.
  assert (B1 : 0 < 50 < 10 ^ 28) by (split; reflexivity).
  assert (B2 : 0 < 29 < 10 ^ 28) by (split; reflexivity).
  split; [exact H1|]. split.
  - apply (proj1 order_amount_in_paise_is_exact (1 # 2) 50 H1 B1).
  - apply (proj1 order_amount_in_paise_is_exact (29 # 100) 29 H2 B2).
Defined.

(** ** The mock gateway client *)

From Stdlib Require DecimalNat DecimalFacts.

Lemma str_of_nat_inj (a b : nat) : str_of_nat a = str_of_nat b -> a = b.
Proof.
  unfold str_of_nat. intros H.
  assert (Hnn : forall n, Nat.to_uint n <> Decimal.Nil).
  { intros n. rewrite <- (DecimalNat.Unsigned.of_to n) at 1.
    rewrite DecimalNat.Unsigned.to_of. apply DecimalFacts.unorm_nonnil. }
  apply DecimalNat.Unsigned.to_uint_inj.
  pose proof (NilZero.usu _ (Hnn a)) as Ha.
  pose proof (NilZero.usu _ (Hnn b)) as Hb.
  rewrite H in Ha. congruence.
Qed.

Lemma order_id_inj (a b : nat) :
  MockRazorpayClient.order_id a = MockRazorpayClient.order_id b -> a = b.
Proof.
  unfold MockRazorpayClient.order_id. cbn [append]. intros H.
  apply str_of_nat_inj. congruence.
Qed.

Section Dict.

Context {V : Type}.

Lemma lookup_setitem (k : string) (v : V) (d : list (string * V)) :
  MockRazorpayClient.lookup k (MockRazorpayClient.setitem k v d) = Some v.
Proof.
  induction d as [|[k' v'] d IH]; cbn.
  - rewrite String.eqb_refl. reflexivity.
  - destruct (String.eqb k k') eqn:E; cbn.
    + rewrite String.eqb_refl. reflexivity.
    + rewrite E. exact IH.
Qed.

Lemma lookup_setitem_other (k k' : string) (v : V) (d : list (string * V)) :
  k' <> k ->
  MockRazorpayClient.lookup k' (MockRazorpayClient.setitem k v d)
  = MockRazorpayClient.lookup k' d.
Proof.
  intros Hne. induction d as [|[k0 v0] d IH]; cbn.
  - apply String.eqb_neq in Hne. rewrite Hne. reflexivity.
  - destruct (String.eqb k k0) eqn:E; cbn.
    + apply String.eqb_eq in E. subst k0.
      apply String.eqb_neq in Hne. rewrite Hne. reflexivity.
    + destruct (String.eqb k' k0); [reflexivity | exact IH].
Qed.

Lemma setitem_new_key (k : string) (v : V) (d : list (string * V)) :
  ~ In k (map fst d) ->
  MockRazorpayClient.setitem k v d = (d ++ [(k, v)])%list.
Proof.
  induction d as [|[k' v'] d IH]; cbn; [reflexivity|].
  intros Hnin. destruct (String.eqb k k') eqn:E.
  - apply String.eqb_eq in E. exfalso. apply Hnin. left. symmetry. exact E.
  - f_equal. apply IH. intros Hin. apply Hnin. right. exact Hin.
Qed.

End Dict.

Lemma reached_clients (P : MockRazorpayClient.t -> Prop) :
  P MockRazorpayClient.init ->
  (forall c op, P c -> P (MockRazorpayClient.step c op)) ->
  forall ops, P (MockRazorpayClient.after ops).
Proof.
  intros Hinit Hstep ops. unfold MockRazorpayClient.after.
  generalize dependent MockRazorpayClient.init.
  induction ops as [|op ops IH]; intros c Hc; [exact Hc|].
  cbn [fold_left]. apply IH. apply Hstep. exact Hc.
Qed.

Lemma next_order_id_is_new (c : MockRazorpayClient.t) :
  MockRazorpayClient.numbered c ->
  ~ In (MockRazorpayClient.order_id (List.length (MockRazorpayClient.orders c) + 1))
       (map fst (MockRazorpayClient.orders c)).
Proof.
  intros Hnum Hin. rewrite Hnum in Hin. apply in_map_iff in Hin.
  destruct Hin as [x [Hx Hin]]. apply order_id_inj in Hx. apply in_seq in Hin.
  lia.
Qed.

Lemma create_order_appends (data : MockRazorpayClient.document)
  (c : MockRazorpayClient.t) :
  MockRazorpayClient.numbered c ->
  MockRazorpayClient.orders (fst (MockRazorpayClient.create_order data c))
  = (MockRazorpayClient.orders c
     ++ [(MockRazorpayClient.order_id
            (List.length (MockRazorpayClient.orders c) + 1),
          snd (MockRazorpayClient.create_order data c))])%list.
Proof.
  intros Hnum. cbn [MockRazorpayClient.create_order fst snd MockRazorpayClient.orders].
  apply setitem_new_key. apply (next_order_id_is_new c Hnum).
Qed.

Lemma step_keeps_numbered (c : MockRazorpayClient.t) (op : MockRazorpayClient.call) :
  MockRazorpayClient.numbered c ->
  MockRazorpayClient.numbered (MockRazorpayClient.step c op).
Proof.
  intros Hnum. destruct op; cbn [MockRazorpayClient.step]; try exact Hnum.
  - unfold MockRazorpayClient.numbered.
    rewrite (create_order_appends order_data c Hnum).
    rewrite map_app, length_app. cbn [map fst List.length].
    rewrite Nat.add_1_r, seq_S, map_app. cbn [map].
    rewrite <- Hnum. reflexivity.
  - unfold MockRazorpayClient.capture_payment.
    destruct (MockRazorpayClient.get_or_empty payment_id
                (MockRazorpayClient.payments c)); exact Hnum.
Qed.

(** X28. On a mock client, however it was used before, [create_order]
    never overwrites an order: the new order gets the next number in
    [order_mock_1], [order_mock_2], ..., the table grows by exactly that
    order, [get_order] returns it under its id, and every other id reads
    as it did before. *)
Theorem mock_orders_are_numbered_and_kept
  (ops : list MockRazorpayClient.call) (order_data : MockRazorpayClient.document) :
  let c := MockRazorpayClient.after ops in
  let n := List.length (MockRazorpayClient.orders c) in
  let out := MockRazorpayClient.create_order order_data c in
  map fst (MockRazorpayClient.orders c)
  = map MockRazorpayClient.order_id (seq 1 n)
  /\ assoc "id" (snd out) = Some (JStr (MockRazorpayClient.order_id (n + 1)))
  /\ List.length (MockRazorpayClient.orders (fst out)) = S n
  /\ MockRazorpayClient.get_order (MockRazorpayClient.order_id (n + 1)) (fst out)
     = snd out
  /\ forall k,
       k <> MockRazorpayClient.order_id (n + 1) ->
       MockRazorpayClient.get_order k (fst out) = MockRazorpayClient.get_order k c.
Proof.
  intros c n out.
  assert (Hnum : MockRazorpayClient.numbered c).
  { apply reached_clients; [reflexivity | apply step_keeps_numbered]. }
  split; [exact Hnum|]. split; [reflexivity|]. split.
  { unfold out. rewrite (create_order_appends order_data c Hnum).
    rewrite length_app. cbn [List.length]. fold n. lia. }
  split.
  - unfold MockRazorpayClient.get_order, MockRazorpayClient.get_or_empty, out.
    cbn [MockRazorpayClient.create_order fst snd MockRazorpayClient.orders].
    fold c n. unfold MockRazorpayClient.order_id. rewrite lookup_setitem.
    reflexivity.
  - intros k Hk.
    unfold MockRazorpayClient.get_order, MockRazorpayClient.get_or_empty, out.
    cbn [MockRazorpayClient.create_order fst snd MockRazorpayClient.orders].
    fold c n. unfold MockRazorpayClient.order_id in Hk.
    rewrite (lookup_setitem_other _ k _ _ Hk). reflexivity.
Qed.

Lemma mock_orders_are_numbered_and_kept_witness :
  let ops := [MockRazorpayClient.CreateOrder [("amount", JInt 50000)];
              MockRazorpayClient.CapturePayment "pay_1" 50000;
              MockRazorpayClient.CreateOrder [("amount", JInt 1200)]] in
  let c := MockRazorpayClient.after ops in
  let out := MockRazorpayClient.create_order [("amount", JInt 900)] c in
  "order_mock_2" <> MockRazorpayClient.order_id (2 + 1)
  /\ assoc "id" (snd out) = Some (JStr "order_mock_3")
  /\ assoc "amount" (MockRazorpayClient.get_order "order_mock_2" (fst out))
     = Some (JInt 1200).
Proof.
  intros ops c out.
  assert (Hne : "order_mock_2" <> MockRazorpayClient.order_id (2 + 1))
    by discriminate.
  destruct (mock_orders_are_numbered_and_kept ops [("amount", JInt 900)])
    as [_ [Hid [_ [_ Hkept]]]].
  split; [exact Hne|]. split; [exact Hid|].
  unfold out, c. rewrite (Hkept "order_mock_2" Hne). reflexivity.
Defined.

Lemma step_keeps_payments_empty (c : MockRazorpayClient.t)
  (op : MockRazorpayClient.call) :
  MockRazorpayClient.payments c = [] ->
  MockRazorpayClient.payments (MockRazorpayClient.step c op) = [].
Proof.
  intros Hp. destruct op; cbn [MockRazorpayClient.step]; try exact Hp.
  unfold MockRazorpayClient.capture_payment. rewrite Hp. cbn. exact Hp.
Qed.

(** X29. The mock client never holds a payment: no method adds one.  So
    on any client, however it was used, [get_payment] and
    [capture_payment] answer with the empty document for every id,
    capturing changes nothing, and every refund is numbered
    [rfnd_mock_1]. *)
Theorem mock_client_never_holds_a_payment
  (ops : list MockRazorpayClient.call) (payment_id : string) (amount : Z)
  (refund : option Z) :
  let c := MockRazorpayClient.after ops in
  MockRazorpayClient.payments c = []
  /\ MockRazorpayClient.get_payment payment_id c = []
  /\ MockRazorpayClient.capture_payment payment_id amount c = (c, [])
  /\ assoc "id" (MockRazorpayClient.refund_payment payment_id refund c)
     = Some (JStr "rfnd_mock_1").
Proof.
  intros c.
  assert (Hp : MockRazorpayClient.payments c = []).
  { apply reached_clients; [reflexivity | apply step_keeps_payments_empty]. }
  split; [exact Hp|].
  unfold MockRazorpayClient.get_payment, MockRazorpayClient.capture_payment,
    MockRazorpayClient.refund_payment.
  rewrite Hp. repeat split.
Qed.

Lemma counting_loop {A : Type} (l : list A) (n : nat) :
  fold_left (fun retry_count _ => (retry_count + 1)%nat) l n
  = (n + List.length l)%nat.
Proof.
  revert n. induction l as [|x l IH]; intros n; cbn [fold_left List.length].
  - lia.
  - rewrite IH. lia.
Qed.

(** X30. The periodic task for failed payments retries nothing: on any
    store it succeeds at the first run, leaves every row as it was, and
    reports as [retry_count] the number of payments with status FAILED,
    capped at 100 by the query's limit. *)
Theorem failed_payments_task_only_counts (self : Celery.task) (d : DB) :
  MoreTasks.process_failed_payments_retry self d
  = (d, inr (MoreTasks.RetryCompleted
               (Nat.min 100
                  (List.length (filter MoreTasks.is_failed (payments d)))))).
Proof.
  unfold MoreTasks.process_failed_payments_retry, Tasks.in_session,
    Orm.try_except, Orm.bind, Orm.get_working, Orm.ret, Orm.open, Orm.close.
  cbn [working committed]. rewrite counting_loop, length_firstn.
  reflexivity.
Qed.

(** The order a service instance gets from its own, newly built client
    is the first order of the mock: same id, same status. *)
Lemma service_order_is_first_mock_order (order_data : MockRazorpayClient.document)
  (amount : Z) (currency : string) (receipt : option string) :
  let order := snd (MockRazorpayClient.create_order order_data
                      MockRazorpayClient.init) in
  exists id,
    MockRazorpayClient_create_order amount currency receipt
    = inr (mkGatewayOrder (Some id) (Some "created"))
    /\ assoc "id" order = Some (JStr id)
    /\ assoc "status" order = Some (JStr "created").
Proof. eexists. repeat split. Qed.

(* ===================================================================== *)
(** * The retry options, for every failure *)
(* ===================================================================== *)

(** ** The exceptions of the apply step *)

Section NeverRetries.

#[local] Open Scope orm_scope.

Lemma own_ret {A} (a : A) : never_retries (ret a).
Proof. intros s s' e H. discriminate H. Qed.

Lemma own_raise {A} (e : exn) : is_Retry e = false -> never_retries (@raise A e).
Proof. intros He s s' e' H. inversion H; subst. exact He. Qed.

Lemma own_lift {A} (x : exn + A) :
  (forall e, x = inl e -> is_Retry e = false) -> never_retries (lift x).
Proof. intros Hx s s' e H. inversion H; subst. apply Hx. reflexivity. Qed.

Lemma own_bind {A B} (c : M A) (k : A -> M B) :
  never_retries c -> (forall a, never_retries (k a)) -> never_retries (bind c k).
Proof.
  intros Hc Hk s s' e H. unfold bind in H.
  destruct (c s) as [s1 [e1|a]] eqn:E.
  - inversion H; subst. apply (Hc _ _ _ E).
  - apply (Hk a _ _ _ H).
Qed.

Lemma own_commit : never_retries commit.
Proof. intros s s' e H. discriminate H. Qed.

Lemma own_assign (f : DB -> DB) : never_retries (assign f).
Proof. intros s s' e H. discriminate H. Qed.

Lemma own_payment_query (v : json) :
  never_retries (payment_by_razorpay_payment_id v).
Proof. intros s s' e H. discriminate H. Qed.

Lemma own_order_query (v : json) : never_retries (order_by_razorpay_order_id v).
Proof. intros s s' e H. discriminate H. Qed.

Lemma own_webhook_query (k : nat) : never_retries (webhook_by_id k).
Proof. intros s s' e H. discriminate H. Qed.

Lemma get_or_raises_no_retry (d : json) (k : string) (v : json) (e : exn) :
  get_or d k v = inl e -> is_Retry e = false.
Proof. destruct d; intros H; inversion H; reflexivity. Qed.

Lemma div100_raises_no_retry (x : json) (e : exn) :
  div100 x = inl e -> is_Retry e = false.
Proof. destruct x; intros H; inversion H; reflexivity. Qed.

End NeverRetries.

Create HintDb own.

#[local] Hint Resolve own_ret own_commit own_assign own_payment_query
  own_order_query own_webhook_query : own.

Ltac own :=
  repeat first
    [ apply own_bind; [| intros ? ]
    | solve [ auto with own ]
    | apply own_raise; reflexivity
    | apply own_lift; intros ? ?;
      first [ eapply get_or_raises_no_retry; eassumption
            | eapply div100_raises_no_retry; eassumption ]
    | match goal with
      | |- never_retries (if ?b then _ else _) => destruct b
      | |- never_retries (match ?x with _ => _ end) => destruct x
      end ].

Lemma dispatch_never_retries (event_type : string) (payload : json) :
  never_retries (Tasks.dispatch event_type payload).
Proof.
  unfold Tasks.dispatch, Tasks.process_payment_authorized,
    Tasks.process_payment_captured, Tasks.process_payment_failed,
    Tasks.process_order_paid, get.
  own.
Qed.

Lemma apply_event_never_retries (env : Env) (w : WebhookEvent.t) :
  never_retries (Tasks.apply_event env w).
Proof.
  unfold Tasks.apply_event. own. apply dispatch_never_retries.
Qed.

(** ** Every failure of a task with the retry options *)

Lemma execute_runs_the_task (env : Env) (c : Endpoints.call) (d : DB) :
  Endpoints.execute env c d
  = Celery.apply_async (Endpoints.task_of env c) (Endpoints.options_of c) d.
Proof. destruct c; reflexivity. Qed.

(** Whatever a task declared with the retry options fails with, it is
    what [self.retry] made of the exception its body raised. *)
Lemma failure_is_handed_to_retry (env : Env) (c : Endpoints.call)
  (self : Celery.task) (d d' : DB) (x : exn) :
  Endpoints.options_of c = Some Tasks.retry_policy ->
  Endpoints.task_of env c self d = (d', inl x) ->
  exists e, is_Retry e = false /\ x = Celery.retry self e.
Proof.
  intros Hopt Hrun.
  destruct c as [webhook_id | mandate_id payment_data
                | customer_id mandate_id order_data | mandate_id];
    cbn [Endpoints.task_of] in Hrun; [| | |discriminate Hopt].
  - destruct (find (fun x => Nat.eqb (WebhookEvent.id x) webhook_id)
                   (webhook_events d)) as [w|] eqn:Hw.
    + destruct (WebhookEvent.processed w) eqn:Hp.
      * rewrite (already_processed_short_circuits env self webhook_id d w Hw Hp)
          in Hrun.
        discriminate Hrun.
      * destruct (Tasks.apply_event env w (open d)) as [s' r] eqn:Happly.
        destruct (process_webhook_event_outcome env self webhook_id d w s' r
                    Hw Hp Happly) as [Hout _].
        rewrite Hout in Hrun. destruct r as [e|[]]; [|discriminate Hrun].
        injection Hrun as _ <-. exists e. split; [|reflexivity].
        apply (apply_event_never_retries env w _ _ _ Happly).
    + rewrite (webhook_task_without_row env self webhook_id d Hw) in Hrun.
      injection Hrun as _ <-. eexists. split; [|reflexivity]. reflexivity.
  - rewrite recurring_task_outcome in Hrun. injection Hrun as _ <-.
    eexists. split; [|reflexivity].
    destruct (find _ (mandates d)) as [m|]; [|reflexivity].
    destruct (MandateStatus.eqb _ _); [|reflexivity].
    destruct (assoc "amount" payment_data); reflexivity.
  - rewrite authorization_task_outcome in Hrun. injection Hrun as _ <-.
    eexists. split; [|reflexivity].
    destruct (find _ (mandates d)); reflexivity.
Qed.

(** The worker loop on a body that hands every failure to [self.retry]:
    a failed attempt is rescheduled 60 later while fewer than three were
    made, and the third failure is final. *)
Lemma call_goes_by_the_policy {St R : Type}
  (body : Celery.task -> St -> St * (exn + R)) :
  (forall self s s' x,
      body self s = (s', inl x) ->
      exists e, is_Retry e = false /\ x = Celery.retry self e) ->
  forall s,
    let '(_, st, log) := Celery.apply_async body (Some Tasks.retry_policy) s in
    Celery.under_policy Tasks.retry_policy st log.
Proof.
  intros Hbody s. unfold Celery.apply_async.
  change (Celery.max_retries Tasks.retry_policy) with 3%nat.
  set (kw := Some Tasks.retry_policy).
  cbn [Celery.run].
  destruct (body (Celery.mkTask kw 0) s) as [s1 [x1|r1]] eqn:E1.
  2:{ cbv beta iota zeta. split; [cbn; lia | constructor]. }
  destruct (Hbody _ _ _ _ E1) as [e1 [_ ->]].
  unfold Celery.retry at 1. cbn.
  destruct (body (Celery.mkTask kw 1) s1) as [s2 [x2|r2]] eqn:E2.
  2:{ cbv beta iota zeta. split; [cbn; lia | repeat constructor]. }
  destruct (Hbody _ _ _ _ E2) as [e2 [_ ->]].
  unfold Celery.retry at 1. cbn.
  destruct (body (Celery.mkTask kw 2) s2) as [s3 [x3|r3]] eqn:E3.
  2:{ cbv beta iota zeta. split; [cbn; lia | repeat constructor]. }
  destruct (Hbody _ _ _ _ E3) as [e3 [He3 ->]].
  unfold Celery.retry at 1. cbn.
  destruct e3; try discriminate He3;
    (cbv beta iota zeta; split; [reflexivity|];
     exists [Celery.mkAttempt e1 (Some 60); Celery.mkAttempt e2 (Some 60)];
     split; [reflexivity | repeat constructor]).
Qed.

(** The validation task fails in one way only, and leaves the store as
    it was when it does. *)
Lemma validation_task_failure (self : Celery.task) (mandate_id : nat)
  (d d' : DB) (x : exn) :
  Tasks.validate_mandate_status self mandate_id d = (d', inl x) ->
  x = ValueError "Mandate not found" /\ d' = d.
Proof.
  intros Hrun.
  destruct (find (fun x => Nat.eqb (Mandate.id x) mandate_id) (mandates d))
    as [m|] eqn:Hm.
  - destruct (Tasks.str_truthy (Mandate.razorpay_mandate_id m)) eqn:Hgw.
    + rewrite (validate_confirms_any_status self mandate_id d m Hm Hgw) in Hrun.
      discriminate Hrun.
    + rewrite (validate_without_gateway_id self mandate_id d m Hm Hgw) in Hrun.
      discriminate Hrun.
  - rewrite (validate_missing self mandate_id d Hm) in Hrun.
    injection Hrun as <- <-. split; reflexivity.
Qed.

(** ** The retry policy and validation errors *)

(** C3, as the claim states it, fails: an authorization task whose
    mandate does not exist, a validation failure, is rescheduled by its
    first attempt and runs three times before it fails for good. *)
Lemma validation_failure_is_retried :
  let d := Scenario.store [] [] [] in
  Tasks.process_emandate_authorization Scenario.env Scenario.first_attempt 1 1 [] d
  = (d, inl (Retry (ValueError "Mandate not found") 60))
  /\ exists log,
       Endpoints.execute Scenario.env (Endpoints.ProcessEmandateAuthorization 1 1 []) d
       = (d, Celery.FAILURE (ValueError "Mandate not found"), log)
       /\ List.length log = 3%nat.
Proof.
  intros d. split; [reflexivity|].
  eexists. split; [vm_compute; reflexivity|]. reflexivity.
Qed.

(** C3, amended.  In the tasks declared with the retry options (the
    authorization, recurring-payment and webhook tasks) every failure,
    transient or not, is handed to [self.retry]: whatever such a task
    fails with is what [self.retry] made of the exception of its body.
    So a failed attempt is rescheduled 60 time units later while fewer
    than three attempts were made, and the third failure marks the call
    failed for good.  A validation error does not bypass this: a call
    that fails with "Mandate not found" or "Mandate is not confirmed" is
    attempted exactly three times.  The validation task alone is declared
    without the options and re-raises: it fails only with "Mandate not
    found", leaving the store as it was, and is attempted once. *)
Theorem every_failure_goes_through_retry (env : Env) :
  let three_attempts e :=
    [Celery.mkAttempt e (Some 60); Celery.mkAttempt e (Some 60);
     Celery.mkAttempt e None] in
  (forall c self d d' x,
      Endpoints.options_of c = Some Tasks.retry_policy ->
      Endpoints.task_of env c self d = (d', inl x) ->
      exists e, is_Retry e = false /\ x = Celery.retry self e)
  /\ (forall c d,
        Endpoints.options_of c = Some Tasks.retry_policy ->
        let '(_, st, log) := Endpoints.execute env c d in
        Celery.under_policy Tasks.retry_policy st log)
  /\ (forall d customer_id missing_id order_data,
        find (fun x => Nat.eqb (Mandate.id x) missing_id) (mandates d) = None ->
        Endpoints.execute env
          (Endpoints.ProcessEmandateAuthorization customer_id missing_id order_data)
          d
        = (d, Celery.FAILURE (ValueError "Mandate not found"),
           three_attempts (ValueError "Mandate not found")))
  /\ (forall d mandate_id payment_data,
        find (fun x => Nat.eqb (Mandate.id x) mandate_id) (mandates d) = None ->
        Endpoints.execute env
          (Endpoints.ProcessRecurringPayment mandate_id payment_data) d
        = (d, Celery.FAILURE (ValueError "Mandate not found"),
           three_attempts (ValueError "Mandate not found")))
  /\ (forall d mandate_id payment_data mandate,
        find (fun x => Nat.eqb (Mandate.id x) mandate_id) (mandates d)
        = Some mandate ->
        Mandate.status mandate <> MandateStatus.CONFIRMED ->
        Endpoints.execute env
          (Endpoints.ProcessRecurringPayment mandate_id payment_data) d
        = (d, Celery.FAILURE (ValueError "Mandate is not confirmed"),
           three_attempts (ValueError "Mandate is not confirmed")))
  /\ (forall self mandate_id d d' x,
        Tasks.validate_mandate_status self mandate_id d = (d', inl x) ->
        x = ValueError "Mandate not found" /\ d' = d)
  /\ (forall d mandate_id,
        find (fun x => Nat.eqb (Mandate.id x) mandate_id) (mandates d) = None ->
        Endpoints.execute env (Endpoints.ValidateMandateStatus mandate_id) d
        = (d, Celery.FAILURE (ValueError "Mandate not found"),
           [Celery.mkAttempt (ValueError "Mandate not found") None])).
Proof.
  intros three_attempts. repeat split.
  - intros c self d d' x Hopt Hrun.
    apply (failure_is_handed_to_retry env c self d d' x Hopt Hrun).
  - intros c d Hopt. rewrite execute_runs_the_task, Hopt.
    apply call_goes_by_the_policy.
    intros self s s' x Hrun.
    apply (failure_is_handed_to_retry env c self s s' x Hopt Hrun).
  - intros d customer_id missing_id order_data Hmissing.
    cbn [Endpoints.execute].
    apply always_failing_call_runs_three_times; [reflexivity|].
    intros self. apply task_mandate_not_found_authorization. exact Hmissing.
  - intros d mandate_id payment_data Hmissing.
    cbn [Endpoints.execute].
    apply always_failing_call_runs_three_times; [reflexivity|].
    intros self. apply task_mandate_not_found_recurring. exact Hmissing.
  - intros d mandate_id payment_data mandate Hfound Hstatus.
    cbn [Endpoints.execute].
    apply always_failing_call_runs_three_times; [reflexivity|].
    intros self.
    apply (recurring_task_requires_confirmed _ _ _ _ _ _ Hfound Hstatus).
  - apply (validation_task_failure _ _ _ _ _ H).
  - apply (validation_task_failure _ _ _ _ _ H).
  - intros d mandate_id Hmissing. cbn [Endpoints.execute].
    unfold Celery.apply_async. cbn [Celery.run].
    rewrite (validate_missing _ mandate_id d Hmissing). reflexivity.
Qed.

Lemma every_failure_goes_through_retry_witness :
  let m := Scenario.mandate MandateStatus.AUTHORIZED (Some "mandate_mock_1") in
  let d := Scenario.store [m] [] [] in
  let three_attempts e :=
    [Celery.mkAttempt e (Some 60); Celery.mkAttempt e (Some 60);
     Celery.mkAttempt e None] in
  let failed := Tasks.process_recurring_payment Scenario.env
                  (Celery.mkTask (Some Tasks.retry_policy) 2) 1 [] d in
  find (fun x => Nat.eqb (Mandate.id x) 7) (mandates d) = None
  /\ find (fun x => Nat.eqb (Mandate.id x) 1) (mandates d) = Some m
  /\ snd failed = inl (ValueError "Mandate is not confirmed")
  /\ (exists e,
         is_Retry e = false
         /\ ValueError "Mandate is not confirmed"
            = Celery.retry (Celery.mkTask (Some Tasks.retry_policy) 2) e)
  /\ Celery.under_policy Tasks.retry_policy
       (@Celery.FAILURE Tasks.result (ValueError "Mandate is not confirmed"))
       (three_attempts (ValueError "Mandate is not confirmed"))
  /\ Endpoints.execute Scenario.env (Endpoints.ProcessEmandateAuthorization 1 7 []) d
     = (d, Celery.FAILURE (ValueError "Mandate not found"),
        three_attempts (ValueError "Mandate not found"))
  /\ Endpoints.execute Scenario.env (Endpoints.ProcessRecurringPayment 7 []) d
     = (d, Celery.FAILURE (ValueError "Mandate not found"),
        three_attempts (ValueError "Mandate not found"))
  /\ Endpoints.execute Scenario.env (Endpoints.ProcessRecurringPayment 1 []) d
     = (d, Celery.FAILURE (ValueError "Mandate is not confirmed"),
        three_attempts (ValueError "Mandate is not confirmed"))
  /\ Endpoints.execute Scenario.env (Endpoints.ValidateMandateStatus 7) d
     = (d, Celery.FAILURE (ValueError "Mandate not found"),
        [Celery.mkAttempt (ValueError "Mandate not found") None]).
Proof.
  intros m d three_attempts failed.
  assert (Hst : Mandate.status m <> MandateStatus.CONFIRMED) by discriminate.
  assert (Hmissing : find (fun x => Nat.eqb (Mandate.id x) 7) (mandates d) = None)
    by reflexivity.
  assert (Hfound : find (fun x => Nat.eqb (Mandate.id x) 1) (mandates d) = Some m)
    by reflexivity.
  assert (Hfailed : Endpoints.task_of Scenario.env
                      (Endpoints.ProcessRecurringPayment 1 [])
                      (Celery.mkTask (Some Tasks.retry_policy) 2) d
                    = (d, inl (ValueError "Mandate is not confirmed")))
    by reflexivity.
  destruct (every_failure_goes_through_retry Scenario.env)
    as [Hhanded [Hpolicy [Ha [Hr0 [Hr [_ Hv]]]]]].
  pose proof (Hpolicy (Endpoints.ProcessRecurringPayment 1 []) d eq_refl) as Hlog.
  rewrite (Hr d 1%nat [] m Hfound Hst) in Hlog.
  split; [exact Hmissing|]. split; [exact Hfound|]. split; [reflexivity|].
  split; [exact (Hhanded (Endpoints.ProcessRecurringPayment 1 []) _ _ _ _
                   eq_refl Hfailed)|].
  split; [exact Hlog|].
  split; [exact (Ha d 1%nat 7%nat [] Hmissing)|].
  split; [exact (Hr0 d 7%nat [] Hmissing)|].
  split; [exact (Hr d 1%nat [] m Hfound Hst)|].
  exact (Hv d 7%nat Hmissing).
Defined.
